(** * Flocka API: the card exchange reconciliation routes

    A shallow embedding of the exchange routes of the Flocka backend
    (Hono handlers over a Cloudflare D1 database):
    - [ExchangesV1]: [src/routes/exchanges.ts] (collect, update, delete,
      URL mutual exchange, token info, QR exchange with token deletion,
      proximity request and response);
    - [ExchangesV2]: the later exchanges router (collect, update, delete,
      QR token generation, instant bidirectional QR exchange, QR log feed);
    - [Cards]: the exchange credential issuing routes of the cards router;
    - [QR]: [parseCardExchangeQRData] of the QR utilities;
    - the cleanup router ([POST /cleanup/expired-tokens],
      [GET /cleanup/stats]).

    The database is an explicit state (one list per table, in insertion
    order).  A handler is a computation in a small state/early-return/
    exception monad: [c.json(...)] inside the [try] is an early return,
    an exception of the database (a violated UNIQUE constraint, an
    [undefined] binding, a missing table) aborts the
    remaining statements and is turned into a response by the handler's
    [catch].  D1 has no multi-statement transactions, so every statement
    already run stays committed when a later one throws.

    Modelling conventions:
    - ids (users, cards, exchange rows, tokens, logs, requests) are [nat];
      [crypto.randomUUID()] draws are explicit arguments of the handlers
      (UUIDs are assumed not to collide, the PRIMARY KEY on [id] is not
      re-checked on insert); a path segment [:id] is the text of an id,
      [string_of_id];
    - [Date.now()] is an explicit argument [now] (milliseconds, [Z]); the
      SQL clock [datetime("now")] is the same instant;
    - a stored [expires_at] is a [Stamp]: SQL datetime text, ordered as
      the instants it denotes (compared in milliseconds, as the request
      expiries), or ISO 8601 text, which SQLite compares with the
      datetime text character by character;
    - a request body field that a handler passes to [.bind(...)] as it
      is comes as [option (option A)]: [None] when the key is absent
      ([undefined]), [Some None] when it is [null]; D1 throws on an
      [undefined] binding before the statement runs.  A field the
      handlers only test for truthiness is [option A], [None] when it is
      absent or falsy;
    - the JSON value that [JSON.parse(atob(token))] or [JSON.parse(qrData)]
      yields is given as a record of optional fields, [None] for the whole
      value when the decoding throws; a [null] [expires] is given as
      [Some 0], the number JavaScript compares it as;
    - a router tries its routes in registration order and the first
      route whose pattern matches answers (no handler calls [next()]). *)

From Stdlib Require Import String List ZArith Bool Lia Permutation Sorting.Sorted.
Import ListNotations.

Local Open Scope Z_scope.

(* ------------------------------------------------------------------ *)
(** ** Data model (db/schema.sql) *)

Definition UserId := nat.
Definition CardId := nat.
Definition ExchangeId := nat.
Definition Token := nat.
Definition LogId := nat.
Definition RequestId := nat.

(** Table [users] (only the columns the exchange routes read). *)
Record User := mkUser {
  user_id : UserId;
  user_name : option string
}.

(** Table [cards]. *)
Record Card := mkCard {
  card_id : CardId;
  card_user_id : UserId;
  card_name : string
}.

(** Table [exchanges]: the Collection Ledger.
    [UNIQUE(owner_user_id, collected_card_id)]. *)
Record Exchange := mkExchange {
  ex_id : ExchangeId;
  owner_user_id : UserId;
  collected_card_id : CardId;
  memo : option string;
  location_name : option string;
  latitude : option Z;
  longitude : option Z;
  created_at : Z
}.

Inductive RequestStatus := Pending | Accepted | Rejected | Expired.

Definition status_eqb (a b : RequestStatus) : bool :=
  match a, b with
  | Pending, Pending | Accepted, Accepted
  | Rejected, Rejected | Expired, Expired => true
  | _, _ => false
  end.

(** Table [exchange_requests] (proximity exchange). *)
Record ExchangeRequest := mkRequest {
  rq_id : RequestId;
  from_user_id : UserId;
  to_user_id : UserId;
  rq_card_id : CardId;
  rq_message : option string;
  status : RequestStatus;
  rq_expires_at : Z
}.

(** A stored [expires_at] text, given by the instant it denotes:
    [datetime('now', '+30 minutes')] stores SQL datetime text
    ["YYYY-MM-DD HH:MM:SS"], [expiresAt.toISOString()] stores ISO 8601
    text ["YYYY-MM-DDTHH:MM:SS.sssZ"]. *)
Inductive Stamp :=
| SqlTime (t : Z)
| IsoText (t : Z).

(** Table [qr_exchange_tokens]. *)
Record QRToken := mkQRToken {
  qt_token : Token;
  qt_user_id : UserId;
  qt_card_id : CardId;
  qt_expires_at : Stamp
}.

(** Table [qr_exchange_logs]; [notified] is the 0/1 column. *)
Record QRLog := mkQRLog {
  log_id : LogId;
  qr_owner_user_id : UserId;
  scanner_user_id : UserId;
  scanner_card_id : CardId;
  qr_card_id : CardId;
  log_memo : option string;
  log_location_name : option string;
  log_latitude : option Z;
  log_longitude : option Z;
  notified : bool;
  log_created_at : Z
}.

Record State := mkState {
  users : list User;
  cards : list Card;
  exchanges : list Exchange;
  exchange_requests : list ExchangeRequest;
  qr_exchange_tokens : list QRToken;
  qr_exchange_logs : list QRLog
}.

Definition empty_state : State := mkState [] [] [] [] [] [].

Definition set_exchanges (st : State) (l : list Exchange) : State :=
  mkState (users st) (cards st) l (exchange_requests st)
          (qr_exchange_tokens st) (qr_exchange_logs st).
Definition set_requests (st : State) (l : list ExchangeRequest) : State :=
  mkState (users st) (cards st) (exchanges st) l
          (qr_exchange_tokens st) (qr_exchange_logs st).
Definition set_tokens (st : State) (l : list QRToken) : State :=
  mkState (users st) (cards st) (exchanges st) (exchange_requests st)
          l (qr_exchange_logs st).
Definition set_logs (st : State) (l : list QRLog) : State :=
  mkState (users st) (cards st) (exchanges st) (exchange_requests st)
          (qr_exchange_tokens st) l.

(* ------------------------------------------------------------------ *)
(** ** Responses: [c.json(body, status)] *)

(** A row of the QR log feed as [GET /exchanges/qr-logs] renders it. *)
Record LogView := mkLogView {
  lv_id : LogId;
  lv_scanner_user : UserId;
  lv_scanner_card : CardId;
  lv_qr_card : CardId;
  lv_notified : bool
}.

(** The QR payload [{type, cardId, userId, token, timestamp}]. *)
Record QRExchangeData := mkQRData {
  q_type : string;
  q_cardId : option CardId;
  q_userId : option UserId;
  q_token : option Token;
  q_timestamp : option Z
}.

(** The URL exchange token payload [{cardId, userId, timestamp, expires}];
    [cardId] is bound to SQL as it is. *)
Record TokenData := mkTokenData {
  td_cardId : option (option CardId);
  td_userId : option UserId;
  td_timestamp : option Z;
  td_expires : option Z
}.

Inductive Data :=
| NoData
| ExchangeRow (e : option Exchange)
| Collected (exchangeId : ExchangeId) (cardName : string)
| ExchangePair (id1 : ExchangeId) (collector1 : UserId) (card1 : CardId)
               (id2 : ExchangeId) (collector2 : UserId) (card2 : CardId)
| TokenInfo (cardId : CardId) (ownerId : UserId) (expiresAt : option Z)
| QRIssued (qrData : QRExchangeData) (token : Token) (expiresAt : Z)
| ExchangeUrl (token : TokenData) (cardId : CardId) (expiresAt : Z)
| QRDone (exchangeLogId : LogId) (yourNewCard : CardId) (yourCardSent : CardId)
| RequestSent (requestId : RequestId) (targetUser : UserId) (card : CardId)
| Logs (logs : list LogView) (total : nat) (newLogs : nat)
| Detail (exchange : Exchange) (card : Card) (creator : User)
| Requests (requests : list ExchangeRequest).

Inductive Response :=
| Ok (code : nat) (d : Data)
| Fail (code : nat) (error : string)
| FailTyped (code : nat) (error : string) (errorType : string).

Definition success (r : Response) : bool :=
  match r with Ok _ _ => true | _ => false end.

Definition http_status (r : Response) : nat :=
  match r with Ok c _ | Fail c _ | FailTyped c _ _ => c end.

(* ------------------------------------------------------------------ *)
(** ** The handler monad *)

(** Database exceptions the routes can hit. *)
Inductive DbError :=
| UniqueConstraintFailed   (* "UNIQUE constraint failed: ..." *)
| BindUndefined            (* "D1_TYPE_ERROR: Type 'undefined' not supported ..." *)
| NoSuchTable              (* "no such table: ..." *).

Inductive Step (A : Type) :=
| Next (a : A)
| Return (r : Response)
| Throw (e : DbError).
Arguments Next {A} a.
Arguments Return {A} r.
Arguments Throw {A} e.

Definition M (A : Type) := State -> Step A * State.

Definition ret {A} (a : A) : M A := fun st => (Next a, st).

Definition bind {A B} (m : M A) (k : A -> M B) : M B :=
  fun st =>
    match m st with
    | (Next a, st') => k a st'
    | (Return r, st') => (Return r, st')
    | (Throw e, st') => (Throw e, st')
    end.

Notation "x <- m ;; k" := (bind m (fun x => k))
  (at level 61, m at next level, right associativity).
Notation "m ;;; k" := (bind m (fun _ => k))
  (at level 61, right associativity).

(** [return c.json(...)] inside the [try] block. *)
Definition reply {A} (r : Response) : M A := fun st => (Return r, st).

Definition get : M State := fun st => (Next st, st).

Definition modify (f : State -> State) : M unit :=
  fun st => (Next tt, f st).

Definition throw {A} (e : DbError) : M A := fun st => (Throw e, st).

(** [try { body } catch (error) { handler }]: the response and the final
    database. *)
Definition run_handler (catch : DbError -> Response) (body : M Response)
  (st : State) : Response * State :=
  match body st with
  | (Next r, st') => (r, st')
  | (Return r, st') => (r, st')
  | (Throw e, st') => (catch e, st')
  end.

(** A [let] of a tuple after a statement. *)
Notation "' p <- m ;; k" := (bind m (fun p => k))
  (at level 61, p pattern, m at next level, right associativity).

(** [.bind(..., v, ...)] of a request body field: D1 throws on
    [undefined] before the statement runs; [null] is bound as NULL. *)
Definition bound {A} (v : option (option A)) : M (option A) :=
  match v with
  | None => throw BindUndefined
  | Some x => ret x
  end.

(* ------------------------------------------------------------------ *)
(** ** Queries and statements *)

(** [SELECT ... FROM cards WHERE id = ?] *)
Definition find_card (st : State) (id : CardId) : option Card :=
  find (fun c => Nat.eqb (card_id c) id) (cards st).

(** [SELECT ... FROM cards WHERE id = ? AND user_id = ?] *)
Definition find_own_card (st : State) (id : CardId) (uid : UserId)
  : option Card :=
  find (fun c => Nat.eqb (card_id c) id && Nat.eqb (card_user_id c) uid)
       (cards st).

(** [SELECT id FROM users WHERE id = ?] *)
Definition find_user (st : State) (id : UserId) : option User :=
  find (fun u => Nat.eqb (user_id u) id) (users st).

(** [SELECT id FROM exchanges WHERE owner_user_id = ? AND collected_card_id = ?] *)
Definition find_collection (st : State) (owner : UserId) (cid : CardId)
  : option Exchange :=
  find (fun e => Nat.eqb (owner_user_id e) owner
                 && Nat.eqb (collected_card_id e) cid) (exchanges st).

(** [SELECT ... FROM exchanges WHERE id = ?] *)
Definition find_exchange (st : State) (id : ExchangeId) : option Exchange :=
  find (fun e => Nat.eqb (ex_id e) id) (exchanges st).

(** [INSERT INTO exchanges ...]: throws on the
    [UNIQUE(owner_user_id, collected_card_id)] constraint. *)
Definition insert_exchange (e : Exchange) : M unit :=
  fun st =>
    match find_collection st (owner_user_id e) (collected_card_id e) with
    | Some _ => (Throw UniqueConstraintFailed, st)
    | None => (Next tt, set_exchanges st (exchanges st ++ [e]))
    end.

(** [UPDATE exchanges SET ... WHERE id = ?] *)
Definition update_exchange_row (id : ExchangeId) (f : Exchange -> Exchange)
  : M unit :=
  modify (fun st =>
    set_exchanges st
      (map (fun e => if Nat.eqb (ex_id e) id then f e else e) (exchanges st))).

(** [DELETE FROM exchanges WHERE id = ?] *)
Definition delete_exchange_row (id : ExchangeId) : M unit :=
  modify (fun st =>
    set_exchanges st
      (filter (fun e => negb (Nat.eqb (ex_id e) id)) (exchanges st))).

(** [UPDATE exchange_requests SET status = ? WHERE id = ?] *)
Definition set_request_status (id : RequestId) (s : RequestStatus) : M unit :=
  modify (fun st =>
    set_requests st
      (map (fun r => if Nat.eqb (rq_id r) id
                     then mkRequest (rq_id r) (from_user_id r) (to_user_id r)
                            (rq_card_id r) (rq_message r) s (rq_expires_at r)
                     else r) (exchange_requests st))).

(** JavaScript [x || null] on a body field: [undefined], [null], [""] and
    [0] give NULL. *)
Definition or_null_s (o : option (option string)) : option string :=
  match o with Some (Some ""%string) => None | Some x => x | None => None end.
Definition or_null_z (o : option (option Z)) : option Z :=
  match o with Some (Some 0) => None | Some x => x | None => None end.

(** JavaScript [memo || default]. *)
Definition memo_or (o : option string) (d : string) : string :=
  match o with
  | Some s => if String.eqb s "" then d else s
  | None => d
  end.

(** The location fields of an exchange body. *)
Record Location := mkLocation {
  b_location_name : option (option string);
  b_latitude : option (option Z);
  b_longitude : option (option Z)
}.

(** All three location fields are in the body ([null] allowed). *)
Definition located (loc : Location) : bool :=
  match b_location_name loc, b_latitude loc, b_longitude loc with
  | Some _, Some _, Some _ => true
  | _, _, _ => false
  end.

(** [.bind(..., location_name, latitude, longitude)] as given. *)
Definition bind_location (loc : Location) : M (option string * option Z * option Z) :=
  n <- bound (b_location_name loc) ;;
  la <- bound (b_latitude loc) ;;
  lo <- bound (b_longitude loc) ;;
  ret (n, la, lo).

(* ------------------------------------------------------------------ *)
(** ** QR payload codec (utils/qr.ts) *)

Module QR.

(** [const maxAge = 30 * 60 * 1000] *)
Definition maxAge : Z := 30 * 60 * 1000.

(** The parsed QR content. *)
Record QRContent := mkQRContent {
  qc_cardId : CardId;
  qc_userId : UserId;
  qc_token : Token;
  qc_timestamp : option Z
}.

(** [Date.now() - data.timestamp > maxAge]; with no timestamp the
    subtraction is NaN and the comparison false. *)
Definition too_old (now : Z) (ts : option Z) : bool :=
  match ts with Some t => maxAge <? now - t | None => false end.

(** [parseCardExchangeQRData(qrData)]; [None] for [data] when
    [JSON.parse] throws. *)
Definition parseCardExchangeQRData (now : Z) (data : option QRExchangeData)
  : option QRContent :=
  match data with
  | None => None
  | Some d =>
      if negb (String.eqb (q_type d) "card_exchange") then None else
      match q_cardId d, q_userId d, q_token d with
      | Some c, Some u, Some t =>
          if too_old now (q_timestamp d) then None
          else Some (mkQRContent c u t (q_timestamp d))
      | _, _, _ => None
      end
  end.

(** [generateCardExchangeQRData(cardId, userId, exchangeToken)]. *)
Definition generateCardExchangeQRData (now : Z) (cardId : CardId)
  (userId : UserId) (exchangeToken : Token) : QRExchangeData :=
  mkQRData "card_exchange" (Some cardId) (Some userId) (Some exchangeToken)
           (Some now).

End QR.

(** [Date.now() > tokenData.expires]; with no [expires] the comparison
    against [undefined] is false. *)
Definition url_token_expired (now : Z) (expires : option Z) : bool :=
  match expires with Some e => e <? now | None => false end.

(** A JavaScript string literal wrapped in double quotes. *)
Definition dq (s : string) : string :=
  String (Ascii.ascii_of_nat 34) (s ++ String (Ascii.ascii_of_nat 34) EmptyString).

(** Decimal rendering of an id (inside a template literal, and as the
    text of a path segment). *)
Fixpoint digits_aux (fuel n : nat) (acc : string) : string :=
  match fuel with
  | O => acc
  | S f =>
      let d := String (Ascii.ascii_of_nat (48 + Nat.modulo n 10)) EmptyString in
      if Nat.ltb n 10 then (d ++ acc)%string
      else digits_aux f (Nat.div n 10) (d ++ acc)%string
  end.
Definition string_of_id (n : nat) : string := digits_aux (S n) n EmptyString.

(** The SQL condition [expires_at > datetime("now")] on SQL datetime
    text. *)
Definition live (now expires_at : Z) : bool := now <? expires_at.

(** The UTC day of an instant, the ["YYYY-MM-DD"] prefix that both texts
    start with (instants from 1970 to 9999). *)
Definition day (t : Z) : Z := t / 86400000.

(** [expires_at > datetime("now")] on a stored stamp.  ISO text against
    datetime text compares the dates first; on the same date the
    character after the date is ["T"] (0x54) in the ISO text and a space
    (0x20) in [datetime("now")], so the row is live until the end of its
    UTC day. *)
Definition stamp_live (now : Z) (s : Stamp) : bool :=
  match s with
  | SqlTime t => live now t
  | IsoText t => day now <=? day t
  end.

(** [SELECT * FROM qr_exchange_tokens WHERE token = ? AND expires_at > datetime("now")] *)
Definition find_live_token (st : State) (now : Z) (tok : Token)
  : option QRToken :=
  find (fun t => Nat.eqb (qt_token t) tok && stamp_live now (qt_expires_at t))
       (qr_exchange_tokens st).

(** The URL exchange token check shared by [POST /exchanges/mutual] and
    [GET /exchanges/token-info]: [JSON.parse(atob(token))] and then
    [if (Date.now() > tokenData.expires)].  Nothing else is consulted. *)
Definition check_url_token (now : Z) (decoded : option TokenData)
  (invalid expired : string) : M TokenData :=
  match decoded with
  | None => reply (Fail 400 invalid)
  | Some tokenData =>
      if url_token_expired now (td_expires tokenData)
      then reply (Fail 400 expired)
      else ret tokenData
  end.

(** [SELECT ... FROM cards WHERE id = ?] bound to a nullable value: NULL
    matches no row. *)
Definition find_card_opt (st : State) (id : option CardId) : option Card :=
  match id with Some c => find_card st c | None => None end.

(* ------------------------------------------------------------------ *)
(** ** Routing (Hono) *)

(** The pattern of a one-segment route ([/token-info], [/:id]). *)
Inductive Pattern :=
| Lit (s : string)
| Param.

Definition pattern_matches (p : Pattern) (seg : string) : bool :=
  match p with Lit s => String.eqb s seg | Param => true end.

(** The handler of the first route, in registration order, whose pattern
    matches the segment. *)
Definition first_route {H} (routes : list (Pattern * H)) (seg : string)
  : option H :=
  option_map snd (find (fun r => pattern_matches (fst r) seg) routes).

(** [SELECT e.*, c.*, u.* FROM exchanges e JOIN cards c ON
    e.collected_card_id = c.id JOIN users u ON c.user_id = u.id
    WHERE e.id = ? AND e.owner_user_id = ?], [.first()]; the path segment
    is bound as text. *)
Definition detail_row (st : State) (e : Exchange) : option (Exchange * Card * User) :=
  match find_card st (collected_card_id e) with
  | None => None
  | Some c =>
      match find_user st (card_user_id c) with
      | None => None
      | Some u => Some (e, c, u)
      end
  end.

Definition exchange_detail (st : State) (caller : UserId) (seg : string)
  : option (Exchange * Card * User) :=
  hd_error (flat_map (fun e =>
    if String.eqb (string_of_id (ex_id e)) seg && Nat.eqb (owner_user_id e) caller
    then match detail_row st e with Some r => [r] | None => [] end
    else []) (exchanges st)).

(* ------------------------------------------------------------------ *)
(** ** src/routes/exchanges.ts *)

Module ExchangesV1.

Local Open Scope string_scope.

(** [CreateExchangeRequest] *)
Record CreateExchangeRequest := mkCreate {
  cr_collected_card_id : option CardId;
  cr_memo : option (option string);
  cr_location : Location
}.

(** [POST /exchanges]: add a card to the caller's collection. *)
Definition post_exchanges_body (caller : UserId) (now : Z)
  (exchangeId : ExchangeId) (body : CreateExchangeRequest) : M Response :=
  match cr_collected_card_id body with
  | None => reply (Fail 400 "Card ID is required")
  | Some collected_card_id =>
      st <- get ;;
      match find_card st collected_card_id with
      | None => reply (Fail 404 "Card not found")
      | Some targetCard =>
          if Nat.eqb (card_user_id targetCard) caller
          then reply (Fail 400 "You cannot collect your own card") else
          match find_collection st caller collected_card_id with
          | Some _ => reply (Fail 409 "You have already collected this card")
          | None =>
              let loc := cr_location body in
              insert_exchange
                (mkExchange exchangeId caller collected_card_id
                   (or_null_s (cr_memo body))
                   (or_null_s (b_location_name loc))
                   (or_null_z (b_latitude loc)) (or_null_z (b_longitude loc))
                   now) ;;;
              st' <- get ;;
              ret (Ok 201 (ExchangeRow (find_exchange st' exchangeId)))
          end
      end
  end.

Definition post_exchanges caller now exchangeId body :=
  run_handler (fun _ => Fail 500 "Failed to collect card")
              (post_exchanges_body caller now exchangeId body).

(** [UpdateExchangeRequest]: [None] is [undefined], [Some None] is [null]. *)
Record UpdateExchangeRequest := mkUpdate {
  up_memo : option (option string);
  up_location_name : option (option string);
  up_latitude : option (option Z);
  up_longitude : option (option Z)
}.

(** The [SET] list the handler builds. *)
Definition no_fields (b : UpdateExchangeRequest) : bool :=
  match up_memo b, up_location_name b, up_latitude b, up_longitude b with
  | None, None, Some _, Some _ => false
  | None, None, _, _ => true
  | _, _, _, _ => false
  end.

Definition apply_update (b : UpdateExchangeRequest) (e : Exchange) : Exchange :=
  let '(la, lo) :=
    match up_latitude b, up_longitude b with
    | Some la, Some lo => (la, lo)
    | _, _ => (latitude e, longitude e)
    end in
  mkExchange (ex_id e) (owner_user_id e) (collected_card_id e)
    (match up_memo b with Some m => m | None => memo e end)
    (match up_location_name b with Some l => l | None => location_name e end)
    la lo (created_at e).

(** [PUT /exchanges/:id] *)
Definition put_exchange_body (caller : UserId) (exchangeId : ExchangeId)
  (body : UpdateExchangeRequest) : M Response :=
  st <- get ;;
  match find_exchange st exchangeId with
  | None => reply (Fail 404 "Exchange record not found")
  | Some existingExchange =>
      if negb (Nat.eqb (owner_user_id existingExchange) caller)
      then reply (Fail 403 "You are not authorized to update this exchange")
      else if no_fields body then reply (Fail 400 "No fields to update")
      else
        update_exchange_row exchangeId (apply_update body) ;;;
        st' <- get ;;
        ret (Ok 200 (ExchangeRow (find_exchange st' exchangeId)))
  end.

Definition put_exchange caller exchangeId body :=
  run_handler (fun _ => Fail 500 "Failed to update exchange record")
              (put_exchange_body caller exchangeId body).

(** [DELETE /exchanges/:id] *)
Definition delete_exchange_body (caller : UserId) (exchangeId : ExchangeId)
  : M Response :=
  st <- get ;;
  match find_exchange st exchangeId with
  | None => reply (Fail 404 "Exchange record not found")
  | Some existingExchange =>
      if negb (Nat.eqb (owner_user_id existingExchange) caller)
      then reply (Fail 403 "You are not authorized to delete this exchange")
      else
        delete_exchange_row exchangeId ;;;
        ret (Ok 200 NoData)
  end.

Definition delete_exchange caller exchangeId :=
  run_handler (fun _ => Fail 500 "Failed to delete exchange record")
              (delete_exchange_body caller exchangeId).

(** [GET /exchanges/:id]: the caller's exchange row with its card and the
    card's creator ([JSON.parse(links)] of the card is not modelled). *)
Definition get_exchange_body (caller : UserId) (seg : string) : M Response :=
  st <- get ;;
  match exchange_detail st caller seg with
  | None => reply (Fail 404 "Exchange record not found")
  | Some (e, c, u) => ret (Ok 200 (Detail e c u))
  end.

Definition get_exchange caller seg :=
  run_handler (fun _ => Fail 500 "Failed to get exchange record")
              (get_exchange_body caller seg).

(** Body of [POST /exchanges/mutual]; [me_exchangeToken] is [None] when
    absent, [Some None] when it does not decode. *)
Record MutualRequest := mkMutual {
  me_exchangeToken : option (option TokenData);
  me_myCardId : option CardId;
  me_memo : option string;
  me_location : Location
}.

(** [POST /exchanges/mutual]: URL token mutual exchange. *)
Definition post_mutual_body (caller : UserId) (now : Z)
  (exchangeId1 exchangeId2 : ExchangeId) (body : MutualRequest) : M Response :=
  match me_exchangeToken body, me_myCardId body with
  | Some exchangeToken, Some myCardId =>
      tokenData <- check_url_token now exchangeToken
                     "Invalid exchange token" "Exchange token has expired" ;;
      st <- get ;;
      cardId <- bound (td_cardId tokenData) ;;
      match find_card_opt st cardId with
      | None => reply (Fail 404 "Target card not found")
      | Some otherCard =>
          match find_own_card st myCardId caller with
          | None => reply (Fail 404 "Your card not found or not owned by you")
          | Some myCard =>
              if Nat.eqb (card_user_id otherCard) caller
              then reply (Fail 400 "Cannot exchange cards with yourself") else
              match find_collection st caller (card_id otherCard),
                    find_collection st (card_user_id otherCard) (card_id myCard)
              with
              | None, None =>
                  let loc := me_location body in
                  '(n, la, lo) <- bind_location loc ;;
                  insert_exchange
                    (mkExchange exchangeId1 caller (card_id otherCard)
                       (Some (memo_or (me_memo body)
                                ("URL交換で " ++ card_name otherCard ++ " を取得")))
                       n la lo now) ;;;
                  '(n, la, lo) <- bind_location loc ;;
                  insert_exchange
                    (mkExchange exchangeId2 (card_user_id otherCard) (card_id myCard)
                       (Some ("URL交換で " ++ card_name myCard ++ " を取得"))
                       n la lo now) ;;;
                  ret (Ok 200 (ExchangePair exchangeId1 caller (card_id otherCard)
                                 exchangeId2 (card_user_id otherCard) (card_id myCard)))
              | _, _ =>
                  reply (Fail 409 "Cards have already been exchanged between these users")
              end
          end
      end
  | _, _ => reply (Fail 400 "Exchange token and your card ID are required")
  end.

Definition post_mutual caller now exchangeId1 exchangeId2 body :=
  run_handler (fun _ => Fail 500 "Failed to exchange cards")
              (post_mutual_body caller now exchangeId1 exchangeId2 body).

(** [GET /exchanges/token-info?token=...] *)
Definition get_token_info_body (now : Z) (token : option (option TokenData))
  : M Response :=
  match token with
  | None => reply (Fail 400 "Token is required")
  | Some decoded =>
      tokenData <- check_url_token now decoded "Invalid token" "Token has expired" ;;
      st <- get ;;
      cardId <- bound (td_cardId tokenData) ;;
      (* cards c JOIN users u ON c.user_id = u.id WHERE c.id = ? *)
      match find_card_opt st cardId with
      | None => reply (Fail 404 "Card not found")
      | Some card =>
          match find_user st (card_user_id card) with
          | None => reply (Fail 404 "Card not found")
          | Some owner =>
              ret (Ok 200 (TokenInfo (card_id card) (user_id owner)
                             (td_expires tokenData)))
          end
      end
  end.

Definition get_token_info now token :=
  run_handler (fun _ => Fail 500 "Failed to get token info")
              (get_token_info_body now token).

(** Body of [POST /exchanges/qr]; [qrData] is [None] when absent and
    [Some None] when [JSON.parse] throws. *)
Record QRExchangeRequest := mkQRReq {
  qr_qrData : option (option QRExchangeData);
  qr_myCardId : option CardId;
  qr_memo : option string;
  qr_location : Location
}.

(** [POST /exchanges/qr]: this revision deletes the used token. *)
Definition post_qr_body (caller : UserId) (now : Z)
  (exchangeId1 exchangeId2 : ExchangeId) (body : QRExchangeRequest)
  : M Response :=
  match qr_qrData body, qr_myCardId body with
  | Some qrData, Some myCardId =>
      match QR.parseCardExchangeQRData now qrData with
      | None => reply (Fail 400 "Invalid or expired QR code")
      | Some qrContent =>
          st <- get ;;
          match find_live_token st now (QR.qc_token qrContent) with
          | None => reply (Fail 400 "QR code token is invalid or expired")
          | Some _ =>
              match find_card st (QR.qc_cardId qrContent) with
              | None => reply (Fail 404 "Target card not found")
              | Some otherCard =>
                  match find_own_card st myCardId caller with
                  | None => reply (Fail 404 "Your card not found or not owned by you")
                  | Some myCard =>
                      if Nat.eqb (card_user_id otherCard) caller
                      then reply (Fail 400 "Cannot exchange cards with yourself") else
                      match find_collection st caller (card_id otherCard),
                            find_collection st (card_user_id otherCard) (card_id myCard)
                      with
                      | None, None =>
                          let loc := qr_location body in
                          '(n, la, lo) <- bind_location loc ;;
                          insert_exchange
                            (mkExchange exchangeId1 caller (card_id otherCard)
                               (Some (memo_or (qr_memo body)
                                        ("QR交換で " ++ card_name otherCard ++ " を取得")))
                               n la lo now) ;;;
                          '(n, la, lo) <- bind_location loc ;;
                          insert_exchange
                            (mkExchange exchangeId2 (card_user_id otherCard) (card_id myCard)
                               (Some ("QR交換で " ++ card_name myCard ++ " を取得"))
                               n la lo now) ;;;
                          (* DELETE FROM qr_exchange_tokens WHERE token = ? *)
                          modify (fun st' => set_tokens st'
                            (filter (fun t => negb (Nat.eqb (qt_token t)
                                                        (QR.qc_token qrContent)))
                                    (qr_exchange_tokens st'))) ;;;
                          ret (Ok 200 (ExchangePair exchangeId1 caller (card_id otherCard)
                                         exchangeId2 (card_user_id otherCard)
                                         (card_id myCard)))
                      | _, _ =>
                          reply (Fail 409 "Cards have already been exchanged between these users")
                      end
                  end
              end
          end
      end
  | _, _ => reply (Fail 400 "QR data and your card ID are required")
  end.

Definition post_qr caller now exchangeId1 exchangeId2 body :=
  run_handler (fun _ => Fail 500 "Failed to exchange cards via QR code")
              (post_qr_body caller now exchangeId1 exchangeId2 body).

(** [SendExchangeRequestParams] *)
Record SendExchangeRequestParams := mkSendReq {
  sr_targetUserId : option UserId;
  sr_cardId : option CardId;
  sr_message : option (option string)
}.

(** [SELECT id FROM exchange_requests WHERE from_user_id = ? AND
    to_user_id = ? AND status = "pending" AND expires_at > datetime("now")] *)
Definition find_pending_between (st : State) (now : Z) (from to : UserId)
  : option ExchangeRequest :=
  find (fun r => Nat.eqb (from_user_id r) from && Nat.eqb (to_user_id r) to
                  && status_eqb (status r) Pending && live now (rq_expires_at r))
       (exchange_requests st).

(** [datetime("now", "+30 minutes")] *)
Definition request_ttl : Z := 30 * 60 * 1000.

(** [POST /exchanges/request]: send a proximity exchange request. *)
Definition post_request_body (caller : UserId) (now : Z) (requestId : RequestId)
  (body : SendExchangeRequestParams) : M Response :=
  match sr_targetUserId body, sr_cardId body with
  | Some targetUserId, Some cardId =>
      if Nat.eqb targetUserId caller
      then reply (Fail 400 "Cannot send exchange request to yourself") else
      st <- get ;;
      match find_own_card st cardId caller with
      | None => reply (Fail 404 "Card not found or not owned by you")
      | Some card =>
          match find_user st targetUserId with
          | None => reply (Fail 404 "Target user not found")
          | Some targetUser =>
              match find_pending_between st now caller targetUserId with
              | Some _ =>
                  reply (Fail 409 "You already have a pending exchange request with this user")
              | None =>
                  msg <- bound (sr_message body) ;;
                  modify (fun st' => set_requests st'
                    (exchange_requests st' ++
                       [mkRequest requestId caller targetUserId cardId
                          msg Pending (now + request_ttl)])) ;;;
                  ret (Ok 200 (RequestSent requestId (user_id targetUser) (card_id card)))
              end
          end
      end
  | _, _ => reply (Fail 400 "Target user ID and card ID are required")
  end.

Definition post_request caller now requestId body :=
  run_handler (fun _ => Fail 500 "Failed to send exchange request")
              (post_request_body caller now requestId body).

(** Body of [POST /exchanges/requests/:id/respond]. *)
Record RespondRequest := mkRespond {
  rs_action : string;
  rs_myCardId : option CardId;
  rs_memo : option string;
  rs_location : Location
}.

(** [SELECT * FROM exchange_requests WHERE id = ? AND to_user_id = ? AND
    status = "pending" AND expires_at > datetime("now")] *)
Definition find_pending_request (st : State) (now : Z) (id : RequestId)
  (to : UserId) : option ExchangeRequest :=
  find (fun r => Nat.eqb (rq_id r) id && Nat.eqb (to_user_id r) to
                  && status_eqb (status r) Pending && live now (rq_expires_at r))
       (exchange_requests st).

(** [POST /exchanges/requests/:id/respond]: accept or reject. *)
Definition post_respond_body (caller : UserId) (now : Z) (requestId : RequestId)
  (exchangeId1 exchangeId2 : ExchangeId) (body : RespondRequest) : M Response :=
  let action := rs_action body in
  if negb (String.eqb action "accept" || String.eqb action "reject")
  then reply (Fail 400 ("Action must be either " ++ dq "accept" ++ " or "
                         ++ dq "reject")) else
  match String.eqb action "accept", rs_myCardId body with
  | true, None => reply (Fail 400 "Your card ID is required when accepting")
  | _, myCardId =>
      st <- get ;;
      match find_pending_request st now requestId caller with
      | None => reply (Fail 404 "Exchange request not found or expired")
      | Some request =>
          if String.eqb action "reject" then
            set_request_status requestId Rejected ;;;
            ret (Ok 200 NoData)
          else
          match (match myCardId with
                 | Some m => find_own_card st m caller
                 | None => None end) with
          | None => reply (Fail 404 "Your card not found or not owned by you")
          | Some myCard =>
              match find_card st (rq_card_id request) with
              | None => reply (Fail 404 "Requested card not found")
              | Some otherCard =>
                  let loc := rs_location body in
                  '(n, la, lo) <- bind_location loc ;;
                  insert_exchange
                    (mkExchange exchangeId1 caller (card_id otherCard)
                       (Some (memo_or (rs_memo body)
                                ("近距離交換で " ++ card_name otherCard ++ " を取得")))
                       n la lo now) ;;;
                  '(n, la, lo) <- bind_location loc ;;
                  insert_exchange
                    (mkExchange exchangeId2 (card_user_id otherCard) (card_id myCard)
                       (Some ("近距離交換で " ++ card_name myCard ++ " を取得"))
                       n la lo now) ;;;
                  set_request_status requestId Accepted ;;;
                  ret (Ok 200 (ExchangePair exchangeId1 caller (card_id otherCard)
                                 exchangeId2 (card_user_id otherCard) (card_id myCard)))
              end
          end
      end
  end.

Definition post_respond caller now requestId exchangeId1 exchangeId2 body :=
  run_handler (fun _ => Fail 500 "Failed to respond to exchange request")
              (post_respond_body caller now requestId exchangeId1 exchangeId2 body).

(** [GET /exchanges/requests]: the requests addressed to the caller that
    are pending and unexpired, with their sender ([JOIN users]) and their
    card ([JOIN cards]).  Request rows carry no [created_at] in this
    model, so [ORDER BY er.created_at DESC] is not modelled: the selected
    rows are listed in table order. *)
Definition received_requests (st : State) (now : Z) (caller : UserId)
  : list ExchangeRequest :=
  filter (fun r => Nat.eqb (to_user_id r) caller && status_eqb (status r) Pending
                   && live now (rq_expires_at r)
                   && match find_user st (from_user_id r), find_card st (rq_card_id r) with
                      | Some _, Some _ => true
                      | _, _ => false
                      end)
         (exchange_requests st).

Definition get_requests (caller : UserId) (now : Z) (st : State) : Response * State :=
  run_handler (fun _ => Fail 500 "Failed to get exchange requests")
              (st <- get ;; ret (Ok 200 (Requests (received_requests st now caller)))) st.

(** The one-segment [GET] routes of the router, in registration order
    ([GET /] matches no one-segment path). *)
Definition get_routes (caller : UserId) (now : Z) (token : option (option TokenData))
  : list (Pattern * (string -> State -> Response * State)) :=
  [(Param, fun seg => get_exchange caller seg);
   (Lit "token-info", fun _ => get_token_info now token);
   (Lit "requests", fun _ => get_requests caller now)].

(** [GET /exchanges/<seg>]; [token] is the [?token=] query. *)
Definition get_segment (caller : UserId) (now : Z) (token : option (option TokenData))
  (seg : string) (st : State) : Response * State :=
  match first_route (get_routes caller now token) seg with
  | Some h => h seg st
  | None => (Fail 404 "404 Not Found", st)
  end.

End ExchangesV1.

(* ------------------------------------------------------------------ *)
(** ** The later exchanges router (instant bidirectional QR exchange) *)

Module ExchangesV2.

Local Open Scope string_scope.
Import ExchangesV1.

(** [POST /exchanges] of this router: same checks, fields bound as given. *)
Definition post_exchanges_body (caller : UserId) (now : Z)
  (exchangeId : ExchangeId) (body : CreateExchangeRequest) : M Response :=
  match cr_collected_card_id body with
  | None => reply (Fail 400 "Card ID is required")
  | Some collected_card_id =>
      st <- get ;;
      match find_card st collected_card_id with
      | None => reply (Fail 404 "Card not found")
      | Some card =>
          if Nat.eqb (card_user_id card) caller
          then reply (Fail 400 "Cannot collect your own card") else
          match find_collection st caller collected_card_id with
          | Some _ => reply (Fail 409 "Card already in your collection")
          | None =>
              m <- bound (cr_memo body) ;;
              '(n, la, lo) <- bind_location (cr_location body) ;;
              insert_exchange
                (mkExchange exchangeId caller collected_card_id m n la lo now) ;;;
              ret (Ok 200 (Collected exchangeId (card_name card)))
          end
      end
  end.

Definition post_exchanges caller now exchangeId body :=
  run_handler (fun _ => Fail 500 "Failed to create exchange")
              (post_exchanges_body caller now exchangeId body).

(** [error.message] of a database exception (its leading part). *)
Definition error_message (e : DbError) : string :=
  match e with
  | UniqueConstraintFailed => "UNIQUE constraint failed"
  | BindUndefined =>
      "D1_TYPE_ERROR: Type 'undefined' not supported for value 'undefined'"
  | NoSuchTable => "no such table: user_locations"
  end.

(** [s.includes(sub)] *)
Fixpoint includes (s sub : string) : bool :=
  String.prefix sub s ||
  match s with
  | EmptyString => false
  | String _ s' => includes s' sub
  end.

(** The [errorType] that the [catch] of [POST /exchanges/qr] gives an
    [Error]. *)
Definition qr_error_type (e : DbError) : string :=
  let m := error_message e in
  if includes m "UNIQUE constraint failed" then "duplicate_exchange_error"
  else if includes m "FOREIGN KEY constraint failed" then "foreign_key_error"
  else if includes m "no such table" || includes m "no such column"
  then "database_schema_error"
  else if includes m "bind" || includes m "parameter"
  then "parameter_binding_error"
  else "general_database_error".

(** The [errorType] that the [catch] of [POST /exchanges/qr/generate]
    gives an [Error]. *)
Definition generate_error_type (e : DbError) : string :=
  let m := error_message e in
  if includes m "UNIQUE constraint failed" then "duplicate_token_error"
  else if includes m "FOREIGN KEY constraint failed" then "foreign_key_error"
  else if includes m "no such table" || includes m "no such column"
  then "database_schema_error"
  else "general_database_error".

(** JavaScript [x ?? d] on a field that may be [undefined] or [null]. *)
Definition nullish {A} (o : option (option A)) (d : option A) : option A :=
  match o with Some (Some a) => Some a | _ => d end.

(** [PUT /exchanges/:id] of this router: all four columns are rewritten,
    [memo ?? ''] and the location fields [?? null]. *)
Definition put_exchange_body (caller : UserId) (exchangeId : ExchangeId)
  (body : UpdateExchangeRequest) : M Response :=
  let memo' := nullish (up_memo body) (Some "") in
  let location_name' := nullish (up_location_name body) None in
  let latitude' := nullish (up_latitude body) None in
  let longitude' := nullish (up_longitude body) None in
  st <- get ;;
  match find_exchange st exchangeId with
  | None => reply (Fail 404 "Exchange record not found")
  | Some existingExchange =>
      if negb (Nat.eqb (owner_user_id existingExchange) caller)
      then reply (Fail 403 "Not authorized to update this exchange")
      else
        update_exchange_row exchangeId (fun e =>
          mkExchange (ex_id e) (owner_user_id e) (collected_card_id e)
            memo' location_name' latitude' longitude' (created_at e)) ;;;
        ret (Ok 200 NoData)
  end.

Definition put_exchange caller exchangeId body :=
  run_handler (fun e => Fail 500 ("Failed to update exchange: " ++ error_message e))
              (put_exchange_body caller exchangeId body).

(** [DELETE /exchanges/:id] of this router. *)
Definition delete_exchange_body (caller : UserId) (exchangeId : ExchangeId)
  : M Response :=
  st <- get ;;
  match find_exchange st exchangeId with
  | None => reply (Fail 404 "Exchange record not found")
  | Some existingExchange =>
      if negb (Nat.eqb (owner_user_id existingExchange) caller)
      then reply (Fail 403 "Not authorized to delete this exchange")
      else
        delete_exchange_row exchangeId ;;;
        ret (Ok 200 NoData)
  end.

Definition delete_exchange caller exchangeId :=
  run_handler (fun _ => Fail 500 "Failed to delete exchange")
              (delete_exchange_body caller exchangeId).

(** [datetime('now', '+30 minutes')], the column default of
    [qr_exchange_tokens.expires_at]. *)
Definition qr_token_ttl : Z := 30 * 60 * 1000.

(** [POST /exchanges/qr/generate]: issue a QR token for one of the
    caller's cards, deleting the caller's earlier tokens for that card. *)
Definition post_qr_generate_body (caller : UserId) (now : Z) (token : Token)
  (cardId : option CardId) : M Response :=
  match cardId with
  | None => reply (Fail 400 "Card ID is required")
  | Some cardId =>
      st <- get ;;
      match find_own_card st cardId caller with
      | None => reply (Fail 404 "Card not found or not owned by you")
      | Some card =>
          (* DELETE FROM qr_exchange_tokens WHERE user_id = ? AND card_id = ? *)
          modify (fun st' => set_tokens st'
            (filter (fun t => negb (Nat.eqb (qt_user_id t) caller
                                    && Nat.eqb (qt_card_id t) cardId))
                    (qr_exchange_tokens st'))) ;;;
          modify (fun st' => set_tokens st'
            (qr_exchange_tokens st' ++
               [mkQRToken token caller cardId (SqlTime (now + qr_token_ttl))])) ;;;
          ret (Ok 200 (QRIssued (QR.generateCardExchangeQRData now cardId caller token)
                                token (now + 30 * 60 * 1000)))
      end
  end.

Definition post_qr_generate caller now token cardId :=
  run_handler
    (fun e => FailTyped 500 "Failed to generate QR token" (generate_error_type e))
    (post_qr_generate_body caller now token cardId).

(** The router's own [parseCardExchangeQRData(qrData)].  The fields
    [cardId], [userId], [token] and [timestamp] must all be truthy, so a
    timestamp of [0] is refused like a missing one.  The payload is
    refused when [(now - timestamp) / (1000 * 60) > 30], that is when
    [now - timestamp > 30 * 60 * 1000] (integer milliseconds divide
    exactly enough in double precision), and returned as parsed
    otherwise. *)
Definition parseCardExchangeQRData (now : Z) (data : option QRExchangeData)
  : option QRExchangeData :=
  match data with
  | None => None
  | Some d =>
      if negb (String.eqb (q_type d) "card_exchange") then None else
      match q_cardId d, q_userId d, q_token d, q_timestamp d with
      | Some _, Some _, Some _, Some qrTimestamp =>
          if Z.eqb qrTimestamp 0 then None
          else if Z.ltb (30 * 60 * 1000) (now - qrTimestamp) then None
          else Some d
      | _, _, _, _ => None
      end
  end.

(** The [qrData] field: a string not starting with ['{'] is an opaque
    token (BLE and the like); otherwise it is parsed as JSON. *)
Inductive QRInput :=
| QROpaque (token : Token)
| QRJson (data : option QRExchangeData).

Record QRExchangeRequest := mkQRReq2 {
  q2_qrData : option QRInput;
  q2_myCardId : option CardId;
  q2_memo : option string;
  q2_location : Location
}.

(** [POST /exchanges/qr]: instant bidirectional exchange.  A direction the
    ledger already holds is skipped; a log row is always appended; the
    token is left in place. *)
Definition post_qr_body (caller : UserId) (now : Z)
  (exchangeId1 exchangeId2 logId : ExchangeId) (body : QRExchangeRequest)
  : M Response :=
  match q2_qrData body, q2_myCardId body with
  | Some qrData, Some myCardId =>
      extracted <-
        (match qrData with
         | QROpaque t => ret (t, None)
         | QRJson d =>
             match parseCardExchangeQRData now d with
             | None => reply (Fail 400 "Invalid or expired QR code format")
             | Some qrContent =>
                 (* [token = qrContent.token; cardId = qrContent.cardId]: the
                    parser has checked that both are there *)
                 match q_token qrContent with
                 | Some t => ret (t, q_cardId qrContent)
                 | None => reply (Fail 400 "Invalid or expired QR code format")
                 end
             end
         end) ;;
      let '(token, cardId0) := extracted in
      st <- get ;;
      match find_live_token st now token with
      | None => reply (Fail 400 "QR code token is invalid or expired")
      | Some qrToken =>
          let cardId :=
            match cardId0 with Some c => c | None => qt_card_id qrToken end in
          match find_card st cardId with
          | None => reply (Fail 404 "Target card not found")
          | Some otherCard =>
              match find_own_card st myCardId caller with
              | None => reply (Fail 404 "Your card not found or not owned by you")
              | Some myCard =>
                  if Nat.eqb (card_user_id otherCard) caller
                  then reply (Fail 400 "Cannot exchange cards with yourself") else
                  let existingMyCollection :=
                    find_collection st caller (card_id otherCard) in
                  let existingOtherCollection :=
                    find_collection st (card_user_id otherCard) (card_id myCard) in
                  let loc := q2_location body in
                  (match existingMyCollection with
                   | None =>
                       insert_exchange
                         (mkExchange exchangeId1 caller (card_id otherCard)
                            (Some (memo_or (q2_memo body)
                                     ("QR交換: " ++ card_name otherCard)))
                            (or_null_s (b_location_name loc))
                            (or_null_z (b_latitude loc))
                            (or_null_z (b_longitude loc)) now)
                   | Some _ => ret tt
                   end) ;;;
                  (match existingOtherCollection with
                   | None =>
                       insert_exchange
                         (mkExchange exchangeId2 (card_user_id otherCard) (card_id myCard)
                            (Some ("QR交換: " ++ string_of_id caller ++ "から"))
                            (or_null_s (b_location_name loc))
                            (or_null_z (b_latitude loc))
                            (or_null_z (b_longitude loc)) now)
                   | Some _ => ret tt
                   end) ;;;
                  modify (fun st' => set_logs st'
                    (qr_exchange_logs st' ++
                       [mkQRLog logId (card_user_id otherCard) caller (card_id myCard)
                          (card_id otherCard)
                          (Some (memo_or (q2_memo body)
                                   (card_name myCard ++ " とのQR交換")))
                          (or_null_s (b_location_name loc))
                          (or_null_z (b_latitude loc))
                          (or_null_z (b_longitude loc)) false now])) ;;;
                  ret (Ok 200 (QRDone logId (card_id otherCard) (card_id myCard)))
              end
          end
      end
  | _, _ => reply (Fail 400 "QR data and your card ID are required")
  end.

(** The [catch] of [POST /exchanges/qr]. *)
Definition post_qr_catch (e : DbError) : Response :=
  FailTyped 500 "Failed to complete QR exchange" (qr_error_type e).

Definition post_qr caller now exchangeId1 exchangeId2 logId body :=
  run_handler post_qr_catch
              (post_qr_body caller now exchangeId1 exchangeId2 logId body).

(** [ORDER BY l.created_at DESC]: insertion sort, ties in table order. *)
Fixpoint insert_desc (l : QRLog) (ls : list QRLog) : list QRLog :=
  match ls with
  | [] => [l]
  | x :: xs =>
      if Z.ltb (log_created_at x) (log_created_at l) then l :: x :: xs
      else x :: insert_desc l xs
  end.

Fixpoint sort_desc (ls : list QRLog) : list QRLog :=
  match ls with
  | [] => []
  | x :: xs => insert_desc x (sort_desc xs)
  end.

(** The inner joins with [users scanner_user], [cards scanner_card] and
    [cards qr_card]. *)
Definition joins (st : State) (l : QRLog) : bool :=
  match find_user st (scanner_user_id l), find_card st (scanner_card_id l),
        find_card st (qr_card_id l) with
  | Some _, Some _, Some _ => true
  | _, _, _ => false
  end.

(** [WHERE l.qr_owner_user_id = ?] with the joins. *)
Definition log_rows (st : State) (caller : UserId) : list QRLog :=
  sort_desc (filter (fun l => Nat.eqb (qr_owner_user_id l) caller && joins st l)
                    (qr_exchange_logs st)).

Definition view_of (l : QRLog) : LogView :=
  mkLogView (log_id l) (scanner_user_id l) (scanner_card_id l) (qr_card_id l)
            (notified l).

(** [UPDATE qr_exchange_logs SET notified = 1 WHERE id = ?], once per id. *)
Fixpoint mark_notified (ids : list LogId) : M unit :=
  match ids with
  | [] => ret tt
  | id :: rest =>
      modify (fun st => set_logs st
        (map (fun l => if Nat.eqb (log_id l) id
                       then mkQRLog (log_id l) (qr_owner_user_id l)
                              (scanner_user_id l) (scanner_card_id l)
                              (qr_card_id l) (log_memo l) (log_location_name l)
                              (log_latitude l) (log_longitude l) true
                              (log_created_at l)
                       else l) (qr_exchange_logs st))) ;;;
      mark_notified rest
  end.

(** [GET /exchanges/qr-logs]: the caller's QR log feed; unread rows are
    marked as read. *)
Definition get_qr_logs_body (caller : UserId) : M Response :=
  st <- get ;;
  let logs := map view_of (log_rows st caller) in
  let unnotifiedLogs := filter (fun v => negb (lv_notified v)) logs in
  mark_notified (map lv_id unnotifiedLogs) ;;;
  ret (Ok 200 (Logs logs (length logs) (length unnotifiedLogs))).

Definition get_qr_logs caller :=
  run_handler (fun _ => FailTyped 500 "Failed to fetch QR exchange logs"
                                      "general_database_error")
              (get_qr_logs_body caller).

(** [SELECT id, qr_owner_user_id, scanner_user_id FROM qr_exchange_logs WHERE id = ?] *)
Definition find_log (st : State) (id : LogId) : option QRLog :=
  find (fun l => Nat.eqb (log_id l) id) (qr_exchange_logs st).

(** [DELETE /exchanges/qr/logs/:id]: the QR's owner or its scanner may
    delete a log row. *)
Definition delete_qr_log_body (caller : UserId) (logId : LogId) : M Response :=
  st <- get ;;
  match find_log st logId with
  | None => reply (Fail 404 "QR exchange log not found")
  | Some existingLog =>
      if negb (Nat.eqb (qr_owner_user_id existingLog) caller)
         && negb (Nat.eqb (scanner_user_id existingLog) caller)
      then reply (Fail 403 "Not authorized to delete this QR exchange log")
      else
        (* DELETE FROM qr_exchange_logs WHERE id = ? *)
        modify (fun st' => set_logs st'
          (filter (fun l => negb (Nat.eqb (log_id l) logId)) (qr_exchange_logs st'))) ;;;
        ret (Ok 200 NoData)
  end.

(** The [catch]: a message without a foreign key, schema or binding
    keyword is a [general_database_error]. *)
Definition delete_qr_log caller logId :=
  run_handler (fun _ => FailTyped 500 "Failed to delete QR exchange log"
                                      "general_database_error")
              (delete_qr_log_body caller logId).

(** [GET /exchanges/:id] of this router. *)
Definition get_exchange_body (caller : UserId) (seg : string) : M Response :=
  st <- get ;;
  match exchange_detail st caller seg with
  | None => reply (Fail 404 "Exchange record not found")
  | Some (e, c, u) => ret (Ok 200 (Detail e c u))
  end.

Definition get_exchange caller seg :=
  run_handler (fun _ => Fail 500 "Failed to fetch exchange")
              (get_exchange_body caller seg).

(** The one-segment [GET] routes of the router, in registration order. *)
Definition get_routes (caller : UserId)
  : list (Pattern * (string -> State -> Response * State)) :=
  [(Param, fun seg => get_exchange caller seg);
   (Lit "qr-logs", fun _ => get_qr_logs caller)].

(** [GET /exchanges/<seg>] *)
Definition get_segment (caller : UserId) (seg : string) (st : State)
  : Response * State :=
  match first_route (get_routes caller) seg with
  | Some h => h seg st
  | None => (Fail 404 "404 Not Found", st)
  end.

End ExchangesV2.

(* ------------------------------------------------------------------ *)
(** ** The cards router: exchange credential issuing, card lifecycle *)

Module Cards.

Local Open Scope string_scope.

(** [24 * 60 * 60 * 1000] *)
Definition url_ttl : Z := 24 * 60 * 60 * 1000.

(** [POST /cards/:id/generate-exchange-url]: the token is
    [btoa(JSON.stringify({cardId, userId, timestamp, expires}))]; nothing
    is stored. *)
Definition post_generate_exchange_url_body (caller : UserId) (now : Z)
  (cardId : CardId) : M Response :=
  st <- get ;;
  match find_own_card st cardId caller with
  | None => reply (Fail 404 "Card not found or not owned by you")
  | Some card =>
      ret (Ok 200 (ExchangeUrl
                     (mkTokenData (Some (Some (card_id card))) (Some caller) (Some now)
                                  (Some (now + url_ttl)))
                     (card_id card) (now + url_ttl)))
  end.

Definition post_generate_exchange_url caller now cardId :=
  run_handler (fun _ => Fail 500 "Failed to generate exchange URL")
              (post_generate_exchange_url_body caller now cardId).

(** [POST /cards/:id/generate-qr]: a new token row per call, its
    [expires_at] the text [expiresAt.toISOString()]. *)
Definition post_generate_qr_body (caller : UserId) (now : Z)
  (exchangeToken : Token) (cardId : CardId) : M Response :=
  st <- get ;;
  match find_own_card st cardId caller with
  | None => reply (Fail 404 "Card not found or not owned by you")
  | Some card =>
      let expiresAt := now + 30 * 60 * 1000 in
      modify (fun st' => set_tokens st'
        (qr_exchange_tokens st' ++
           [mkQRToken exchangeToken caller cardId (IsoText expiresAt)])) ;;;
      ret (Ok 200 (QRIssued (QR.generateCardExchangeQRData now cardId caller exchangeToken)
                            exchangeToken expiresAt))
  end.

Definition post_generate_qr caller now exchangeToken cardId :=
  run_handler (fun _ => Fail 500 "Failed to generate QR code")
              (post_generate_qr_body caller now exchangeToken cardId).

(** The [ON DELETE CASCADE] effect of [DELETE FROM cards WHERE id = ?]. *)
Definition cascade_delete_card (cid : CardId) (st : State) : State :=
  mkState (users st)
    (filter (fun c => negb (Nat.eqb (card_id c) cid)) (cards st))
    (filter (fun e => negb (Nat.eqb (collected_card_id e) cid)) (exchanges st))
    (filter (fun r => negb (Nat.eqb (rq_card_id r) cid)) (exchange_requests st))
    (filter (fun t => negb (Nat.eqb (qt_card_id t) cid)) (qr_exchange_tokens st))
    (filter (fun l => negb (Nat.eqb (scanner_card_id l) cid
                            || Nat.eqb (qr_card_id l) cid)) (qr_exchange_logs st)).

(** [DELETE /cards/:id] (the R2 image deletion has no database effect). *)
Definition delete_card_body (caller : UserId) (cardId : CardId) : M Response :=
  st <- get ;;
  match find_card st cardId with
  | None => reply (Fail 404 "Card not found")
  | Some existingCard =>
      if negb (Nat.eqb (card_user_id existingCard) caller)
      then reply (Fail 403 "You are not authorized to delete this card")
      else
        modify (cascade_delete_card cardId) ;;;
        ret (Ok 200 NoData)
  end.

Definition delete_card caller cardId :=
  run_handler (fun _ => Fail 500 "Failed to delete card")
              (delete_card_body caller cardId).

(** The row [POST /cards] inserts once its input validation passed:
    a fresh [crypto.randomUUID()] id owned by the caller. *)
Definition insert_card (c : Card) (st : State) : State :=
  mkState (users st) (cards st ++ [c]) (exchanges st) (exchange_requests st)
          (qr_exchange_tokens st) (qr_exchange_logs st).

End Cards.

(** The [ON DELETE CASCADE] effect of [DELETE FROM users WHERE id = ?]
    ([DELETE /users/me]): the user's cards and everything referring to
    the user or to those cards. *)
Definition cascade_delete_user (uid : UserId) (st : State) : State :=
  let gone (cid : CardId) :=
    existsb (fun c => Nat.eqb (card_id c) cid && Nat.eqb (card_user_id c) uid)
            (cards st) in
  mkState
    (filter (fun u => negb (Nat.eqb (user_id u) uid)) (users st))
    (filter (fun c => negb (Nat.eqb (card_user_id c) uid)) (cards st))
    (filter (fun e => negb (Nat.eqb (owner_user_id e) uid || gone (collected_card_id e)))
            (exchanges st))
    (filter (fun r => negb (Nat.eqb (from_user_id r) uid || Nat.eqb (to_user_id r) uid
                            || gone (rq_card_id r)))
            (exchange_requests st))
    (filter (fun t => negb (Nat.eqb (qt_user_id t) uid || gone (qt_card_id t)))
            (qr_exchange_tokens st))
    (filter (fun l => negb (Nat.eqb (qr_owner_user_id l) uid
                            || Nat.eqb (scanner_user_id l) uid
                            || gone (scanner_card_id l) || gone (qr_card_id l)))
            (qr_exchange_logs st)).

(** The row [POST /auth/register] inserts. *)
Definition insert_user (u : User) (st : State) : State :=
  mkState (users st ++ [u]) (cards st) (exchanges st) (exchange_requests st)
          (qr_exchange_tokens st) (qr_exchange_logs st).

(* ------------------------------------------------------------------ *)
(** ** The cleanup router *)

(** [UPDATE exchange_requests SET status = "expired" WHERE expires_at <=
    datetime("now") AND status = "pending"] on one row. *)
Definition expire_row (now : Z) (r : ExchangeRequest) : ExchangeRequest :=
  if negb (live now (rq_expires_at r)) && status_eqb (status r) Pending
  then mkRequest (rq_id r) (from_user_id r) (to_user_id r) (rq_card_id r)
                 (rq_message r) Expired (rq_expires_at r)
  else r.

(** [POST /cleanup/expired-tokens]: the token [DELETE], then
    [DELETE FROM user_locations ...], which throws: db/schema.sql has no
    [user_locations] table.  The request [UPDATE] after it is not
    reached. *)
Definition post_expired_tokens_body (now : Z) : M Response :=
  (* DELETE FROM qr_exchange_tokens WHERE expires_at <= datetime("now") *)
  modify (fun st => set_tokens st
    (filter (fun t => stamp_live now (qt_expires_at t)) (qr_exchange_tokens st))) ;;;
  (* DELETE FROM user_locations WHERE expires_at <= datetime("now") *)
  throw (A := unit) NoSuchTable ;;;
  modify (fun st => set_requests st (map (expire_row now) (exchange_requests st))) ;;;
  ret (Ok 200 NoData).

Definition post_expired_tokens (now : Z) (st : State) : Response * State :=
  run_handler (fun _ => Fail 500 "Failed to perform cleanup")
              (post_expired_tokens_body now) st.



(* ------------------------------------------------------------------ *)
(** ** Reachable databases *)

(** One request handled by any of the routes that write the tables the
    exchange engine reads.  Read-only routes leave the database as it is. *)
Inductive step : State -> State -> Prop :=
| step_v1_collect caller now xid body st :
    step st (snd (ExchangesV1.post_exchanges caller now xid body st))
| step_v1_put caller xid body st :
    step st (snd (ExchangesV1.put_exchange caller xid body st))
| step_v1_delete caller xid st :
    step st (snd (ExchangesV1.delete_exchange caller xid st))
| step_v1_mutual caller now id1 id2 body st :
    step st (snd (ExchangesV1.post_mutual caller now id1 id2 body st))
| step_v1_qr caller now id1 id2 body st :
    step st (snd (ExchangesV1.post_qr caller now id1 id2 body st))
| step_v1_request caller now rid body st :
    step st (snd (ExchangesV1.post_request caller now rid body st))
| step_v1_respond caller now rid id1 id2 body st :
    step st (snd (ExchangesV1.post_respond caller now rid id1 id2 body st))
| step_v2_collect caller now xid body st :
    step st (snd (ExchangesV2.post_exchanges caller now xid body st))
| step_v2_put caller xid body st :
    step st (snd (ExchangesV2.put_exchange caller xid body st))
| step_v2_delete caller xid st :
    step st (snd (ExchangesV2.delete_exchange caller xid st))
| step_v2_qr_generate caller now tok cid st :
    step st (snd (ExchangesV2.post_qr_generate caller now tok cid st))
| step_v2_qr caller now id1 id2 lid body st :
    step st (snd (ExchangesV2.post_qr caller now id1 id2 lid body st))
| step_generate_qr caller now tok cid st :
    step st (snd (Cards.post_generate_qr caller now tok cid st))
| step_card_create c st :
    find_card st (card_id c) = None -> step st (Cards.insert_card c st)
| step_card_delete caller cid st :
    step st (snd (Cards.delete_card caller cid st))
| step_user_register u st :
    find_user st (user_id u) = None -> step st (insert_user u st)
| step_user_delete uid st :
    step st (cascade_delete_user uid st)
| step_cleanup now st :
    step st (snd (post_expired_tokens now st)).

Inductive reachable : State -> Prop :=
| reachable_empty : reachable empty_state
| reachable_step st st' : reachable st -> step st st' -> reachable st'.

(** The schema invariants the routes maintain: card ids are a key; a
    ledger entry points to an existing card of another user; a request
    is sent by the owner of its card to someone else. *)
Definition cards_unique (st : State) : Prop := NoDup (map card_id (cards st)).

Definition entry_ok (st : State) (e : Exchange) : Prop :=
  exists c, find_card st (collected_card_id e) = Some c
            /\ card_user_id c <> owner_user_id e.

Definition request_ok (st : State) (r : ExchangeRequest) : Prop :=
  from_user_id r <> to_user_id r
  /\ exists c, find_card st (rq_card_id r) = Some c
               /\ card_user_id c = from_user_id r.

Definition inv (st : State) : Prop :=
  cards_unique st
  /\ Forall (entry_ok st) (exchanges st)
  /\ Forall (request_ok st) (exchange_requests st).

(* ------------------------------------------------------------------ *)
(** ** Views of rows used by the statements *)

(** The direction a ledger row records: (collector, collected card). *)
Definition dir (e : Exchange) : UserId * CardId :=
  (owner_user_id e, collected_card_id e).

(** The columns of a ledger row that [PUT /exchanges/:id] does not set. *)
Definition ledger_key (e : Exchange) : ExchangeId * UserId * CardId * Z :=
  (ex_id e, owner_user_id e, collected_card_id e, created_at e).

(** The QR tokens stored for one (issuer, card) pair. *)
Definition tokens_of (caller : UserId) (cid : CardId) (st : State) : list QRToken :=
  filter (fun t => Nat.eqb (qt_user_id t) caller && Nat.eqb (qt_card_id t) cid)
         (qr_exchange_tokens st).

(** A log row after [UPDATE qr_exchange_logs SET notified = 1]. *)
Definition mark_log (l : QRLog) : QRLog :=
  mkQRLog (log_id l) (qr_owner_user_id l) (scanner_user_id l) (scanner_card_id l)
          (qr_card_id l) (log_memo l) (log_location_name l) (log_latitude l)
          (log_longitude l) true (log_created_at l).

(** The order of [ORDER BY created_at DESC]. *)
Definition newer_first (a b : QRLog) : Prop := log_created_at b <= log_created_at a.

(** At most one ledger row per (owner, collected card) direction. *)
Definition ledger_unique (st : State) : Prop := NoDup (map dir (exchanges st)).

(* ------------------------------------------------------------------ *)
(** ** Example database and requests *)

Module Examples.

Local Open Scope nat_scope.

(** Alice (user 1) owns card 10 and Bob (user 2) owns card 20; Bob already
    holds Alice's card; Alice has a pending proximity request to Bob
    (request 300) and a live QR token 7 for card 10. *)
Definition ex_state : State :=
  mkState [mkUser 1 (Some "alice"%string); mkUser 2 (Some "bob"%string)]
          [mkCard 10 1 "Alice"; mkCard 20 2 "Bob"]
          [mkExchange 100 2 10 None None None None 0%Z]
          [mkRequest 300 1 2 10 None Pending 5000000%Z]
          [mkQRToken 7 1 10 (IsoText 5000000%Z)]
          [].

(** The same database where only Alice holds Bob's card. *)
Definition partial_state : State :=
  set_exchanges ex_state [mkExchange 100 1 20 None None None None 0%Z].

(** The same database with an empty ledger. *)
Definition fresh_state : State := set_exchanges ex_state [].

(** Location fields sent as [null]. *)
Definition null_location : Location := mkLocation (Some None) (Some None) (Some None).

(** A body without location fields. *)
Definition absent_location : Location := mkLocation None None None.

(** Alice's QR payload for card 10 with token 7, shown at instant 500. *)
Definition qr_payload : QRExchangeData :=
  QR.generateCardExchangeQRData 500%Z 10 1 7.

(** Bob scans it, offering his card 20. *)
Definition v2_qr_body : ExchangesV2.QRExchangeRequest :=
  ExchangesV2.mkQRReq2 (Some (ExchangesV2.QRJson (Some qr_payload))) (Some 20)
                       None null_location.
Definition v1_qr_body : ExchangesV1.QRExchangeRequest :=
  ExchangesV1.mkQRReq (Some (Some qr_payload)) (Some 20) None null_location.

(** Alice scans her own QR code. *)
Definition self_v2_qr_body : ExchangesV2.QRExchangeRequest :=
  ExchangesV2.mkQRReq2 (Some (ExchangesV2.QRJson (Some qr_payload))) (Some 10)
                       None null_location.

(** Alice's share-URL token for card 10, issued at instant 0. *)
Definition url_token : TokenData :=
  mkTokenData (Some (Some 10)) (Some 1) (Some 0%Z) (Some (0 + Cards.url_ttl)%Z).
Definition mutual_body : ExchangesV1.MutualRequest :=
  ExchangesV1.mkMutual (Some (Some url_token)) (Some 20) None null_location.


(** Bob accepts Alice's proximity request with his card 20. *)
Definition accept_body : ExchangesV1.RespondRequest :=
  ExchangesV1.mkRespond "accept" (Some 20) None null_location.

Definition collect_10 : ExchangesV1.CreateExchangeRequest :=
  ExchangesV1.mkCreate (Some 10) (Some None) null_location.

Definition memo_update : ExchangesV1.UpdateExchangeRequest :=
  ExchangesV1.mkUpdate (Some (Some "mine"%string)) None None None.

(** The database after Bob's instant QR exchange: one unread log row for
    Alice. *)
Definition logs_state : State :=
  snd (ExchangesV2.post_qr 2 1000%Z 101 102 200 v2_qr_body ex_state).

(** Alice's pending proximity request 300 to Bob, as stored. *)
Definition pending_300 : ExchangeRequest :=
  mkRequest 300 1 2 10 None Pending 5000000%Z.

(** Bob's ledger row 100 for Alice's card. *)
Definition bob_holds_10 : Exchange :=
  mkExchange 100 2 10 None None None None 0%Z.

(** Bob sends a proximity request to Alice with his card 20. *)
Definition bob_request : ExchangesV1.SendExchangeRequestParams :=
  ExchangesV1.mkSendReq (Some 1) (Some 20) (Some None).

(** Bob rejects a proximity request. *)
Definition reject_body : ExchangesV1.RespondRequest :=
  ExchangesV1.mkRespond "reject" None None null_location.

(** The log row of [logs_state]. *)
Definition qr_log_200 : QRLog :=
  Eval vm_compute in
    match ExchangesV2.find_log logs_state 200 with
    | Some l => l
    | None => mkQRLog 0 0 0 0 0 None None None None false 0%Z
    end.

End Examples.

Arguments find_card : simpl never.
Arguments find_own_card : simpl never.
Arguments find_collection : simpl never.
Arguments find_exchange : simpl never.
Arguments find_user : simpl never.
Arguments find_live_token : simpl never.
Arguments ExchangesV1.find_pending_between : simpl never.
Arguments ExchangesV1.find_pending_request : simpl never.
Arguments QR.parseCardExchangeQRData : simpl never.
Arguments ExchangesV2.parseCardExchangeQRData : simpl never.
Arguments exchange_detail : simpl never.

(* ================================================================== *)
(** * Lemmas *)

(** ** Lookups *)

Lemma find_card_some st id c :
  find_card st id = Some c -> card_id c = id /\ In c (cards st).
Proof.
  unfold find_card; intros H.
  destruct (find_some _ _ H) as [Hin Hid].
  split; [now apply Nat.eqb_eq | exact Hin].
Qed.

Lemma find_own_card_some st id uid c :
  find_own_card st id uid = Some c ->
  card_id c = id /\ card_user_id c = uid /\ In c (cards st).
Proof.
  unfold find_own_card; intros H.
  destruct (find_some _ _ H) as [Hin Hp].
  apply andb_true_iff in Hp as [H1 H2].
  repeat split; [now apply Nat.eqb_eq | now apply Nat.eqb_eq | exact Hin].
Qed.

Lemma NoDup_map_inj {A B} (f : A -> B) (l : list A) x y :
  NoDup (map f l) -> In x l -> In y l -> f x = f y -> x = y.
Proof.
  induction l as [|a l IH]; simpl; [tauto|].
  intros Hnd Hx Hy Hf; inversion Hnd as [|? ? Hnotin Hnd']; subst.
  destruct Hx as [<-|Hx], Hy as [<-|Hy]; auto.
  - exfalso; apply Hnotin; rewrite Hf; now apply in_map.
  - exfalso; apply Hnotin; rewrite <- Hf; now apply in_map.
Qed.

Lemma find_card_of_in st c :
  cards_unique st -> In c (cards st) -> find_card st (card_id c) = Some c.
Proof.
  intros Hu Hin.
  destruct (find_card st (card_id c)) as [c'|] eqn:Hf.
  - destruct (find_card_some _ _ _ Hf) as [Hid Hin'].
    f_equal; exact (NoDup_map_inj card_id _ _ _ Hu Hin' Hin Hid).
  - unfold find_card in Hf.
    pose proof (find_none _ _ Hf c Hin) as Hc; simpl in Hc.
    now rewrite Nat.eqb_refl in Hc.
Qed.

Lemma find_own_card_find st id uid c :
  cards_unique st -> find_own_card st id uid = Some c ->
  find_card st id = Some c /\ card_user_id c = uid.
Proof.
  intros Hu H; destruct (find_own_card_some _ _ _ _ H) as (<- & Hu' & Hin).
  split; [now apply find_card_of_in | exact Hu'].
Qed.

Lemma find_card_same_cards st st' id :
  cards st' = cards st -> find_card st' id = find_card st id.
Proof. intros H; unfold find_card; now rewrite H. Qed.

Lemma find_collection_none st owner cid :
  find_collection st owner cid = None ->
  forall e, In e (exchanges st) ->
    ~ (owner_user_id e = owner /\ collected_card_id e = cid).
Proof.
  unfold find_collection; intros H e Hin [H1 H2].
  pose proof (find_none _ _ H e Hin) as He; simpl in He.
  rewrite H1, H2, !Nat.eqb_refl in He; discriminate.
Qed.

Lemma find_collection_some st owner cid e :
  find_collection st owner cid = Some e ->
  In e (exchanges st) /\ owner_user_id e = owner /\ collected_card_id e = cid.
Proof.
  unfold find_collection; intros H.
  destruct (find_some _ _ H) as [Hin Hp].
  apply andb_true_iff in Hp as [H1 H2].
  repeat split; [exact Hin | now apply Nat.eqb_eq | now apply Nat.eqb_eq].
Qed.

(** ** The invariant *)

Lemma entry_ok_same_cards st st' e :
  cards st' = cards st -> entry_ok st e -> entry_ok st' e.
Proof.
  intros H [c [Hc Hne]]; exists c; now rewrite (find_card_same_cards _ _ _ H).
Qed.

Lemma request_ok_same_cards st st' r :
  cards st' = cards st -> request_ok st r -> request_ok st' r.
Proof.
  intros H [Hne [c [Hc Ho]]]; split; [exact Hne|].
  exists c; now rewrite (find_card_same_cards _ _ _ H).
Qed.

(** A request that leaves the cards alone keeps the invariant when every
    ledger entry and request it leaves behind was fine before. *)
Lemma inv_transfer st st' :
  inv st -> cards st' = cards st ->
  Forall (entry_ok st) (exchanges st') ->
  Forall (request_ok st) (exchange_requests st') ->
  inv st'.
Proof.
  intros (Hu & _ & _) Hc He Hr; split; [|split].
  - unfold cards_unique; now rewrite Hc.
  - eapply Forall_impl; [|exact He]; intros e; now apply entry_ok_same_cards.
  - eapply Forall_impl; [|exact Hr]; intros r; now apply request_ok_same_cards.
Qed.

Lemma inv_empty : inv empty_state.
Proof. repeat split; constructor. Qed.

(** The entry a reconciliation inserts for the caller and for the owner of
    the other card. *)
Lemma entry_ok_mk st cid c owner x m ln la lo t :
  find_card st cid = Some c -> card_user_id c <> owner ->
  entry_ok st (mkExchange x owner cid m ln la lo t).
Proof. intros H Hne; now exists c. Qed.

(** Case analysis on every [match] of an unfolded handler. *)
Ltac split_matches :=
  repeat (cbn in *;
          match goal with
          | |- context [match ?x with _ => _ end] =>
              lazymatch x with
              | context [match _ with _ => _ end] => fail
              | _ => let E := fresh "E" in destruct x eqn:E
              end
          end).


(** ** Preservation by every request *)


Lemma find_card_self st x c :
  find_card st x = Some c -> find_card st (card_id c) = Some c.
Proof. intros H; now rewrite (proj1 (find_card_some _ _ _ H)). Qed.

Lemma Forall_filter_keep {A} (P : A -> Prop) (f : A -> bool) l :
  Forall P l -> Forall P (filter f l).
Proof.
  intros H; apply Forall_forall; intros x Hx.
  apply filter_In in Hx as [Hx _]; exact (proj1 (Forall_forall _ _) H x Hx).
Qed.

Lemma Forall_map_keep {A} (P : A -> Prop) (g : A -> A) l :
  (forall x, P x -> P (g x)) -> Forall P l -> Forall P (map g l).
Proof. intros Hg H; apply Forall_map; eapply Forall_impl; [exact Hg|exact H]. Qed.

Lemma find_card_opt_some st o c :
  find_card_opt st o = Some c -> find_card st (card_id c) = Some c.
Proof. destruct o; [apply find_card_self | discriminate]. Qed.

Ltac prep_hyps :=
  repeat match goal with
  | H : find_card_opt _ _ = Some _ |- _ => apply find_card_opt_some in H
  | H : (_ =? _)%nat = true |- _ => apply Nat.eqb_eq in H
  | H : (_ =? _)%nat = false |- _ => apply Nat.eqb_neq in H
  | Hu : cards_unique ?st, H : find_own_card ?st _ _ = Some ?c |- _ =>
      let H1 := fresh "Hown" in
      let H2 := fresh "Hownu" in
      let Hid := fresh "Hid" in
      destruct (find_own_card_some _ _ _ _ H) as (Hid & H2 & H1);
      apply (find_card_of_in _ _ Hu) in H1; clear H; try subst
  | H : find_card ?st ?x = Some ?c |- _ =>
      lazymatch x with
      | card_id c => fail
      | _ => let H' := fresh "Hfc" in
             pose proof (find_card_self _ _ _ H) as H';
             destruct (find_card_some _ _ _ H) as [? _];
             clear H; try subst x
      end
  end.

Ltac close_inv Hi :=
  let Hu := fresh "Hu" in let He := fresh "He" in let Hr := fresh "Hr" in
  pose proof Hi as (Hu & He & Hr);
  prep_hyps;
  apply (inv_transfer _ _ Hi); [reflexivity| |]; cbn;
  repeat first [ apply Forall_app; split
               | apply Forall_cons
               | apply Forall_nil
               | assumption
               | apply Forall_filter_keep
               | (eapply entry_ok_mk; [eassumption | congruence])
               | (apply Forall_map_keep; [|assumption];
                  let x := fresh "x" in let Hx := fresh "Hx" in
                  intros x Hx; cbv beta;
                  match goal with |- context [if ?b then _ else _] => destruct b end; [|exact Hx];
                  try unfold ExchangesV1.apply_update;
                  repeat match goal with
                         | |- context [match ?y with _ => _ end] => destruct y
                         end; exact Hx) ].

Lemma find_pending_request_some st now id to r :
  ExchangesV1.find_pending_request st now id to = Some r ->
  In r (exchange_requests st) /\ to_user_id r = to.
Proof.
  unfold ExchangesV1.find_pending_request; intros H.
  destruct (find_some _ _ H) as [Hin Hp].
  repeat rewrite andb_true_iff in Hp.
  destruct Hp as [[[_ Hto] _] _]; split; [exact Hin | now apply Nat.eqb_eq].
Qed.

Ltac unfold_handler :=
  unfold run_handler, insert_exchange, update_exchange_row,
    delete_exchange_row, set_request_status, check_url_token,
    bind_location, bound, bind, get, ret, reply, modify, throw.

Lemma inv_v1_collect caller now xid body st :
  inv st -> inv (snd (ExchangesV1.post_exchanges caller now xid body st)).
Proof.
  intros Hi; unfold ExchangesV1.post_exchanges, ExchangesV1.post_exchanges_body;
  unfold_handler; split_matches; cbn; try exact Hi; close_inv Hi.
Qed.

Lemma inv_v1_mutual caller now id1 id2 body st :
  inv st -> inv (snd (ExchangesV1.post_mutual caller now id1 id2 body st)).
Proof.
  intros Hi; unfold ExchangesV1.post_mutual, ExchangesV1.post_mutual_body;
  unfold_handler; split_matches; cbn; try exact Hi; close_inv Hi.
Qed.

Lemma inv_v1_qr caller now id1 id2 body st :
  inv st -> inv (snd (ExchangesV1.post_qr caller now id1 id2 body st)).
Proof.
  intros Hi; unfold ExchangesV1.post_qr, ExchangesV1.post_qr_body;
  unfold_handler; split_matches; cbn; try exact Hi; close_inv Hi.
Qed.

Lemma inv_v1_put caller xid body st :
  inv st -> inv (snd (ExchangesV1.put_exchange caller xid body st)).
Proof.
  intros Hi; unfold ExchangesV1.put_exchange, ExchangesV1.put_exchange_body;
  unfold_handler; split_matches; cbn; try exact Hi; close_inv Hi.
Qed.

Lemma inv_v1_delete caller xid st :
  inv st -> inv (snd (ExchangesV1.delete_exchange caller xid st)).
Proof.
  intros Hi; unfold ExchangesV1.delete_exchange, ExchangesV1.delete_exchange_body;
  unfold_handler; split_matches; cbn; try exact Hi; close_inv Hi.
Qed.

Lemma inv_v2_collect caller now xid body st :
  inv st -> inv (snd (ExchangesV2.post_exchanges caller now xid body st)).
Proof.
  intros Hi; unfold ExchangesV2.post_exchanges, ExchangesV2.post_exchanges_body;
  unfold_handler; split_matches; cbn; try exact Hi; close_inv Hi.
Qed.

Lemma inv_v2_put caller xid body st :
  inv st -> inv (snd (ExchangesV2.put_exchange caller xid body st)).
Proof.
  intros Hi; unfold ExchangesV2.put_exchange, ExchangesV2.put_exchange_body;
  unfold_handler; split_matches; cbn; try exact Hi; close_inv Hi.
Qed.

Lemma inv_v2_delete caller xid st :
  inv st -> inv (snd (ExchangesV2.delete_exchange caller xid st)).
Proof.
  intros Hi; unfold ExchangesV2.delete_exchange, ExchangesV2.delete_exchange_body;
  unfold_handler; split_matches; cbn; try exact Hi; close_inv Hi.
Qed.

Lemma inv_v2_qr_generate caller now tok cid st :
  inv st -> inv (snd (ExchangesV2.post_qr_generate caller now tok cid st)).
Proof.
  intros Hi; unfold ExchangesV2.post_qr_generate, ExchangesV2.post_qr_generate_body;
  unfold_handler; split_matches; cbn; try exact Hi; close_inv Hi.
Qed.

Lemma inv_v2_qr caller now id1 id2 lid body st :
  inv st -> inv (snd (ExchangesV2.post_qr caller now id1 id2 lid body st)).
Proof.
  intros Hi; unfold ExchangesV2.post_qr, ExchangesV2.post_qr_body;
  unfold_handler; split_matches; cbn; try exact Hi; close_inv Hi.
Qed.

Lemma inv_generate_qr caller now tok cid st :
  inv st -> inv (snd (Cards.post_generate_qr caller now tok cid st)).
Proof.
  intros Hi; unfold Cards.post_generate_qr, Cards.post_generate_qr_body;
  unfold_handler; split_matches; cbn; try exact Hi; close_inv Hi.
Qed.

Lemma inv_v1_request caller now rid body st :
  inv st -> inv (snd (ExchangesV1.post_request caller now rid body st)).
Proof.
  intros Hi; unfold ExchangesV1.post_request, ExchangesV1.post_request_body;
  unfold_handler; split_matches; cbn; try exact Hi; close_inv Hi.
  unfold request_ok; cbn; split; [congruence|].
  eexists; split; [eassumption|reflexivity].
Qed.

Lemma request_ok_status st r i f t c m s e :
  request_ok st r -> from_user_id r = f -> to_user_id r = t -> rq_card_id r = c ->
  request_ok st (mkRequest i f t c m s e).
Proof. intros H <- <- <-; exact H. Qed.

Lemma inv_v1_respond caller now rid id1 id2 body st :
  inv st -> inv (snd (ExchangesV1.post_respond caller now rid id1 id2 body st)).
Proof.
  intros Hi; pose proof Hi as (_ & _ & Hr0).
  unfold ExchangesV1.post_respond, ExchangesV1.post_respond_body;
  unfold_handler; split_matches; cbn; try exact Hi.
  all: try match goal with
       | H : ExchangesV1.find_pending_request _ _ _ _ = Some ?r |- _ =>
           destruct (find_pending_request_some _ _ _ _ _ H) as [Hin Hto];
           destruct (proj1 (Forall_forall _ _) Hr0 r Hin) as (Hne & c' & Hc' & Hown);
           try (match goal with
                | H2 : find_card _ (rq_card_id r) = Some _ |- _ =>
                    rewrite Hc' in H2; injection H2 as <-
                end)
       end.
  all: close_inv Hi.
Qed.

Lemma find_app_some {A} (f : A -> bool) l l' x :
  find f l = Some x -> find f (l ++ l') = Some x.
Proof.
  induction l as [|a l IH]; cbn; [discriminate|].
  destruct (f a); [tauto|exact IH].
Qed.

Lemma inv_card_create c st :
  find_card st (card_id c) = None -> inv st -> inv (Cards.insert_card c st).
Proof.
  intros Hn (Hu & He & Hr); split; [|split]; cbn.
  - unfold cards_unique; cbn; rewrite map_app; apply NoDup_app; auto.
    + repeat constructor; auto.
    + intros x Hx Hy; destruct Hy as [<-|[]].
      apply in_map_iff in Hx as (c' & Hid & Hin).
      unfold find_card in Hn; pose proof (find_none _ _ Hn c' Hin) as Hc.
      cbn in Hc; rewrite Hid, Nat.eqb_refl in Hc; discriminate.
  - eapply Forall_impl; [|exact He]; intros e [c' [Hc Hne]].
    exists c'; split; [|exact Hne].
    unfold find_card in *; cbn; now apply find_app_some.
  - eapply Forall_impl; [|exact Hr]; intros r [Hne [c' [Hc Ho]]].
    split; [exact Hne|]; exists c'; split; [|exact Ho].
    unfold find_card in *; cbn; now apply find_app_some.
Qed.

Lemma NoDup_map_filter {A B} (f : A -> B) (g : A -> bool) l :
  NoDup (map f l) -> NoDup (map f (filter g l)).
Proof.
  induction l as [|a l IH]; cbn; [auto|].
  intros Hnd; inversion Hnd as [|? ? Hnotin Hnd']; subst.
  destruct (g a); cbn; [|auto].
  constructor; [|auto].
  intros Hin; apply Hnotin; apply in_map_iff in Hin as (x & Hx & Hin).
  apply filter_In in Hin as [Hin _]; rewrite <- Hx; now apply in_map.
Qed.

(** A request that only removes cards, ledger entries and requests keeps
    the invariant when the cards the surviving rows point to survive. *)
Lemma inv_shrink st st' :
  inv st ->
  (forall c, In c (cards st') -> In c (cards st)) ->
  cards_unique st' ->
  (forall e, In e (exchanges st') -> In e (exchanges st) /\
     forall c, In c (cards st) -> card_id c = collected_card_id e -> In c (cards st')) ->
  (forall r, In r (exchange_requests st') -> In r (exchange_requests st) /\
     forall c, In c (cards st) -> card_id c = rq_card_id r -> In c (cards st')) ->
  inv st'.
Proof.
  intros (Hu & He & Hr) _ Hu' Hek Hrk; split; [exact Hu'|split].
  - apply Forall_forall; intros e Hin; destruct (Hek e Hin) as [Hin0 Hc].
    destruct (proj1 (Forall_forall _ _) He e Hin0) as (c & Hf & Hne).
    destruct (find_card_some _ _ _ Hf) as [Hid Hinc].
    exists c; split; [|exact Hne]; rewrite <- Hid.
    apply find_card_of_in; [exact Hu'|]; now apply Hc.
  - apply Forall_forall; intros r Hin; destruct (Hrk r Hin) as [Hin0 Hc].
    destruct (proj1 (Forall_forall _ _) Hr r Hin0) as (Hne & c & Hf & Ho).
    destruct (find_card_some _ _ _ Hf) as [Hid Hinc].
    split; [exact Hne|]; exists c; split; [|exact Ho]; rewrite <- Hid.
    apply find_card_of_in; [exact Hu'|]; now apply Hc.
Qed.

Lemma inv_cascade_card cid st :
  inv st -> inv (Cards.cascade_delete_card cid st).
Proof.
  intros Hi; pose proof Hi as (Hu & _ & _).
  apply (inv_shrink _ _ Hi); cbn.
  - intros c Hc; now apply filter_In in Hc.
  - now apply NoDup_map_filter.
  - intros e He; apply filter_In in He as [He Hk]; split; [exact He|].
    intros c Hc Hid; apply filter_In; split; [exact Hc|].
    rewrite Hid; exact Hk.
  - intros r Hr; apply filter_In in Hr as [Hr Hk]; split; [exact Hr|].
    intros c Hc Hid; apply filter_In; split; [exact Hc|].
    rewrite Hid; exact Hk.
Qed.

Lemma inv_card_delete caller cid st :
  inv st -> inv (snd (Cards.delete_card caller cid st)).
Proof.
  intros Hi; unfold Cards.delete_card, Cards.delete_card_body.
  unfold_handler; split_matches; cbn; try exact Hi.
  now apply inv_cascade_card.
Qed.

Lemma inv_user_register u st :
  inv st -> inv (insert_user u st).
Proof.
  intros Hi; pose proof Hi as (_ & He & Hr).
  apply (inv_transfer _ _ Hi); [reflexivity|exact He|exact Hr].
Qed.

Lemma gone_false uid st c cid :
  existsb (fun c => Nat.eqb (card_id c) cid && Nat.eqb (card_user_id c) uid)
          (cards st) = false ->
  In c (cards st) -> card_id c = cid -> card_user_id c <> uid.
Proof.
  intros Hg Hin Hid Heq.
  assert (Ht : existsb (fun c => Nat.eqb (card_id c) cid && Nat.eqb (card_user_id c) uid)
                 (cards st) = true).
  { apply existsb_exists; exists c; split; [exact Hin|].
    now rewrite Hid, Heq, !Nat.eqb_refl. }
  congruence.
Qed.

Lemma inv_user_delete uid st :
  inv st -> inv (cascade_delete_user uid st).
Proof.
  intros Hi; pose proof Hi as (Hu & _ & _).
  apply (inv_shrink _ _ Hi); cbn.
  - intros c Hc; now apply filter_In in Hc.
  - now apply NoDup_map_filter.
  - intros e He; apply filter_In in He as [He Hk]; split; [exact He|].
    apply negb_true_iff, orb_false_iff in Hk as [_ Hg].
    intros c Hc Hid; apply filter_In; split; [exact Hc|].
    apply negb_true_iff, Nat.eqb_neq.
    exact (gone_false _ _ _ _ Hg Hc Hid).
  - intros r Hr; apply filter_In in Hr as [Hr Hk]; split; [exact Hr|].
    apply negb_true_iff, orb_false_iff in Hk as [_ Hg].
    intros c Hc Hid; apply filter_In; split; [exact Hc|].
    apply negb_true_iff, Nat.eqb_neq.
    exact (gone_false _ _ _ _ Hg Hc Hid).
Qed.

Lemma inv_cleanup now st :
  inv st -> inv (snd (post_expired_tokens now st)).
Proof.
  intros Hi; pose proof Hi as (_ & He & Hr).
  apply (inv_transfer _ _ Hi); [reflexivity|exact He|exact Hr].
Qed.

Lemma step_inv st st' : step st st' -> inv st -> inv st'.
Proof.
  destruct 1.
  all: first [ apply inv_v1_collect | apply inv_v1_put | apply inv_v1_delete
             | apply inv_v1_mutual | apply inv_v1_qr | apply inv_v1_request
             | apply inv_v1_respond | apply inv_v2_collect | apply inv_v2_put
             | apply inv_v2_delete | apply inv_v2_qr_generate | apply inv_v2_qr
             | apply inv_generate_qr
             | now apply inv_card_create | apply inv_card_delete
             | apply inv_user_register | apply inv_user_delete | apply inv_cleanup ].
Qed.

Lemma reachable_inv st : reachable st -> inv st.
Proof.
  induction 1; [exact inv_empty|]; eapply step_inv; eassumption.
Qed.

(** ** Lemmas for the claims *)

Lemma find_app {A} (f : A -> bool) l l' :
  find f (l ++ l') = match find f l with Some x => Some x | None => find f l' end.
Proof. induction l as [|a l IH]; cbn; [reflexivity|]. destruct (f a); auto. Qed.

Lemma find_collection_snoc st e owner cid :
  find_collection (set_exchanges st (exchanges st ++ [e])) owner cid =
  match find_collection st owner cid with
  | Some x => Some x
  | None => if Nat.eqb (owner_user_id e) owner && Nat.eqb (collected_card_id e) cid
            then Some e else None
  end.
Proof. unfold find_collection; cbn; rewrite find_app; reflexivity. Qed.

Lemma ex_state_reachable : reachable Examples.ex_state.
Proof.
  set (s1 := insert_user (mkUser 1%nat (Some "alice"%string)) empty_state).
  set (s2 := insert_user (mkUser 2%nat (Some "bob"%string)) s1).
  set (s3 := Cards.insert_card (mkCard 10%nat 1%nat "Alice") s2).
  set (s4 := Cards.insert_card (mkCard 20%nat 2%nat "Bob") s3).
  set (s5 := snd (ExchangesV1.post_exchanges 2%nat 0 100%nat
                    (ExchangesV1.mkCreate (Some 10%nat) (Some None) Examples.null_location) s4)).
  set (s6 := snd (ExchangesV1.post_request 1%nat 3200000 300%nat
                    (ExchangesV1.mkSendReq (Some 2%nat) (Some 10%nat) (Some None)) s5)).
  set (s7 := snd (Cards.post_generate_qr 1%nat 3200000 7%nat 10%nat s6)).
  assert (E : Examples.ex_state = s7) by (vm_compute; reflexivity).
  rewrite E.
  apply (reachable_step s6); [|constructor].
  apply (reachable_step s5); [|constructor].
  apply (reachable_step s4); [|constructor].
  apply (reachable_step s3); [|constructor; vm_compute; reflexivity].
  apply (reachable_step s2); [|constructor; vm_compute; reflexivity].
  apply (reachable_step s1); [|constructor; vm_compute; reflexivity].
  apply (reachable_step empty_state); [|constructor; vm_compute; reflexivity].
  constructor.
Qed.

Lemma fresh_state_reachable : reachable Examples.fresh_state.
Proof.
  assert (E : Examples.fresh_state
              = snd (ExchangesV1.delete_exchange 2%nat 100%nat Examples.ex_state))
    by (vm_compute; reflexivity).
  rewrite E; apply (reachable_step Examples.ex_state); [exact ex_state_reachable|constructor].
Qed.

Lemma insert_desc_perm l ls : Permutation (ExchangesV2.insert_desc l ls) (l :: ls).
Proof.
  induction ls as [|x xs IH]; cbn; [reflexivity|].
  destruct (Z.ltb _ _); [reflexivity|].
  rewrite IH; apply perm_swap.
Qed.

Lemma sort_desc_perm ls : Permutation (ExchangesV2.sort_desc ls) ls.
Proof.
  induction ls as [|x xs IH]; cbn; [reflexivity|].
  rewrite insert_desc_perm, IH; reflexivity.
Qed.

Lemma mark_notified_eq ids : forall st,
  ExchangesV2.mark_notified ids st
  = (Next tt, set_logs st (map (fun l => if existsb (Nat.eqb (log_id l)) ids
                                         then mark_log l else l)
                               (qr_exchange_logs st))).
Proof.
  induction ids as [|id rest IH]; intros st; cbn.
  - rewrite map_id; destruct st; reflexivity.
  - unfold bind, modify; cbn; rewrite IH; cbn.
    rewrite map_map; unfold set_logs; cbn.
    f_equal; f_equal; apply map_ext; intros l.
    destruct (Nat.eqb (log_id l) id); cbn; [|reflexivity].
    destruct (existsb (Nat.eqb (log_id l)) rest); reflexivity.
Qed.

Lemma filter_none {A} (f : A -> bool) l :
  (forall x, In x l -> f x = false) -> filter f l = [].
Proof.
  induction l as [|a l IH]; cbn; intros H; [reflexivity|].
  rewrite (H a (or_introl eq_refl)); apply IH; auto.
Qed.

Lemma filter_map_comm {A B} (f : B -> bool) (g : A -> B) l :
  filter f (map g l) = map g (filter (fun x => f (g x)) l).
Proof. induction l as [|a l IH]; cbn; [reflexivity|]; destruct (f (g a)); cbn; congruence. Qed.

Lemma log_rows_in st caller l :
  In l (ExchangesV2.log_rows st caller) ->
  In l (qr_exchange_logs st) /\ qr_owner_user_id l = caller.
Proof.
  unfold ExchangesV2.log_rows; intros H.
  apply (Permutation_in _ (sort_desc_perm _)) in H.
  apply filter_In in H as [H Hp]; apply andb_true_iff in Hp as [Ho _].
  split; [exact H|now apply Nat.eqb_eq].
Qed.

Lemma Forall2_map_self {A} (P : A -> A -> Prop) (g : A -> A) l :
  (forall x, P x (g x)) -> Forall2 P l (map g l).
Proof. intros H; induction l; constructor; auto. Qed.

Lemma Forall2_self {A} (P : A -> A -> Prop) l :
  (forall x, P x x) -> Forall2 P l l.
Proof. intros H; induction l; constructor; auto. Qed.

(* ================================================================== *)
(** * The specification claims *)

(** The router's own parser returns the payload it was given. *)
Lemma v2_parse_some now d q :
  ExchangesV2.parseCardExchangeQRData now d = Some q -> d = Some q.
Proof.
  unfold ExchangesV2.parseCardExchangeQRData; destruct d as [d|]; [|discriminate].
  destruct (negb _); [discriminate|].
  destruct (q_cardId d), (q_userId d), (q_token d), (q_timestamp d); try discriminate.
  destruct (_ =? 0); [discriminate|]; destruct (_ <? _); [discriminate|].
  now intros [= ->].
Qed.

(** A path segment that is the text of an id starts with a digit. *)
Lemma digits_aux_head fuel : forall n acc,
  (fuel <> O \/ exists k rest, (k < 10)%nat /\ acc = String (Ascii.ascii_of_nat (48 + k)) rest) ->
  exists k rest, (k < 10)%nat
    /\ digits_aux fuel n acc = String (Ascii.ascii_of_nat (48 + k)) rest.
Proof.
  induction fuel as [|f IH]; intros n acc H; cbn [digits_aux].
  - destruct H as [H|H]; [congruence|exact H].
  - destruct (Nat.ltb n 10).
    + exists (Nat.modulo n 10), acc; split; [apply Nat.mod_upper_bound; discriminate|reflexivity].
    + apply IH; right.
      exists (Nat.modulo n 10), acc; split; [apply Nat.mod_upper_bound; discriminate|reflexivity].
Qed.

Lemma string_of_id_not_word n c rest :
  (57 < Ascii.nat_of_ascii c)%nat -> string_of_id n <> String c rest.
Proof.
  intros Hc Heq.
  destruct (digits_aux_head (S n) n EmptyString (or_introl (Nat.neq_succ_0 n)))
    as (k & rest' & Hk & Hs).
  unfold string_of_id in Heq; rewrite Hs in Heq; injection Heq as Ec _.
  rewrite <- Ec, Ascii.nat_ascii_embedding in Hc; lia.
Qed.

(** No exchange row answers a path segment that is not the text of an
    id. *)
Lemma exchange_detail_none st caller seg :
  (forall n, string_of_id n <> seg) -> exchange_detail st caller seg = None.
Proof.
  intros Hn; unfold exchange_detail.
  induction (exchanges st) as [|e es IH]; [reflexivity|]; cbn [flat_map].
  destruct (String.eqb_spec (string_of_id (ex_id e)) seg) as [E|_];
    [exfalso; exact (Hn _ E)|cbn [andb app]; exact IH].
Qed.

(** [GET /:id] is the first one-segment route of both routers. *)
Lemma v1_get_segment_param caller now token seg st :
  ExchangesV1.get_segment caller now token seg st = ExchangesV1.get_exchange caller seg st.
Proof. reflexivity. Qed.

Lemma v2_get_segment_param caller seg st :
  ExchangesV2.get_segment caller seg st = ExchangesV2.get_exchange caller seg st.
Proof. reflexivity. Qed.

(** A literal segment starting with a letter is answered 404 by [GET /:id]. *)
Lemma v1_get_word caller now token c rest st :
  (57 < Ascii.nat_of_ascii c)%nat ->
  ExchangesV1.get_segment caller now token (String c rest) st
    = (Fail 404 "Exchange record not found"%string, st).
Proof.
  intros Hc; rewrite v1_get_segment_param.
  unfold ExchangesV1.get_exchange, ExchangesV1.get_exchange_body, run_handler, bind, get.
  rewrite exchange_detail_none; [reflexivity|].
  intros n; apply string_of_id_not_word; exact Hc.
Qed.

Lemma v2_get_word caller c rest st :
  (57 < Ascii.nat_of_ascii c)%nat ->
  ExchangesV2.get_segment caller (String c rest) st
    = (Fail 404 "Exchange record not found"%string, st).
Proof.
  intros Hc; rewrite v2_get_segment_param.
  unfold ExchangesV2.get_exchange, ExchangesV2.get_exchange_body, run_handler, bind, get.
  rewrite exchange_detail_none; [reflexivity|].
  intros n; apply string_of_id_not_word; exact Hc.
Qed.

Module Claims.

(** Claim C1 (as amended): only the instant QR redeem of the later router
    skips a direction the ledger already holds.  Once its checks pass
    (the router's own payload parser or an opaque token, a live token, the
    target card, the caller's card, no self-exchange) it answers success
    and appends exactly the missing directions (collector, collected
    card).  The URL mutual exchange and the earlier QR exchange instead
    answer 409 with the database unchanged as soon as either direction
    exists. *)
Theorem C1_qr_skips_existing_direction :
  (forall caller now id1 id2 lid body st myCardId tok cid t other mine,
    ((ExchangesV2.q2_qrData body = Some (ExchangesV2.QROpaque tok)
      /\ cid = qt_card_id t)
     \/ exists d, ExchangesV2.q2_qrData body = Some (ExchangesV2.QRJson (Some d))
                  /\ ExchangesV2.parseCardExchangeQRData now (Some d) = Some d
                  /\ q_token d = Some tok /\ q_cardId d = Some cid) ->
    ExchangesV2.q2_myCardId body = Some myCardId ->
    find_live_token st now tok = Some t ->
    find_card st cid = Some other ->
    find_own_card st myCardId caller = Some mine ->
    card_user_id other <> caller ->
    fst (ExchangesV2.post_qr caller now id1 id2 lid body st)
      = Ok 200 (QRDone lid (card_id other) (card_id mine))
    /\ exists added,
         exchanges (snd (ExchangesV2.post_qr caller now id1 id2 lid body st))
           = exchanges st ++ added
         /\ map dir added
            = match find_collection st caller (card_id other) with
              | Some _ => [] | None => [(caller, card_id other)] end
              ++ match find_collection st (card_user_id other) (card_id mine) with
                 | Some _ => [] | None => [(card_user_id other, card_id mine)] end)
  /\
  (forall caller now id1 id2 body st td myCardId cid other mine,
    ExchangesV1.me_exchangeToken body = Some (Some td) ->
    ExchangesV1.me_myCardId body = Some myCardId ->
    url_token_expired now (td_expires td) = false ->
    td_cardId td = Some (Some cid) ->
    find_card st cid = Some other ->
    find_own_card st myCardId caller = Some mine ->
    card_user_id other <> caller ->
    (find_collection st caller (card_id other) <> None
     \/ find_collection st (card_user_id other) (card_id mine) <> None) ->
    ExchangesV1.post_mutual caller now id1 id2 body st
      = (Fail 409 "Cards have already been exchanged between these users", st))
  /\
  (forall caller now id1 id2 body st d myCardId qc t other mine,
    ExchangesV1.qr_qrData body = Some d ->
    ExchangesV1.qr_myCardId body = Some myCardId ->
    QR.parseCardExchangeQRData now d = Some qc ->
    find_live_token st now (QR.qc_token qc) = Some t ->
    find_card st (QR.qc_cardId qc) = Some other ->
    find_own_card st myCardId caller = Some mine ->
    card_user_id other <> caller ->
    (find_collection st caller (card_id other) <> None
     \/ find_collection st (card_user_id other) (card_id mine) <> None) ->
    ExchangesV1.post_qr caller now id1 id2 body st
      = (Fail 409 "Cards have already been exchanged between these users", st)).
Proof.
  split; [|split].
  - intros caller now id1 id2 lid body st myCardId tok cid t other mine
      Hq Hm Ht Ho Hmine Hne.
    apply Nat.eqb_neq in Hne.
    unfold ExchangesV2.post_qr, ExchangesV2.post_qr_body, run_handler, bind, get, ret.
    rewrite Hm.
    destruct Hq as [[Hq ->] | (d & Hq & Hp & Htok & Hc)]; rewrite Hq; cbn;
      [|rewrite Hp; cbn; rewrite Htok; cbn; rewrite Hc];
      rewrite Ht; cbn; rewrite Ho, Hmine; cbn; rewrite Hne;
      unfold insert_exchange, modify;
      match goal with |- context [find_collection st caller (card_id ?o)] =>
        destruct (find_collection st caller (card_id o)) as [x1|] eqn:E1 end;
      match goal with |- context [find_collection st (card_user_id ?o) (card_id ?m)] =>
        destruct (find_collection st (card_user_id o) (card_id m)) as [x2|] eqn:E2 end;
      cbn; try rewrite E1; try rewrite E2; cbn;
      try (rewrite find_collection_snoc, E2; cbn; rewrite Nat.eqb_sym, Hne; cbn);
      (split; [reflexivity|]);
      first [ exists []; rewrite app_nil_r; split; reflexivity
            | eexists; split; [rewrite <- app_assoc; reflexivity | reflexivity]
            | eexists; split; reflexivity ].
  - intros caller now id1 id2 body st td myCardId cid other mine
      Hq Hm Hx Hc Ho Hmine Hne Hdup.
    unfold ExchangesV1.post_mutual, ExchangesV1.post_mutual_body, run_handler,
      check_url_token, bound, bind, get, ret, reply.
    rewrite Hq, Hm, Hx; cbn; rewrite Hc; cbn; rewrite Ho, Hmine.
    apply Nat.eqb_neq in Hne; rewrite Hne.
    destruct (find_collection st caller (card_id other)) eqn:E1;
    destruct (find_collection st (card_user_id other) (card_id mine)) eqn:E2;
    try reflexivity.
    destruct Hdup; congruence.
  - intros caller now id1 id2 body st d myCardId qc t other mine
      Hq Hm Hp Ht Ho Hmine Hne Hdup.
    unfold ExchangesV1.post_qr, ExchangesV1.post_qr_body, run_handler,
      bind, get, ret, reply.
    rewrite Hq, Hm, Hp; cbn; rewrite Ht, Ho, Hmine.
    apply Nat.eqb_neq in Hne; rewrite Hne.
    destruct (find_collection st caller (card_id other)) eqn:E1;
    destruct (find_collection st (card_user_id other) (card_id mine)) eqn:E2;
    try reflexivity.
    destruct Hdup; congruence.
Qed.

(** Bob redeems Alice's QR payload while already holding her card: only
    Alice's direction is written.  The URL and earlier QR routes refuse
    the same half-finished pair. *)
Lemma C1_witness :
  (fst (ExchangesV2.post_qr 2%nat 1000 101%nat 102%nat 200%nat Examples.v2_qr_body Examples.ex_state)
     = Ok 200 (QRDone 200%nat 10%nat 20%nat)
   /\ exists added,
        exchanges (snd (ExchangesV2.post_qr 2%nat 1000 101%nat 102%nat 200%nat Examples.v2_qr_body Examples.ex_state))
          = exchanges Examples.ex_state ++ added
        /\ map dir added = [] ++ [(1%nat, 20%nat)])
  /\ ExchangesV1.post_mutual 2%nat 1000 101%nat 102%nat Examples.mutual_body Examples.ex_state
       = (Fail 409 "Cards have already been exchanged between these users", Examples.ex_state)
  /\ ExchangesV1.post_qr 2%nat 1000 101%nat 102%nat Examples.v1_qr_body Examples.ex_state
       = (Fail 409 "Cards have already been exchanged between these users", Examples.ex_state).
Proof.
  split; [|split].
  - apply (proj1 C1_qr_skips_existing_direction 2%nat 1000 101%nat 102%nat 200%nat
             Examples.v2_qr_body Examples.ex_state 20%nat 7%nat 10%nat
             (mkQRToken 7%nat 1%nat 10%nat (IsoText 5000000))
             (mkCard 10%nat 1%nat "Alice") (mkCard 20%nat 2%nat "Bob"));
      [right; exists Examples.qr_payload; vm_compute; repeat split
      | vm_compute; first [reflexivity | discriminate] ..].
  - apply (proj1 (proj2 C1_qr_skips_existing_direction) 2%nat 1000 101%nat 102%nat
             Examples.mutual_body Examples.ex_state Examples.url_token 20%nat 10%nat
             (mkCard 10%nat 1%nat "Alice") (mkCard 20%nat 2%nat "Bob"));
      vm_compute; first [reflexivity | discriminate | left; discriminate].
  - apply (proj2 (proj2 C1_qr_skips_existing_direction) 2%nat 1000 101%nat 102%nat
             Examples.v1_qr_body Examples.ex_state (Some Examples.qr_payload) 20%nat
             (QR.mkQRContent 10%nat 1%nat 7%nat (Some 500))
             (mkQRToken 7%nat 1%nat 10%nat (IsoText 5000000))
             (mkCard 10%nat 1%nat "Alice") (mkCard 20%nat 2%nat "Bob"));
      vm_compute; first [reflexivity | discriminate | left; discriminate].
Defined.

(** Counterexample to C1 as stated: the URL mutual exchange on a
    half-finished pair (Bob holds Alice's card, Alice lacks Bob's) answers
    409 and writes nothing. *)
Lemma C1_mutual_rejects_half_finished :
  find_collection Examples.ex_state 2%nat 10%nat <> None
  /\ find_collection Examples.ex_state 1%nat 20%nat = None
  /\ ExchangesV1.post_mutual 2%nat 1000 101%nat 102%nat Examples.mutual_body Examples.ex_state
       = (Fail 409 "Cards have already been exchanged between these users", Examples.ex_state).
Proof. vm_compute; split; [discriminate | split; reflexivity]. Qed.

(** Claim C2 (as amended): a violated UNIQUE constraint on a ledger insert
    is reported as a failure, never as success.
    - The proximity accept turns it into a 500.
    - The QR catch of the later router tags it [duplicate_exchange_error],
      and no database error it catches becomes a success.
    - An accept whose requested card the caller already holds fails with
      500 and writes nothing (with the location fields absent the binding
      throws first, with the same answer).
    - An accept whose reverse direction already exists, with the location
      fields in the body, fails with 500 after its first insert has been
      committed. *)
Theorem C2_unique_violation_reported_as_failure :
  (forall caller now rid id1 id2 body st st',
    ExchangesV1.post_respond_body caller now rid id1 id2 body st
      = (Throw UniqueConstraintFailed, st') ->
    ExchangesV1.post_respond caller now rid id1 id2 body st
      = (Fail 500 "Failed to respond to exchange request", st'))
  /\ (ExchangesV2.post_qr_catch UniqueConstraintFailed
        = FailTyped 500 "Failed to complete QR exchange" "duplicate_exchange_error"
      /\ forall e, success (ExchangesV2.post_qr_catch e) = false)
  /\ (forall caller now rid id1 id2 body st m r mine other,
    ExchangesV1.rs_action body = "accept"%string ->
    ExchangesV1.rs_myCardId body = Some m ->
    ExchangesV1.find_pending_request st now rid caller = Some r ->
    find_own_card st m caller = Some mine ->
    find_card st (rq_card_id r) = Some other ->
    find_collection st caller (card_id other) <> None ->
    ExchangesV1.post_respond caller now rid id1 id2 body st
      = (Fail 500 "Failed to respond to exchange request", st))
  /\ (forall caller now rid id1 id2 body st m r mine other,
    ExchangesV1.rs_action body = "accept"%string ->
    ExchangesV1.rs_myCardId body = Some m ->
    located (ExchangesV1.rs_location body) = true ->
    ExchangesV1.find_pending_request st now rid caller = Some r ->
    find_own_card st m caller = Some mine ->
    find_card st (rq_card_id r) = Some other ->
    card_user_id other <> caller ->
    find_collection st caller (card_id other) = None ->
    find_collection st (card_user_id other) (card_id mine) <> None ->
    fst (ExchangesV1.post_respond caller now rid id1 id2 body st)
      = Fail 500 "Failed to respond to exchange request"
    /\ map dir (exchanges (snd (ExchangesV1.post_respond caller now rid id1 id2 body st)))
       = map dir (exchanges st) ++ [(caller, card_id other)]).
Proof.
  split; [|split; [|split]].
  - intros * H; unfold ExchangesV1.post_respond, run_handler; rewrite H; reflexivity.
  - split; [reflexivity|]; intros []; reflexivity.
  - intros caller now rid id1 id2 body st m r mine other Ha Hm Hr Hmine Ho Hdup.
    destruct (find_collection st caller (card_id other)) eqn:E1;
      [|exfalso; apply Hdup; reflexivity].
    unfold ExchangesV1.post_respond, ExchangesV1.post_respond_body, run_handler,
      bind_location, bound, throw, bind, get, ret, reply.
    rewrite Ha, Hm; cbn; rewrite Hr, Hmine, Ho.
    destruct (b_location_name (ExchangesV1.rs_location body)); cbn; [|reflexivity].
    destruct (b_latitude (ExchangesV1.rs_location body)); cbn; [|reflexivity].
    destruct (b_longitude (ExchangesV1.rs_location body)); cbn; [|reflexivity].
    unfold insert_exchange; cbn; rewrite E1; reflexivity.
  - intros caller now rid id1 id2 body st m r mine other Ha Hm Hl Hr Hmine Ho Hne Hn1 Hdup.
    unfold located in Hl.
    unfold ExchangesV1.post_respond, ExchangesV1.post_respond_body, run_handler,
      bind_location, bound, throw, bind, get, ret, reply.
    rewrite Ha, Hm; cbn; rewrite Hr, Hmine, Ho.
    destruct (b_location_name (ExchangesV1.rs_location body)); [|discriminate].
    destruct (b_latitude (ExchangesV1.rs_location body)); [|discriminate].
    destruct (b_longitude (ExchangesV1.rs_location body)); [|discriminate].
    unfold insert_exchange; cbn; rewrite Hn1.
    rewrite find_collection_snoc; cbn.
    destruct (find_collection st (card_user_id other) (card_id mine)) eqn:E2;
      [|exfalso; apply Hdup; reflexivity].
    cbn; split; [reflexivity|].
    rewrite map_app; reflexivity.
Qed.

(** Bob accepts Alice's request while already holding her card; and the
    same in a database where only the reverse direction exists. *)
Lemma C2_witness :
  ExchangesV1.post_respond 2%nat 1000 300%nat 101%nat 102%nat Examples.accept_body Examples.ex_state
    = (Fail 500 "Failed to respond to exchange request", Examples.ex_state)
  /\ ExchangesV1.post_respond 2%nat 1000 300%nat 101%nat 102%nat Examples.accept_body Examples.ex_state
    = (Fail 500 "Failed to respond to exchange request", Examples.ex_state)
  /\ (fst (ExchangesV1.post_respond 2%nat 1000 300%nat 101%nat 102%nat Examples.accept_body Examples.partial_state)
        = Fail 500 "Failed to respond to exchange request"
      /\ map dir (exchanges (snd (ExchangesV1.post_respond 2%nat 1000 300%nat 101%nat 102%nat
                                   Examples.accept_body Examples.partial_state)))
         = map dir (exchanges Examples.partial_state) ++ [(2%nat, 10%nat)]).
Proof.
  split; [|split].
  - apply (proj1 C2_unique_violation_reported_as_failure); vm_compute; reflexivity.
  - apply (proj1 (proj2 (proj2 C2_unique_violation_reported_as_failure))
             2%nat 1000 300%nat 101%nat 102%nat Examples.accept_body Examples.ex_state 20%nat
             (mkRequest 300%nat 1%nat 2%nat 10%nat None Pending 5000000)
             (mkCard 20%nat 2%nat "Bob") (mkCard 10%nat 1%nat "Alice"));
      vm_compute; first [reflexivity | discriminate].
  - apply (proj2 (proj2 (proj2 C2_unique_violation_reported_as_failure))
             2%nat 1000 300%nat 101%nat 102%nat Examples.accept_body Examples.partial_state 20%nat
             (mkRequest 300%nat 1%nat 2%nat 10%nat None Pending 5000000)
             (mkCard 20%nat 2%nat "Bob") (mkCard 10%nat 1%nat "Alice"));
      vm_compute; first [reflexivity | discriminate].
Defined.

(** Counterexample to C2 as stated: the accept path hits the existing
    ledger row and answers a failure (500), not a dedup success. *)
Lemma C2_accept_duplicate_fails :
  find_collection Examples.ex_state 2%nat 10%nat <> None
  /\ ExchangesV1.post_respond 2%nat 1000 300%nat 101%nat 102%nat Examples.accept_body Examples.ex_state
       = (Fail 500 "Failed to respond to exchange request", Examples.ex_state)
  /\ success (Fail 500 "Failed to respond to exchange request") = false.
Proof. vm_compute; split; [discriminate | split; reflexivity]. Qed.

(** Claim C3: in every reachable database a self-exchange is refused and
    writes no ledger row.
    - Collect (both routers): 400, database unchanged, when the caller
      owns the card.
    - URL mutual, earlier QR, and later QR (JSON payload or opaque
      token): the database is unchanged and the answer is a failure when
      the target card is the caller's.
    - Proximity accept: the requested card of a pending request addressed
      to the caller never belongs to the caller.
    - No ledger row of a reachable database collects its owner's own
      card. *)
Theorem C3_self_exchange_rejected st :
  reachable st ->
  (forall caller now xid body cid c,
    ExchangesV1.cr_collected_card_id body = Some cid ->
    find_card st cid = Some c -> card_user_id c = caller ->
    ExchangesV1.post_exchanges caller now xid body st
      = (Fail 400 "You cannot collect your own card", st)
    /\ ExchangesV2.post_exchanges caller now xid body st
      = (Fail 400 "Cannot collect your own card", st))
  /\ (forall caller now id1 id2 body td cid other,
    ExchangesV1.me_exchangeToken body = Some (Some td) ->
    td_cardId td = Some cid ->
    find_card_opt st cid = Some other -> card_user_id other = caller ->
    snd (ExchangesV1.post_mutual caller now id1 id2 body st) = st
    /\ success (fst (ExchangesV1.post_mutual caller now id1 id2 body st)) = false)
  /\ (forall caller now id1 id2 body d qc other,
    ExchangesV1.qr_qrData body = Some d ->
    QR.parseCardExchangeQRData now d = Some qc ->
    find_card st (QR.qc_cardId qc) = Some other -> card_user_id other = caller ->
    snd (ExchangesV1.post_qr caller now id1 id2 body st) = st
    /\ success (fst (ExchangesV1.post_qr caller now id1 id2 body st)) = false)
  /\ (forall caller now id1 id2 lid body d cid other,
    ExchangesV2.q2_qrData body = Some (ExchangesV2.QRJson (Some d)) ->
    q_cardId d = Some cid ->
    find_card st cid = Some other -> card_user_id other = caller ->
    snd (ExchangesV2.post_qr caller now id1 id2 lid body st) = st
    /\ success (fst (ExchangesV2.post_qr caller now id1 id2 lid body st)) = false)
  /\ (forall caller now id1 id2 lid body tok t other,
    ExchangesV2.q2_qrData body = Some (ExchangesV2.QROpaque tok) ->
    find_live_token st now tok = Some t ->
    find_card st (qt_card_id t) = Some other -> card_user_id other = caller ->
    snd (ExchangesV2.post_qr caller now id1 id2 lid body st) = st
    /\ success (fst (ExchangesV2.post_qr caller now id1 id2 lid body st)) = false)
  /\ (forall caller now rid r c,
    ExchangesV1.find_pending_request st now rid caller = Some r ->
    find_card st (rq_card_id r) = Some c ->
    card_user_id c <> caller)
  /\ Forall (entry_ok st) (exchanges st).
Proof.
  intros Hreach; pose proof (reachable_inv _ Hreach) as (Hu & He & Hr).
  split; [|split; [|split; [|split; [|split; [|split]]]]].
  - intros caller now xid body cid c Hb Hc <-.
    unfold ExchangesV1.post_exchanges, ExchangesV1.post_exchanges_body,
      ExchangesV2.post_exchanges, ExchangesV2.post_exchanges_body,
      run_handler, bind, get, reply.
    rewrite Hb; cbn; rewrite Hc, Nat.eqb_refl; split; reflexivity.
  - intros caller now id1 id2 body td cid other Ht Hc Ho Hown.
    unfold ExchangesV1.post_mutual, ExchangesV1.post_mutual_body,
      run_handler, check_url_token, bound, bind, get, ret, reply.
    rewrite Ht; destruct (ExchangesV1.me_myCardId body); [|split; reflexivity].
    destruct (url_token_expired now (td_expires td)); [split; reflexivity|].
    cbn; rewrite Hc; cbn; rewrite Ho; destruct (find_own_card st _ caller); [|split; reflexivity].
    rewrite Hown, Nat.eqb_refl; split; reflexivity.
  - intros caller now id1 id2 body d qc other Hq Hp Ho Hown.
    unfold ExchangesV1.post_qr, ExchangesV1.post_qr_body, run_handler,
      bind, get, ret, reply.
    rewrite Hq; destruct (ExchangesV1.qr_myCardId body); [|split; reflexivity].
    rewrite Hp; cbn; destruct (find_live_token st now _); [|split; reflexivity].
    rewrite Ho; destruct (find_own_card st _ caller); [|split; reflexivity].
    rewrite Hown, Nat.eqb_refl; split; reflexivity.
  - intros caller now id1 id2 lid body d cid other Hq Hc Ho Hown.
    unfold ExchangesV2.post_qr, ExchangesV2.post_qr_body, run_handler,
      bind, get, ret, reply.
    rewrite Hq; destruct (ExchangesV2.q2_myCardId body); [|split; reflexivity].
    cbn; destruct (ExchangesV2.parseCardExchangeQRData now (Some d)) as [q|] eqn:Ep;
      [|split; reflexivity].
    apply v2_parse_some in Ep; injection Ep as <-.
    destruct (q_token d); [|split; reflexivity].
    cbn; destruct (find_live_token st now _); [|split; reflexivity].
    rewrite Hc, Ho; destruct (find_own_card st _ caller); [|split; reflexivity].
    rewrite Hown, Nat.eqb_refl; split; reflexivity.
  - intros caller now id1 id2 lid body tok t other Hq Ht Ho Hown.
    unfold ExchangesV2.post_qr, ExchangesV2.post_qr_body, run_handler,
      bind, get, ret, reply.
    rewrite Hq; destruct (ExchangesV2.q2_myCardId body); [|split; reflexivity].
    cbn; rewrite Ht, Ho; destruct (find_own_card st _ caller); [|split; reflexivity].
    rewrite Hown, Nat.eqb_refl; split; reflexivity.
  - intros caller now rid r c Hp Hc.
    destruct (find_pending_request_some _ _ _ _ _ Hp) as [Hin Hto].
    destruct (proj1 (Forall_forall _ _) Hr r Hin) as (Hne & c' & Hc' & Hown).
    rewrite Hc in Hc'; injection Hc' as <-.
    rewrite Hown, <- Hto; exact Hne.
  - exact He.
Qed.

(** In the example database (reachable), Alice collecting or scanning her
    own card is refused, and Bob's pending request points to Alice's
    card. *)
Lemma C3_witness :
  reachable Examples.ex_state
  /\ (ExchangesV1.post_exchanges 1%nat 1000 101%nat
        (ExchangesV1.mkCreate (Some 10%nat) None Examples.null_location) Examples.ex_state
        = (Fail 400 "You cannot collect your own card", Examples.ex_state)
      /\ ExchangesV2.post_exchanges 1%nat 1000 101%nat
        (ExchangesV1.mkCreate (Some 10%nat) None Examples.null_location) Examples.ex_state
        = (Fail 400 "Cannot collect your own card", Examples.ex_state))
  /\ (snd (ExchangesV2.post_qr 1%nat 1000 101%nat 102%nat 200%nat Examples.self_v2_qr_body Examples.ex_state)
        = Examples.ex_state
      /\ success (fst (ExchangesV2.post_qr 1%nat 1000 101%nat 102%nat 200%nat
                         Examples.self_v2_qr_body Examples.ex_state)) = false)
  /\ card_user_id (mkCard 10%nat 1%nat "Alice") <> 2%nat.
Proof.
  split; [exact ex_state_reachable|split; [|split]].
  - apply (proj1 (C3_self_exchange_rejected Examples.ex_state ex_state_reachable)
             1%nat 1000 101%nat (ExchangesV1.mkCreate (Some 10%nat) None Examples.null_location)
             10%nat (mkCard 10%nat 1%nat "Alice")); vm_compute; reflexivity.
  - apply (proj1 (proj2 (proj2 (proj2 (C3_self_exchange_rejected Examples.ex_state ex_state_reachable))))
             1%nat 1000 101%nat 102%nat 200%nat Examples.self_v2_qr_body Examples.qr_payload
             10%nat (mkCard 10%nat 1%nat "Alice"));
      vm_compute; reflexivity.
  - apply (proj1 (proj2 (proj2 (proj2 (proj2 (proj2
             (C3_self_exchange_rejected Examples.ex_state ex_state_reachable))))))
             2%nat 1000 300%nat (mkRequest 300%nat 1%nat 2%nat 10%nat None Pending 5000000));
      vm_compute; reflexivity.
Defined.

(** Claim C4: a credential carrying its own timestamp or expiry is refused
    as expired exactly when its age exceeds the TTL.
    - A well-formed QR payload with timestamp [ts] is refused by the QR
      utilities' parser iff [now - ts > 30 min]; in particular a generated
      payload is.
    - The later router's own parser, and its instant QR redeem, refuse a
      well-formed payload with a nonzero timestamp [ts] iff
      [now - ts > 30 min].
    - A share-URL token issued at [t0] by
      [POST /cards/:id/generate-exchange-url] is refused as expired by the
      mutual exchange iff [now - t0 > 24 h]. *)
Theorem C4_freshness_window :
  (forall now d c u tok ts,
    q_type d = "card_exchange"%string -> q_cardId d = Some c -> q_userId d = Some u ->
    q_token d = Some tok -> q_timestamp d = Some ts ->
    (QR.parseCardExchangeQRData now (Some d) = None <-> now - ts > 30 * 60 * 1000))
  /\ (forall t0 now c u tok,
    QR.parseCardExchangeQRData now (Some (QR.generateCardExchangeQRData t0 c u tok)) = None
    <-> now - t0 > 30 * 60 * 1000)
  /\ (forall now d c u tok ts,
    q_type d = "card_exchange"%string -> q_cardId d = Some c -> q_userId d = Some u ->
    q_token d = Some tok -> q_timestamp d = Some ts -> ts <> 0 ->
    (ExchangesV2.parseCardExchangeQRData now (Some d) = None
     <-> now - ts > 30 * 60 * 1000)
    /\ (forall caller id1 id2 lid body st m,
         ExchangesV2.q2_qrData body = Some (ExchangesV2.QRJson (Some d)) ->
         ExchangesV2.q2_myCardId body = Some m ->
         (fst (ExchangesV2.post_qr caller now id1 id2 lid body st)
            = Fail 400 "Invalid or expired QR code format"
          <-> now - ts > 30 * 60 * 1000)))
  /\ (forall issuer t0 cid st td c' exp,
    fst (Cards.post_generate_exchange_url issuer t0 cid st) = Ok 200 (ExchangeUrl td c' exp) ->
    forall caller now id1 id2 body st' m,
       ExchangesV1.me_exchangeToken body = Some (Some td) ->
       ExchangesV1.me_myCardId body = Some m ->
       (fst (ExchangesV1.post_mutual caller now id1 id2 body st')
          = Fail 400 "Exchange token has expired"
        <-> now - t0 > 24 * 60 * 60 * 1000)).
Proof.
  assert (Hqr : forall now d c u tok ts,
    q_type d = "card_exchange"%string -> q_cardId d = Some c -> q_userId d = Some u ->
    q_token d = Some tok -> q_timestamp d = Some ts ->
    (QR.parseCardExchangeQRData now (Some d) = None <-> now - ts > 30 * 60 * 1000)).
  { intros now d c u tok ts Ht Hc Hu Htok Hts.
    unfold QR.parseCardExchangeQRData; rewrite Ht, Hc, Hu, Htok; cbn.
    unfold QR.too_old, QR.maxAge; rewrite Hts.
    destruct (Z.ltb_spec (30 * 60 * 1000) (now - ts)); split; intros H0;
      solve [ reflexivity | lia | discriminate ]. }
  split; [exact Hqr|split; [|split]].
  - intros t0 now c u tok; apply (Hqr now _ c u tok t0); reflexivity.
  - intros now d c u tok ts Ht Hc Hu Htok Hts H0.
    assert (Hv2 : ExchangesV2.parseCardExchangeQRData now (Some d) = None
                  <-> now - ts > 30 * 60 * 1000).
    { unfold ExchangesV2.parseCardExchangeQRData; rewrite Ht, Hc, Hu, Htok, Hts; cbn.
      apply Z.eqb_neq in H0; rewrite H0.
      destruct (_ <? _) eqn:E; [apply Z.ltb_lt in E | apply Z.ltb_ge in E];
        split; intros H1; solve [ reflexivity | lia | discriminate ]. }
    split; [exact Hv2|].
    intros caller id1 id2 lid body st m Hq Hm.
    unfold ExchangesV2.post_qr, ExchangesV2.post_qr_body, run_handler, bind, get, ret, reply.
    rewrite Hq, Hm; cbn.
    destruct (ExchangesV2.parseCardExchangeQRData now (Some d)) as [q|] eqn:Ep.
    + split; intros H.
      * exfalso; revert H.
        apply v2_parse_some in Ep; injection Ep as <-; rewrite Htok; cbn.
        unfold insert_exchange, modify; split_matches; discriminate.
      * apply Hv2 in H; discriminate H.
    + split; intros _; [apply Hv2; reflexivity | reflexivity].
  - intros issuer t0 cid st td c' exp Hgen.
    assert (Htd : td_expires td = Some (t0 + Cards.url_ttl)).
    { revert Hgen; unfold Cards.post_generate_exchange_url,
        Cards.post_generate_exchange_url_body, run_handler, bind, get, ret, reply.
      cbn; destruct (find_own_card st cid issuer); cbn; [|intros Hf; discriminate Hf].
      intros H; injection H as <- _ _; reflexivity. }
    unfold Cards.url_ttl in Htd.
    intros caller now id1 id2 body st' m Ht Hm.
    unfold ExchangesV1.post_mutual, ExchangesV1.post_mutual_body, run_handler,
      check_url_token, bind.
    rewrite Ht, Hm; unfold url_token_expired; rewrite Htd.
    destruct (Z.ltb_spec (t0 + 24 * 60 * 60 * 1000) now).
    + split; [lia|reflexivity].
    + split; [|lia].
      unfold get, ret, reply, bind_location, bound, throw, insert_exchange, bind.
      split_matches; discriminate.
Qed.

(** Alice's payloads, redeemed 0.5 s after issuing (fresh), and her URL
    token redeemed 25 h after issuing (expired). *)
Lemma C4_witness :
  (QR.parseCardExchangeQRData 1000 (Some Examples.qr_payload) = None
     <-> 1000 - 500 > 30 * 60 * 1000)
  /\ (QR.parseCardExchangeQRData 1000
        (Some (QR.generateCardExchangeQRData 500 10%nat 1%nat 7%nat)) = None
     <-> 1000 - 500 > 30 * 60 * 1000)
  /\ ((ExchangesV2.parseCardExchangeQRData 1000 (Some Examples.qr_payload) = None
       <-> 1000 - 500 > 30 * 60 * 1000)
      /\ (fst (ExchangesV2.post_qr 2%nat 1000 101%nat 102%nat 200%nat
                 Examples.v2_qr_body Examples.ex_state)
            = Fail 400 "Invalid or expired QR code format"
          <-> 1000 - 500 > 30 * 60 * 1000))
  /\ (fst (ExchangesV1.post_mutual 2%nat 90000000 101%nat 102%nat Examples.mutual_body Examples.ex_state)
        = Fail 400 "Exchange token has expired"
      <-> 90000000 - 0 > 24 * 60 * 60 * 1000).
Proof.
  split; [|split; [|split]].
  - apply (proj1 C4_freshness_window 1000 Examples.qr_payload 10%nat 1%nat 7%nat 500);
      reflexivity.
  - apply (proj1 (proj2 C4_freshness_window)).
  - pose proof (proj1 (proj2 (proj2 C4_freshness_window)) 1000 Examples.qr_payload
                  10%nat 1%nat 7%nat 500 eq_refl eq_refl eq_refl eq_refl eq_refl
                  ltac:(discriminate)) as [H1 H2].
    split; [exact H1|].
    apply (H2 2%nat 101%nat 102%nat 200%nat Examples.v2_qr_body Examples.ex_state 20%nat);
      reflexivity.
  - apply (proj2 (proj2 (proj2 C4_freshness_window)) 1%nat 0 10%nat Examples.ex_state
             Examples.url_token 10%nat (0 + Cards.url_ttl) ltac:(vm_compute; reflexivity)
             2%nat 90000000 101%nat 102%nat Examples.mutual_body Examples.ex_state 20%nat);
      reflexivity.
Defined.

(** Claim C5: the instant QR redeem of the later router never deletes a
    QR token row.  After a successful redeem of an opaque token or of a
    JSON payload, the token it named is still stored and live. *)
Theorem C5_qr_redeem_keeps_token :
  (forall caller now id1 id2 lid body st,
    qr_exchange_tokens (snd (ExchangesV2.post_qr caller now id1 id2 lid body st))
      = qr_exchange_tokens st)
  /\ (forall caller now id1 id2 lid body st tok code x,
    (ExchangesV2.q2_qrData body = Some (ExchangesV2.QROpaque tok)
     \/ exists d, ExchangesV2.q2_qrData body = Some (ExchangesV2.QRJson (Some d))
                  /\ q_token d = Some tok) ->
    fst (ExchangesV2.post_qr caller now id1 id2 lid body st) = Ok code x ->
    exists t, find_live_token st now tok = Some t
      /\ find_live_token (snd (ExchangesV2.post_qr caller now id1 id2 lid body st))
           now tok = Some t).
Proof.
  assert (Hkeep : forall caller now id1 id2 lid body st,
    qr_exchange_tokens (snd (ExchangesV2.post_qr caller now id1 id2 lid body st))
      = qr_exchange_tokens st).
  { intros; unfold ExchangesV2.post_qr, ExchangesV2.post_qr_body;
    unfold_handler; split_matches; reflexivity. }
  split; [exact Hkeep|].
  intros caller now id1 id2 lid body st tok code x Hq Hok.
  assert (Hsame : forall tok, find_live_token
            (snd (ExchangesV2.post_qr caller now id1 id2 lid body st)) now tok
          = find_live_token st now tok).
  { intros tok'; unfold find_live_token; rewrite Hkeep; reflexivity. }
  rewrite Hsame.
  destruct (find_live_token st now tok) as [t|] eqn:Ht;
    [exists t; split; reflexivity|].
  exfalso; revert Hok.
  unfold ExchangesV2.post_qr, ExchangesV2.post_qr_body, run_handler, bind, get,
    ret, reply.
  destruct Hq as [Hq | (d & Hq & Htok)]; rewrite Hq;
    destruct (ExchangesV2.q2_myCardId body); cbn; try discriminate.
  - rewrite Ht; cbn; discriminate.
  - destruct (ExchangesV2.parseCardExchangeQRData now (Some d)) as [q|] eqn:Ep;
      cbn; [|discriminate].
    apply v2_parse_some in Ep; injection Ep as <-.
    rewrite Htok; cbn; rewrite Ht; cbn; discriminate.
Qed.

(** Bob redeems Alice's token 7; the token is still live afterwards. *)
Lemma C5_witness :
  exists t, find_live_token Examples.ex_state 1000 7%nat = Some t
    /\ find_live_token (snd (ExchangesV2.post_qr 2%nat 1000 101%nat 102%nat 200%nat
                               Examples.v2_qr_body Examples.ex_state)) 1000 7%nat = Some t.
Proof.
  apply (proj2 C5_qr_redeem_keeps_token 2%nat 1000 101%nat 102%nat 200%nat
           Examples.v2_qr_body Examples.ex_state 7%nat 200%nat (QRDone 200%nat 10%nat 20%nat));
    [right; exists Examples.qr_payload; split; reflexivity | vm_compute; reflexivity].
Defined.

(** About claim C6 (a slip of one route).
    [POST /cards/:id/generate-qr] appends the new token and keeps every
    earlier token of the (issuer, card) pair.  Its sibling
    [POST /exchanges/qr/generate] leaves exactly one token for the
    pair. *)
Theorem C6_generate_qr_keeps_earlier_tokens :
  (forall caller now tok cid st c,
    find_own_card st cid caller = Some c ->
    qr_exchange_tokens (snd (Cards.post_generate_qr caller now tok cid st))
      = qr_exchange_tokens st ++ [mkQRToken tok caller cid (IsoText (now + 30 * 60 * 1000))])
  /\ (forall caller now tok cid st c,
    find_own_card st cid caller = Some c ->
    tokens_of caller cid (snd (ExchangesV2.post_qr_generate caller now tok (Some cid) st))
      = [mkQRToken tok caller cid (SqlTime (now + ExchangesV2.qr_token_ttl))]).
Proof.
  split.
  - intros caller now tok cid st c Hc.
    unfold Cards.post_generate_qr, Cards.post_generate_qr_body, run_handler,
      bind, get, ret, modify; cbn; rewrite Hc; reflexivity.
  - intros caller now tok cid st c Hc.
    unfold ExchangesV2.post_qr_generate, ExchangesV2.post_qr_generate_body, run_handler,
      bind, get, ret, modify; cbn; rewrite Hc; cbn.
    unfold tokens_of; cbn; rewrite filter_app; cbn.
    rewrite !Nat.eqb_refl; cbn.
    replace (filter _ (filter _ (qr_exchange_tokens st))) with (@nil QRToken);
      [reflexivity|].
    induction (qr_exchange_tokens st) as [|t ts IH]; cbn; [reflexivity|].
    destruct (Nat.eqb (qt_user_id t) caller && Nat.eqb (qt_card_id t) cid) eqn:E;
      cbn; [exact IH|rewrite E; exact IH].
Qed.

(** Alice issues token 8 for card 10 while token 7 is live. *)
Lemma C6_witness :
  qr_exchange_tokens (snd (Cards.post_generate_qr 1%nat 1000 8%nat 10%nat Examples.ex_state))
    = [mkQRToken 7%nat 1%nat 10%nat (IsoText 5000000);
       mkQRToken 8%nat 1%nat 10%nat (IsoText 1801000)]
  /\ tokens_of 1%nat 10%nat
       (snd (ExchangesV2.post_qr_generate 1%nat 1000 8%nat (Some 10%nat) Examples.ex_state))
     = [mkQRToken 8%nat 1%nat 10%nat (SqlTime 1801000)].
Proof.
  split.
  - apply (proj1 C6_generate_qr_keeps_earlier_tokens 1%nat 1000 8%nat 10%nat Examples.ex_state
             (mkCard 10%nat 1%nat "Alice")); vm_compute; reflexivity.
  - apply (proj2 C6_generate_qr_keeps_earlier_tokens 1%nat 1000 8%nat 10%nat Examples.ex_state
             (mkCard 10%nat 1%nat "Alice")); vm_compute; reflexivity.
Defined.

(** After [POST /cards/:id/generate-qr], two live tokens exist for
    (Alice, card 10). *)
Lemma C6_two_live_tokens :
  let st := snd (Cards.post_generate_qr 1%nat 1000 8%nat 10%nat Examples.ex_state) in
  find_live_token st 2000 7%nat = Some (mkQRToken 7%nat 1%nat 10%nat (IsoText 5000000))
  /\ find_live_token st 2000 8%nat = Some (mkQRToken 8%nat 1%nat 10%nat (IsoText 1801000)).
Proof. vm_compute; split; reflexivity. Qed.

(** Claim C7: in every reachable database, when user [u] already holds
    card [cid], [POST /exchanges] of both routers answers 409 and leaves
    the database unchanged. *)
Theorem C7_duplicate_collect_rejected st :
  reachable st ->
  forall u cid e now xid body,
    ExchangesV1.cr_collected_card_id body = Some cid ->
    find_collection st u cid = Some e ->
    ExchangesV1.post_exchanges u now xid body st
      = (Fail 409 "You have already collected this card", st)
    /\ ExchangesV2.post_exchanges u now xid body st
      = (Fail 409 "Card already in your collection", st).
Proof.
  intros Hreach u cid e now xid body Hb Hf.
  pose proof (reachable_inv _ Hreach) as (_ & He & _).
  destruct (find_collection_some _ _ _ _ Hf) as (Hin & Ho & Hc).
  destruct (proj1 (Forall_forall _ _) He e Hin) as (c & Hfc & Hne).
  rewrite Hc in Hfc; rewrite Ho in Hne; apply Nat.eqb_neq in Hne.
  unfold ExchangesV1.post_exchanges, ExchangesV1.post_exchanges_body,
    ExchangesV2.post_exchanges, ExchangesV2.post_exchanges_body,
    run_handler, bind, get, reply.
  rewrite Hb; cbn; rewrite Hfc, Hne, Hf; split; reflexivity.
Qed.

(** Bob collects Alice's card a second time. *)
Lemma C7_witness :
  reachable Examples.ex_state
  /\ ExchangesV1.post_exchanges 2%nat 1000 101%nat
       (ExchangesV1.mkCreate (Some 10%nat) None Examples.null_location) Examples.ex_state
       = (Fail 409 "You have already collected this card", Examples.ex_state)
  /\ ExchangesV2.post_exchanges 2%nat 1000 101%nat
       (ExchangesV1.mkCreate (Some 10%nat) None Examples.null_location) Examples.ex_state
       = (Fail 409 "Card already in your collection", Examples.ex_state).
Proof.
  split; [exact ex_state_reachable|].
  apply (C7_duplicate_collect_rejected Examples.ex_state ex_state_reachable 2%nat 10%nat
           (mkExchange 100%nat 2%nat 10%nat None None None None 0) 1000 101%nat
           (ExchangesV1.mkCreate (Some 10%nat) None Examples.null_location));
    vm_compute; reflexivity.
Defined.

(** About claim C8 (the feed is never served).  [GET /exchanges/:id] is
    registered before [GET /exchanges/qr-logs] in the later router, so
    the path [/exchanges/qr-logs] is handled as the exchange record with
    id ["qr-logs"]: no row has that id, the answer is 404
    "Exchange record not found" and no log row is marked notified. *)
Theorem C8_qr_logs_shadowed caller st :
  ExchangesV2.get_segment caller "qr-logs" st
    = (Fail 404 "Exchange record not found", st).
Proof. apply v2_get_word; cbn; lia. Qed.

(** Alice asks for her feed after Bob's QR exchange: 404 and no row is
    marked, while the [qr-logs] handler itself would have listed one new
    row. *)
Lemma C8_witness :
  ExchangesV2.get_segment 1%nat "qr-logs" Examples.logs_state
    = (Fail 404 "Exchange record not found", Examples.logs_state)
  /\ fst (ExchangesV2.get_qr_logs 1%nat Examples.logs_state)
    = Ok 200 (Logs [mkLogView 200%nat 2%nat 20%nat 10%nat false] 1 1).
Proof.
  split; [apply (C8_qr_logs_shadowed 1%nat Examples.logs_state) | vm_compute; reflexivity].
Defined.

(** Claim C9: only the owner changes or deletes a ledger row.
    - When the row's owner is not the caller, the update and delete of
      both routers answer 403 and leave the database unchanged.
    - An update keeps the id, owner, collected card and creation time of
      every row, and leaves rows with other ids as they were. *)
Theorem C9_owner_only_ledger_changes caller xid body st :
  (forall e, find_exchange st xid = Some e -> owner_user_id e <> caller ->
     ExchangesV1.put_exchange caller xid body st
       = (Fail 403 "You are not authorized to update this exchange", st)
     /\ ExchangesV2.put_exchange caller xid body st
       = (Fail 403 "Not authorized to update this exchange", st)
     /\ ExchangesV1.delete_exchange caller xid st
       = (Fail 403 "You are not authorized to delete this exchange", st)
     /\ ExchangesV2.delete_exchange caller xid st
       = (Fail 403 "Not authorized to delete this exchange", st))
  /\ Forall2 (fun e e' => ledger_key e' = ledger_key e /\ (ex_id e <> xid -> e' = e))
       (exchanges st) (exchanges (snd (ExchangesV1.put_exchange caller xid body st)))
  /\ Forall2 (fun e e' => ledger_key e' = ledger_key e /\ (ex_id e <> xid -> e' = e))
       (exchanges st) (exchanges (snd (ExchangesV2.put_exchange caller xid body st))).
Proof.
  split; [|split].
  - intros e Hf Hne; apply Nat.eqb_neq in Hne.
    unfold ExchangesV1.put_exchange, ExchangesV1.put_exchange_body,
      ExchangesV2.put_exchange, ExchangesV2.put_exchange_body,
      ExchangesV1.delete_exchange, ExchangesV1.delete_exchange_body,
      ExchangesV2.delete_exchange, ExchangesV2.delete_exchange_body,
      run_handler, bind, get, reply; cbn.
    rewrite Hf, Hne; cbn; repeat split.
  - unfold ExchangesV1.put_exchange, ExchangesV1.put_exchange_body;
      unfold_handler; split_matches.
    all: try (cbn; apply Forall2_self; intros x; split; reflexivity).
    apply Forall2_map_self; intros x.
    destruct (Nat.eqb (ex_id x) xid) eqn:Ex.
    + split; [|intros Hx; apply Nat.eqb_eq in Ex; contradiction].
      unfold ExchangesV1.apply_update, ledger_key.
      destruct (ExchangesV1.up_latitude body), (ExchangesV1.up_longitude body); reflexivity.
    + split; reflexivity.
  - unfold ExchangesV2.put_exchange, ExchangesV2.put_exchange_body;
      unfold_handler; split_matches.
    all: try (cbn; apply Forall2_self; intros x; split; reflexivity).
    apply Forall2_map_self; intros x.
    destruct (Nat.eqb (ex_id x) xid) eqn:Ex.
    + split; [reflexivity|intros Hx; apply Nat.eqb_eq in Ex; contradiction].
    + split; reflexivity.
Qed.

(** Alice tries to edit or delete Bob's ledger row. *)
Lemma C9_witness :
  ExchangesV1.put_exchange 1%nat 100%nat
      (ExchangesV1.mkUpdate (Some (Some "mine"%string)) None None None) Examples.ex_state
    = (Fail 403 "You are not authorized to update this exchange", Examples.ex_state)
  /\ ExchangesV2.put_exchange 1%nat 100%nat
      (ExchangesV1.mkUpdate (Some (Some "mine"%string)) None None None) Examples.ex_state
    = (Fail 403 "Not authorized to update this exchange", Examples.ex_state)
  /\ ExchangesV1.delete_exchange 1%nat 100%nat Examples.ex_state
    = (Fail 403 "You are not authorized to delete this exchange", Examples.ex_state)
  /\ ExchangesV2.delete_exchange 1%nat 100%nat Examples.ex_state
    = (Fail 403 "Not authorized to delete this exchange", Examples.ex_state).
Proof.
  apply (proj1 (C9_owner_only_ledger_changes 1%nat 100%nat
           (ExchangesV1.mkUpdate (Some (Some "mine"%string)) None None None) Examples.ex_state)
           (mkExchange 100%nat 2%nat 10%nat None None None None 0));
    vm_compute; first [reflexivity | discriminate].
Defined.




End Claims.

(* ================================================================== *)
(** * Further properties of the routes *)

Lemma find_filter_keep {A} (f g : A -> bool) l :
  (forall x, f x = true -> g x = true) -> find f (filter g l) = find f l.
Proof.
  intros H; induction l as [|a l IH]; cbn; [reflexivity|].
  destruct (g a) eqn:Eg; cbn.
  - destruct (f a); [reflexivity|exact IH].
  - destruct (f a) eqn:Ef; [rewrite (H a Ef) in Eg; discriminate|exact IH].
Qed.

Lemma find_map_fix {A} (f : A -> bool) (h : A -> A) l :
  (forall x, f (h x) = f x) -> (forall x, f x = true -> h x = x) ->
  find f (map h l) = find f l.
Proof.
  intros H1 H2; induction l as [|a l IH]; cbn; [reflexivity|].
  rewrite H1; destruct (f a) eqn:E; [rewrite (H2 a E); reflexivity|exact IH].
Qed.

Lemma filter_filter_and {A} (f g : A -> bool) l :
  filter f (filter g l) = filter (fun x => g x && f x) l.
Proof.
  induction l as [|a l IH]; cbn; [reflexivity|].
  destruct (g a); cbn; [destruct (f a); cbn; congruence|exact IH].
Qed.

Lemma expire_row_live now r :
  live now (rq_expires_at r) = true -> expire_row now r = r.
Proof. unfold expire_row; intros ->; reflexivity. Qed.

Lemma expire_row_expires now r : rq_expires_at (expire_row now r) = rq_expires_at r.
Proof. unfold expire_row; destruct (_ && _); reflexivity. Qed.

Lemma expire_row_pending now r :
  status_eqb (status (expire_row now r)) Pending
  = live now (rq_expires_at r) && status_eqb (status r) Pending.
Proof.
  destruct r as [i f t c m s e]; unfold expire_row; cbn.
  destruct (live now e), s; reflexivity.
Qed.

Lemma live_mono a b e : a <= b -> live b e = true -> live a e = true.
Proof. unfold live; rewrite !Z.ltb_lt; lia. Qed.

Lemma filter_map_fix {A} (f : A -> bool) (h : A -> A) l :
  (forall x, f (h x) = f x) -> (forall x, f x = true -> h x = x) ->
  filter f (map h l) = filter f l.
Proof.
  intros H1 H2; induction l as [|a l IH]; cbn; [reflexivity|].
  rewrite H1; destruct (f a) eqn:E; [rewrite (H2 a E), IH; reflexivity|exact IH].
Qed.

Lemma find_in_some {A} (f : A -> bool) l x :
  In x l -> f x = true -> exists y, find f l = Some y.
Proof.
  induction l as [|a l IH]; cbn; [tauto|].
  intros [<-|Hin] Hf; [rewrite Hf; eauto|].
  destruct (f a); [eauto|exact (IH Hin Hf)].
Qed.

Lemma log_rows_iff st caller l :
  In l (ExchangesV2.log_rows st caller)
  <-> In l (qr_exchange_logs st) /\ qr_owner_user_id l = caller
      /\ ExchangesV2.joins st l = true.
Proof.
  unfold ExchangesV2.log_rows; split.
  - intros H; apply (Permutation_in _ (sort_desc_perm _)) in H.
    apply filter_In in H as [H Hp]; apply andb_true_iff in Hp as [Ho Hj].
    apply Nat.eqb_eq in Ho; auto.
  - intros (H & Ho & Hj).
    apply (Permutation_in _ (Permutation_sym (sort_desc_perm _))).
    apply filter_In; split; [exact H|]; rewrite Ho, Nat.eqb_refl; exact Hj.
Qed.

Lemma delete_qr_log_cases caller lid st :
  ExchangesV2.delete_qr_log caller lid st
    = (Ok 200 NoData, set_logs st (filter (fun l => negb (Nat.eqb (log_id l) lid))
                                          (qr_exchange_logs st)))
  \/ exists msg, ExchangesV2.delete_qr_log caller lid st = (Fail (fst msg) (snd msg), st).
Proof.
  unfold ExchangesV2.delete_qr_log, ExchangesV2.delete_qr_log_body;
  unfold_handler; cbn.
  destruct (ExchangesV2.find_log st lid) as [l|]; cbn.
  - destruct (_ && _); cbn; [right; eexists (_, _); reflexivity|left; reflexivity].
  - right; eexists (_, _); reflexivity.
Qed.

Lemma insert_desc_sorted l ls :
  Sorted newer_first ls -> Sorted newer_first (ExchangesV2.insert_desc l ls).
Proof.
  unfold newer_first.
  induction ls as [|a ls IH]; cbn; intros H; [repeat constructor|].
  destruct (Z.ltb_spec (log_created_at a) (log_created_at l)).
  - constructor; [exact H|constructor; lia].
  - inversion H as [|? ? Hs Hd]; subst.
    constructor; [exact (IH Hs)|].
    destruct ls as [|b ls']; cbn; [constructor; lia|].
    inversion Hd; subst.
    destruct (Z.ltb _ _); constructor; lia.
Qed.

(** ** At most one ledger row per direction *)

Lemma nodup_snoc_dir s l e :
  exchanges s = l ->
  find_collection s (owner_user_id e) (collected_card_id e) = None ->
  NoDup (map dir l) -> NoDup (map dir (l ++ [e])).
Proof.
  intros <- Hf Hnd.
  rewrite map_app; apply (Permutation_NoDup (Permutation_app_comm _ _)); cbn.
  constructor; [|exact Hnd].
  intros Hin; apply in_map_iff in Hin as (e' & Hd & Hin).
  unfold find_collection in Hf; pose proof (find_none _ _ Hf e' Hin) as Hx.
  unfold dir in Hd; injection Hd as Ho Hc.
  cbn in Hx; rewrite Ho, Hc, !Nat.eqb_refl in Hx; discriminate Hx.
Qed.

Lemma nodup_map_dir_keep (g : Exchange -> Exchange) l :
  (forall x, dir (g x) = dir x) -> NoDup (map dir l) -> NoDup (map dir (map g l)).
Proof.
  intros H Hnd; rewrite map_map; erewrite map_ext; [exact Hnd|]; exact H.
Qed.

Ltac close_ledger :=
  unfold ledger_unique in *; cbn;
  repeat first
    [ assumption
    | apply NoDup_map_filter
    | match goal with
      | |- NoDup (map dir (?l ++ [?e])) =>
          match goal with
          | H : find_collection ?s _ _ = None |- _ =>
              apply (nodup_snoc_dir s l e); [reflexivity | exact H | ]
          end
      end
    | (apply nodup_map_dir_keep; [|assumption];
       let x := fresh "x" in
       intros x; cbv beta;
       match goal with |- context [if ?b then _ else _] => destruct b end;
         [|reflexivity];
       try unfold ExchangesV1.apply_update;
       repeat match goal with
              | |- context [match ?y with _ => _ end] => destruct y
              end; reflexivity) ].

Lemma ledger_step st st' : step st st' -> ledger_unique st -> ledger_unique st'.
Proof.
  destruct 1; intros Hl.
  all: try (unfold ExchangesV1.post_exchanges, ExchangesV1.post_exchanges_body,
              ExchangesV1.put_exchange, ExchangesV1.put_exchange_body,
              ExchangesV1.delete_exchange, ExchangesV1.delete_exchange_body,
              ExchangesV1.post_mutual, ExchangesV1.post_mutual_body,
              ExchangesV1.post_qr, ExchangesV1.post_qr_body,
              ExchangesV1.post_request, ExchangesV1.post_request_body,
              ExchangesV1.post_respond, ExchangesV1.post_respond_body,
              ExchangesV2.post_exchanges, ExchangesV2.post_exchanges_body,
              ExchangesV2.put_exchange, ExchangesV2.put_exchange_body,
              ExchangesV2.delete_exchange, ExchangesV2.delete_exchange_body,
              ExchangesV2.post_qr_generate, ExchangesV2.post_qr_generate_body,
              ExchangesV2.post_qr, ExchangesV2.post_qr_body,
              Cards.post_generate_qr, Cards.post_generate_qr_body,
              Cards.delete_card, Cards.delete_card_body,
              post_expired_tokens, post_expired_tokens_body;
            unfold_handler; split_matches; cbn; close_ledger; fail).
  all: close_ledger.
Qed.

Lemma reachable_ledger st : reachable st -> ledger_unique st.
Proof.
  induction 1; [constructor|]; eapply ledger_step; eassumption.
Qed.


Lemma find_none_forall {A} (f : A -> bool) l :
  (forall x, In x l -> f x = false) -> find f l = None.
Proof.
  induction l as [|a l IH]; cbn; intros H; [reflexivity|].
  rewrite (H a (or_introl eq_refl)); apply IH; auto.
Qed.

Lemma find_pending_after_status reqs now' rid to s :
  s <> Pending ->
  find (fun r => Nat.eqb (rq_id r) rid && Nat.eqb (to_user_id r) to
                 && status_eqb (status r) Pending && live now' (rq_expires_at r))
    (map (fun r => if Nat.eqb (rq_id r) rid
                   then mkRequest (rq_id r) (from_user_id r) (to_user_id r)
                          (rq_card_id r) (rq_message r) s (rq_expires_at r)
                   else r) reqs) = None.
Proof.
  intros Hs; apply find_none_forall; intros x Hx.
  apply in_map_iff in Hx as (r & <- & _).
  destruct (Nat.eqb (rq_id r) rid) eqn:E; cbn; rewrite ?E; [|reflexivity].
  destruct s; [congruence| | |]; rewrite ?andb_false_r; reflexivity.
Qed.

Lemma qr_parse_same_token n1 n2 d q1 q2 :
  QR.parseCardExchangeQRData n1 d = Some q1 ->
  QR.parseCardExchangeQRData n2 d = Some q2 -> QR.qc_token q1 = QR.qc_token q2.
Proof.
  unfold QR.parseCardExchangeQRData; destruct d as [d|]; [|discriminate].
  destruct (negb _); [discriminate|].
  destruct (q_cardId d), (q_userId d), (q_token d); try discriminate.
  destruct (QR.too_old n1 _); [discriminate|]; intros H1; injection H1 as <-.
  destruct (QR.too_old n2 _); [discriminate|]; intros H2; injection H2 as <-.
  reflexivity.
Qed.

Module Extras.

(** Extra (cleanup router): [POST /cleanup/expired-tokens] deletes the QR
    tokens that are no longer live and then fails on the missing
    [user_locations] table: it answers 500 "Failed to perform cleanup",
    the token deletion stays, and no proximity request is marked expired.
    What the QR redeem routes look up at that instant is unchanged. *)
Theorem cleanup_route_fails_after_token_delete now st :
  post_expired_tokens now st
    = (Fail 500 "Failed to perform cleanup",
       set_tokens st (filter (fun t => stamp_live now (qt_expires_at t))
                             (qr_exchange_tokens st)))
  /\ exchange_requests (snd (post_expired_tokens now st)) = exchange_requests st
  /\ (forall tok, find_live_token (snd (post_expired_tokens now st)) now tok
                  = find_live_token st now tok).
Proof.
  assert (E : post_expired_tokens now st
              = (Fail 500 "Failed to perform cleanup",
                 set_tokens st (filter (fun t => stamp_live now (qt_expires_at t))
                                       (qr_exchange_tokens st)))) by reflexivity.
  rewrite E; split; [reflexivity|split; [reflexivity|]].
  intros tok; unfold find_live_token; cbn.
  apply find_filter_keep; intros t Ht.
  apply andb_true_iff in Ht as [_ Ht]; exact Ht.
Qed.


(** Extra (one-segment [GET] routes of both exchanges routers): [GET /:id]
    is registered first, so it handles every one-segment path; in
    particular [GET /exchanges/requests] of the first router answers 404
    "Exchange record not found" and writes nothing. *)
Theorem get_id_route_answers_every_segment caller now token seg st :
  ExchangesV1.get_segment caller now token seg st = ExchangesV1.get_exchange caller seg st
  /\ ExchangesV2.get_segment caller seg st = ExchangesV2.get_exchange caller seg st
  /\ ExchangesV1.get_segment caller now token "requests" st
     = (Fail 404 "Exchange record not found", st).
Proof.
  split; [reflexivity|split; [reflexivity|]].
  apply v1_get_word; cbn; lia.
Qed.

(** Extra (QR parser of the later exchanges router): a payload made by
    [generateCardExchangeQRData] at instant [t0] is returned unchanged
    exactly when [t0] is not [0] and at most 30 minutes have passed;
    otherwise it is refused. *)
Theorem v2_parser_generated_payload now t0 c u tok :
  (ExchangesV2.parseCardExchangeQRData now (Some (QR.generateCardExchangeQRData t0 c u tok))
     = Some (QR.generateCardExchangeQRData t0 c u tok)
   <-> t0 <> 0 /\ now - t0 <= 30 * 60 * 1000)
  /\ (ExchangesV2.parseCardExchangeQRData now (Some (QR.generateCardExchangeQRData t0 c u tok))
        = None
   <-> t0 = 0 \/ now - t0 > 30 * 60 * 1000).
Proof.
  unfold ExchangesV2.parseCardExchangeQRData, QR.generateCardExchangeQRData; cbn.
  destruct (Z.eqb t0 0) eqn:E; [apply Z.eqb_eq in E|apply Z.eqb_neq in E];
    [|destruct (Z.ltb _ (now - t0)) eqn:E2; [apply Z.ltb_lt in E2|apply Z.ltb_ge in E2]];
    split; split; intros Hx; solve [ discriminate Hx | reflexivity | lia ].
Qed.

(** Extra (the two QR parsers): every payload the later router's own
    parser accepts, it returns unchanged, with all four fields present
    and a nonzero timestamp, and the utilities' parser accepts it with
    the same fields at the same instant.  A payload without a timestamp
    is refused by the router's parser and accepted by the utilities'
    parser. *)
Theorem v2_parser_refines_utils_parser :
  (forall now data d,
    ExchangesV2.parseCardExchangeQRData now data = Some d ->
    data = Some d
    /\ exists c u tok ts,
         q_cardId d = Some c /\ q_userId d = Some u /\ q_token d = Some tok
         /\ q_timestamp d = Some ts /\ ts <> 0
         /\ QR.parseCardExchangeQRData now data = Some (QR.mkQRContent c u tok (Some ts)))
  /\ (forall now d,
    q_type d = "card_exchange"%string -> q_cardId d <> None -> q_userId d <> None ->
    q_token d <> None -> q_timestamp d = None ->
    ExchangesV2.parseCardExchangeQRData now (Some d) = None
    /\ QR.parseCardExchangeQRData now (Some d) <> None).
Proof.
  split.
  - intros now data d H.
    unfold ExchangesV2.parseCardExchangeQRData in H.
    destruct data as [d0|]; [|discriminate].
    destruct (String.eqb (q_type d0) "card_exchange") eqn:Et; cbn in H; [|discriminate].
    destruct (q_cardId d0) as [c|] eqn:Ec, (q_userId d0) as [u|] eqn:Eu,
      (q_token d0) as [tok|] eqn:Ek, (q_timestamp d0) as [ts|] eqn:Es;
      try discriminate.
    destruct (Z.eqb ts 0) eqn:E1; [discriminate H|apply Z.eqb_neq in E1].
    destruct (Z.ltb _ (now - ts)) eqn:E2; [discriminate H|apply Z.ltb_ge in E2].
    injection H as <-; split; [reflexivity|].
    exists c, u, tok, ts; repeat split; auto.
    unfold QR.parseCardExchangeQRData; rewrite Et, Ec, Eu, Ek; cbn.
    unfold QR.too_old, QR.maxAge; rewrite Es.
    destruct (Z.ltb _ (now - ts)) eqn:E3; [apply Z.ltb_lt in E3; lia|reflexivity].
  - intros now d Ht Hc Hu Hk Hs.
    destruct (q_cardId d) as [c|] eqn:Ec; [|congruence].
    destruct (q_userId d) as [u|] eqn:Eu; [|congruence].
    destruct (q_token d) as [tok|] eqn:Ek; [|congruence].
    unfold ExchangesV2.parseCardExchangeQRData, QR.parseCardExchangeQRData.
    rewrite Ht, Ec, Eu, Ek, Hs; cbn; split; [reflexivity|discriminate].
Qed.

(** Extra ([DELETE /exchanges/qr/logs/:id]): a missing log answers 404
    and a caller who is neither the QR's owner nor its scanner 403, both
    writing nothing; the owner or the scanner deletes exactly the rows
    with that id and nothing else. *)
Theorem delete_qr_log_owner_or_scanner caller lid st :
  (ExchangesV2.find_log st lid = None ->
     ExchangesV2.delete_qr_log caller lid st = (Fail 404 "QR exchange log not found", st))
  /\ (forall l, ExchangesV2.find_log st lid = Some l ->
       qr_owner_user_id l <> caller -> scanner_user_id l <> caller ->
       ExchangesV2.delete_qr_log caller lid st
         = (Fail 403 "Not authorized to delete this QR exchange log", st))
  /\ (forall l, ExchangesV2.find_log st lid = Some l ->
       qr_owner_user_id l = caller \/ scanner_user_id l = caller ->
       ExchangesV2.delete_qr_log caller lid st
         = (Ok 200 NoData,
            set_logs st (filter (fun l' => negb (Nat.eqb (log_id l') lid))
                                (qr_exchange_logs st)))).
Proof.
  unfold ExchangesV2.delete_qr_log, ExchangesV2.delete_qr_log_body; unfold_handler; cbn.
  split; [|split].
  - intros H; rewrite H; reflexivity.
  - intros l H Ho Hs; rewrite H; cbn.
    apply Nat.eqb_neq in Ho, Hs; rewrite Ho, Hs; reflexivity.
  - intros l H Hc; rewrite H; cbn.
    destruct Hc as [Hc|Hc]; apply Nat.eqb_eq in Hc; rewrite Hc;
      rewrite ?andb_false_r; reflexivity.
Qed.

(** Extra ([GET /exchanges/:id] of both routers): the route writes
    nothing and answers the first joined row of the caller whose id, as
    text, is the path segment, with its card and the card's creator, or
    404 "Exchange record not found" when there is none; the two routers
    answer alike. *)
Theorem get_exchange_detail caller seg st :
  ExchangesV1.get_exchange caller seg st
    = (match exchange_detail st caller seg with
       | None => Fail 404 "Exchange record not found"
       | Some (e, c, u) => Ok 200 (Detail e c u)
       end, st)
  /\ ExchangesV2.get_exchange caller seg st = ExchangesV1.get_exchange caller seg st
  /\ (forall e c u, exchange_detail st caller seg = Some (e, c, u) ->
       In e (exchanges st) /\ owner_user_id e = caller /\ string_of_id (ex_id e) = seg
       /\ find_card st (collected_card_id e) = Some c
       /\ find_user st (card_user_id c) = Some u).
Proof.
  split; [|split].
  - unfold ExchangesV1.get_exchange, ExchangesV1.get_exchange_body, run_handler, bind, get.
    destruct (exchange_detail st caller seg) as [[[e c] u]|]; reflexivity.
  - unfold ExchangesV1.get_exchange, ExchangesV1.get_exchange_body,
      ExchangesV2.get_exchange, ExchangesV2.get_exchange_body, run_handler, bind, get.
    destruct (exchange_detail st caller seg) as [[[e c] u]|]; reflexivity.
  - intros e c u; unfold exchange_detail.
    induction (exchanges st) as [|x xs IH]; cbn [flat_map hd_error]; [discriminate|].
    assert (Hrest : hd_error (flat_map (fun e0 =>
               if (string_of_id (ex_id e0) =? seg)%string && Nat.eqb (owner_user_id e0) caller
               then match detail_row st e0 with Some r => [r] | None => [] end
               else []) xs) = Some (e, c, u) ->
             In e (x :: xs) /\ owner_user_id e = caller /\ string_of_id (ex_id e) = seg
             /\ find_card st (collected_card_id e) = Some c
             /\ find_user st (card_user_id c) = Some u).
    { intros H; destruct (IH H) as (H1 & H2 & H3 & H4 & H5).
      repeat split; [right; exact H1|assumption..]. }
    destruct (String.eqb_spec (string_of_id (ex_id x)) seg) as [Ex|Ex];
      [|cbn [andb app]; exact Hrest].
    destruct (Nat.eqb_spec (owner_user_id x) caller) as [Eo|Eo];
      [|cbn [andb app]; exact Hrest].
    cbn [andb].
    destruct (detail_row st x) as [[[x' c'] u']|] eqn:Ed; cbn [app hd_error];
      [|exact Hrest].
    intros [= <- <- <-].
    unfold detail_row in Ed.
    destruct (find_card st (collected_card_id x)) as [c0|] eqn:Ec; [|discriminate].
    destruct (find_user st (card_user_id c0)) as [u0|] eqn:Eu; [|discriminate].
    injection Ed as -> <- <-.
    repeat split; [left; reflexivity|assumption..].
Qed.

(** Extra ([POST /exchanges/mutual], [POST /exchanges/qr] and an accept
    of [POST /exchanges/requests/:id/respond] of the first router): a body
    without all three location fields never succeeds and writes nothing:
    the first insert binds [undefined] and throws before any row is
    written. *)
Theorem v1_exchanges_need_location caller now id1 id2 :
  (forall body st, located (ExchangesV1.me_location body) = false ->
     success (fst (ExchangesV1.post_mutual caller now id1 id2 body st)) = false
     /\ snd (ExchangesV1.post_mutual caller now id1 id2 body st) = st)
  /\ (forall body st, located (ExchangesV1.qr_location body) = false ->
     success (fst (ExchangesV1.post_qr caller now id1 id2 body st)) = false
     /\ snd (ExchangesV1.post_qr caller now id1 id2 body st) = st)
  /\ (forall rid body st, ExchangesV1.rs_action body = "accept"%string ->
     located (ExchangesV1.rs_location body) = false ->
     success (fst (ExchangesV1.post_respond caller now rid id1 id2 body st)) = false
     /\ snd (ExchangesV1.post_respond caller now rid id1 id2 body st) = st).
Proof.
  split; [|split].
  - intros body st Hl.
    unfold ExchangesV1.post_mutual, ExchangesV1.post_mutual_body.
    destruct (ExchangesV1.me_location body) as [[n|] [la|] [lo|]];
      cbn in Hl; try discriminate Hl;
      unfold_handler; split_matches; split; reflexivity.
  - intros body st Hl.
    unfold ExchangesV1.post_qr, ExchangesV1.post_qr_body.
    destruct (ExchangesV1.qr_location body) as [[n|] [la|] [lo|]];
      cbn in Hl; try discriminate Hl;
      unfold_handler; split_matches; split; reflexivity.
  - intros rid body st Ha Hl.
    unfold ExchangesV1.post_respond, ExchangesV1.post_respond_body.
    rewrite Ha; cbn [String.eqb Ascii.eqb Bool.eqb negb orb andb].
    destruct (ExchangesV1.rs_location body) as [[n|] [la|] [lo|]];
      cbn in Hl; try discriminate Hl;
      unfold_handler; split_matches; split; reflexivity.
Qed.

(** Extra ([POST /exchanges] of the later router): a body without [memo]
    or without all three location fields never succeeds and writes
    nothing: the insert binds [undefined] and throws. *)
Theorem v2_collect_needs_memo_and_location caller now xid body st :
  ExchangesV1.cr_memo body = None \/ located (ExchangesV1.cr_location body) = false ->
  success (fst (ExchangesV2.post_exchanges caller now xid body st)) = false
  /\ snd (ExchangesV2.post_exchanges caller now xid body st) = st.
Proof.
  intros H.
  unfold ExchangesV2.post_exchanges, ExchangesV2.post_exchanges_body.
  destruct H as [Hm|Hl].
  - rewrite Hm; unfold_handler; split_matches; split; reflexivity.
  - destruct (ExchangesV1.cr_location body) as [[n|] [la|] [lo|]];
      cbn in Hl; try discriminate Hl;
      unfold_handler; split_matches; split; reflexivity.
Qed.

(** Extra (all writing routes): in every database the routes can reach,
    card ids are unique, every ledger row points to an existing card owned
    by someone other than its collector, and every proximity request is
    sent to someone else by the owner of an existing card. *)
Theorem reachable_references_hold st :
  reachable st ->
  NoDup (map card_id (cards st))
  /\ (forall e, In e (exchanges st) ->
        exists c, find_card st (collected_card_id e) = Some c
                  /\ card_user_id c <> owner_user_id e)
  /\ (forall r, In r (exchange_requests st) ->
        from_user_id r <> to_user_id r
        /\ exists c, find_card st (rq_card_id r) = Some c
                     /\ card_user_id c = from_user_id r).
Proof.
  intros H; destruct (reachable_inv _ H) as (Hu & He & Hr).
  split; [exact Hu|split].
  - intros e Hin; exact (proj1 (Forall_forall _ _) He e Hin).
  - intros r Hin; exact (proj1 (Forall_forall _ _) Hr r Hin).
Qed.

(** Extra (all writing routes): in every database the routes can reach,
    no two Collection Ledger rows record the same direction
    (collector, collected card): rows are only added through the
    constrained insert, and no update rewrites the collector or the
    card. *)
Theorem reachable_ledger_one_row_per_direction st :
  reachable st ->
  NoDup (map (fun e => (owner_user_id e, collected_card_id e)) (exchanges st)).
Proof. intros H; exact (reachable_ledger st H). Qed.

(** Extra ([DELETE /exchanges/:id] then [POST /exchanges], both routers):
    in a reachable database, once the collector deletes a ledger row, no
    row for that direction is left and collecting the same card again
    succeeds. *)
Theorem delete_then_recollect st caller xid e :
  reachable st -> find_exchange st xid = Some e -> owner_user_id e = caller ->
  (fst (ExchangesV1.delete_exchange caller xid st) = Ok 200 NoData
   /\ find_collection (snd (ExchangesV1.delete_exchange caller xid st))
                      caller (collected_card_id e) = None
   /\ forall now xid' body,
        ExchangesV1.cr_collected_card_id body = Some (collected_card_id e) ->
        exists d, fst (ExchangesV1.post_exchanges caller now xid' body
                         (snd (ExchangesV1.delete_exchange caller xid st))) = Ok 201 d)
  /\ (fst (ExchangesV2.delete_exchange caller xid st) = Ok 200 NoData
   /\ find_collection (snd (ExchangesV2.delete_exchange caller xid st))
                      caller (collected_card_id e) = None
   /\ forall now xid' body,
        ExchangesV1.cr_collected_card_id body = Some (collected_card_id e) ->
        ExchangesV1.cr_memo body <> None ->
        located (ExchangesV1.cr_location body) = true ->
        exists d, fst (ExchangesV2.post_exchanges caller now xid' body
                         (snd (ExchangesV2.delete_exchange caller xid st))) = Ok 200 d).
Proof.
  intros Hreach Hf Ho.
  pose proof (reachable_ledger _ Hreach) as Hl.
  destruct (reachable_inv _ Hreach) as (_ & He & _).
  unfold find_exchange in Hf; destruct (find_some _ _ Hf) as [Hin Hid].
  apply Nat.eqb_eq in Hid.
  destruct (proj1 (Forall_forall _ _) He e Hin) as (c & Hc & Hne).
  set (st1 := set_exchanges st (filter (fun x => negb (Nat.eqb (ex_id x) xid))
                                       (exchanges st))).
  assert (Hnone : find_collection st1 caller (collected_card_id e) = None).
  { destruct (find_collection st1 caller (collected_card_id e)) as [e'|] eqn:E; [|reflexivity].
    destruct (find_collection_some _ _ _ _ E) as (Hin' & Ho' & Hc').
    cbn in Hin'; apply filter_In in Hin' as [Hin' Hn].
    assert (e' = e) as ->.
    { apply (NoDup_map_inj dir (exchanges st) e' e Hl Hin' Hin).
      unfold dir; rewrite Ho', Hc', Ho; reflexivity. }
    rewrite Hid, Nat.eqb_refl in Hn; discriminate Hn. }
  assert (Hc1 : find_card st1 (collected_card_id e) = Some c) by exact Hc.
  rewrite Ho in Hne; apply Nat.eqb_neq in Hne.
  assert (HV1 : ExchangesV1.delete_exchange caller xid st = (Ok 200 NoData, st1)).
  { unfold ExchangesV1.delete_exchange, ExchangesV1.delete_exchange_body; unfold_handler.
    cbn; unfold find_exchange; rewrite Hf; cbn; rewrite Ho, Nat.eqb_refl; reflexivity. }
  assert (HV2 : ExchangesV2.delete_exchange caller xid st = (Ok 200 NoData, st1)).
  { unfold ExchangesV2.delete_exchange, ExchangesV2.delete_exchange_body; unfold_handler.
    cbn; unfold find_exchange; rewrite Hf; cbn; rewrite Ho, Nat.eqb_refl; reflexivity. }
  rewrite HV1, HV2; cbn [fst snd].
  split; (split; [reflexivity|split; [exact Hnone|]]);
    intros now xid' body Hb.
  - unfold ExchangesV1.post_exchanges, ExchangesV1.post_exchanges_body; unfold_handler.
    rewrite Hb; cbn; rewrite Hc1; cbn; rewrite Hne, Hnone; cbn.
    rewrite ?Hnone; cbn; eexists; reflexivity.
  - intros Hm Hloc; unfold located in Hloc.
    unfold ExchangesV2.post_exchanges, ExchangesV2.post_exchanges_body; unfold_handler.
    rewrite Hb; cbn; rewrite Hc1; cbn; rewrite Hne, Hnone; cbn.
    destruct (ExchangesV1.cr_memo body); [|congruence].
    destruct (ExchangesV1.cr_location body) as [[n|] [la|] [lo|]]; cbn in Hloc;
      try discriminate Hloc; cbn.
    rewrite ?Hnone; cbn; eexists; reflexivity.
Qed.

(** Extra ([PUT /exchanges/:id] of [src/routes/exchanges.ts]): the
    coordinates are only written as a pair.  A body lacking latitude or
    longitude never changes any stored coordinate; if it also lacks memo
    and location name, the owner gets 400 "No fields to update" and
    nothing is written. *)
Theorem v1_put_coordinates_only_as_pair caller xid body st :
  ExchangesV1.up_latitude body = None \/ ExchangesV1.up_longitude body = None ->
  map (fun e => (latitude e, longitude e))
      (exchanges (snd (ExchangesV1.put_exchange caller xid body st)))
    = map (fun e => (latitude e, longitude e)) (exchanges st)
  /\ (ExchangesV1.up_memo body = None -> ExchangesV1.up_location_name body = None ->
      forall e, find_exchange st xid = Some e -> owner_user_id e = caller ->
      ExchangesV1.put_exchange caller xid body st = (Fail 400 "No fields to update", st)).
Proof.
  intros Hpair; split.
  - unfold ExchangesV1.put_exchange, ExchangesV1.put_exchange_body; unfold_handler.
    cbn; destruct (find_exchange st xid) as [e|]; cbn; [|reflexivity].
    destruct (negb _); cbn; [reflexivity|].
    destruct (ExchangesV1.no_fields body); cbn; [reflexivity|].
    rewrite map_map; apply map_ext; intros x.
    destruct (Nat.eqb (ex_id x) xid); [|reflexivity].
    unfold ExchangesV1.apply_update.
    destruct Hpair as [H|H]; rewrite H; cbn;
      [|destruct (ExchangesV1.up_latitude body)]; reflexivity.
  - intros Hm Hn e Hf Ho.
    unfold ExchangesV1.put_exchange, ExchangesV1.put_exchange_body; unfold_handler.
    cbn; rewrite Hf; cbn; rewrite Ho, Nat.eqb_refl; cbn.
    unfold ExchangesV1.no_fields; rewrite Hm, Hn.
    destruct Hpair as [H|H]; rewrite H;
      [|destruct (ExchangesV1.up_latitude body)]; reflexivity.
Qed.

(** Extra ([PUT /exchanges/:id] of both routers): an empty update body
    from the owner is refused by the first router with 400 "No fields to
    update", writing nothing, while the later router answers 200 and
    overwrites the row's memo with the empty string and its location name
    and coordinates with NULL. *)
Theorem put_empty_body caller xid st e :
  find_exchange st xid = Some e -> owner_user_id e = caller ->
  ExchangesV1.put_exchange caller xid (ExchangesV1.mkUpdate None None None None) st
    = (Fail 400 "No fields to update", st)
  /\ ExchangesV2.put_exchange caller xid (ExchangesV1.mkUpdate None None None None) st
    = (Ok 200 NoData,
       set_exchanges st
         (map (fun x => if Nat.eqb (ex_id x) xid
                        then mkExchange (ex_id x) (owner_user_id x) (collected_card_id x)
                               (Some ""%string) None None None (created_at x)
                        else x) (exchanges st))).
Proof.
  intros Hf Ho.
  unfold ExchangesV1.put_exchange, ExchangesV1.put_exchange_body,
    ExchangesV2.put_exchange, ExchangesV2.put_exchange_body; unfold_handler.
  cbn; rewrite Hf; cbn; rewrite Ho, Nat.eqb_refl; split; reflexivity.
Qed.

(** Extra ([POST /exchanges/request] of [src/routes/exchanges.ts]): after
    a request is sent, the sender cannot send another one to the same
    user, with any card of theirs, until the first expires: the route
    answers 409 and writes nothing. *)
Theorem request_pending_blocks_resend caller now rid body st code d :
  fst (ExchangesV1.post_request caller now rid body st) = Ok code d ->
  forall now' rid' body' c',
    ExchangesV1.sr_targetUserId body' = ExchangesV1.sr_targetUserId body ->
    ExchangesV1.sr_cardId body' = Some c' ->
    find_own_card st c' caller <> None ->
    now' < now + ExchangesV1.request_ttl ->
    ExchangesV1.post_request caller now' rid' body'
      (snd (ExchangesV1.post_request caller now rid body st))
    = (Fail 409 "You already have a pending exchange request with this user",
       snd (ExchangesV1.post_request caller now rid body st)).
Proof.
  intros Hok now' rid' body' c' Ht Hc Hown Hlive.
  assert (Hs : exists t c0 tu msg,
    ExchangesV1.sr_targetUserId body = Some t /\ Nat.eqb t caller = false
    /\ find_user st t = Some tu
    /\ ExchangesV1.find_pending_between st now caller t = None
    /\ snd (ExchangesV1.post_request caller now rid body st)
       = set_requests st (exchange_requests st ++
           [mkRequest rid caller t c0 msg Pending (now + ExchangesV1.request_ttl)])).
  { revert Hok; unfold ExchangesV1.post_request, ExchangesV1.post_request_body.
    unfold_handler; split_matches; intros Hok; try discriminate Hok.
    do 4 eexists; repeat split; eassumption || reflexivity. }
  destruct Hs as (t & c0 & tu & msg & Hbt & Htc & Hu & Hn & ->).
  destruct (find_own_card st c' caller) as [mc|] eqn:Emc; [|congruence].
  unfold ExchangesV1.post_request, ExchangesV1.post_request_body; unfold_handler.
  rewrite Ht, Hc, Hbt; cbn; rewrite Htc; cbn.
  change (find_own_card _ c' caller) with (find_own_card st c' caller); rewrite Emc.
  change (find_user _ t) with (find_user st t); rewrite Hu.
  unfold ExchangesV1.find_pending_between; cbn; rewrite find_app.
  destruct (find _ (exchange_requests st)); [reflexivity|]; cbn.
  rewrite !Nat.eqb_refl; cbn.
  unfold live; destruct (now' <? _) eqn:E; [reflexivity|].
  apply Z.ltb_ge in E; unfold ExchangesV1.request_ttl in Hlive; lia.
Qed.

(** Extra ([POST /exchanges/requests/:id/respond]): a request is answered
    at most once.  After a successful accept or reject, any well-formed
    response to the same request, by anyone at any instant, answers 404
    "Exchange request not found or expired" and writes nothing. *)
Theorem respond_at_most_once caller now rid id1 id2 body st code d :
  fst (ExchangesV1.post_respond caller now rid id1 id2 body st) = Ok code d ->
  forall caller' now' id1' id2' body',
    (ExchangesV1.rs_action body' = "reject"%string
     \/ (ExchangesV1.rs_action body' = "accept"%string
         /\ ExchangesV1.rs_myCardId body' <> None)) ->
    ExchangesV1.post_respond caller' now' rid id1' id2' body'
      (snd (ExchangesV1.post_respond caller now rid id1 id2 body st))
    = (Fail 404 "Exchange request not found or expired",
       snd (ExchangesV1.post_respond caller now rid id1 id2 body st)).
Proof.
  intros Hok caller' now' id1' id2' body' Hact.
  assert (Hpre : forall st1,
    ExchangesV1.find_pending_request st1 now' rid caller' = None ->
    ExchangesV1.post_respond caller' now' rid id1' id2' body' st1
      = (Fail 404 "Exchange request not found or expired", st1)).
  { intros st1 Hn.
    unfold ExchangesV1.post_respond, ExchangesV1.post_respond_body; unfold_handler.
    destruct Hact as [Ha|[Ha Hm]]; rewrite Ha; cbn.
    - rewrite Hn; reflexivity.
    - destruct (ExchangesV1.rs_myCardId body'); [|congruence]; cbn.
      rewrite Hn; reflexivity. }
  apply Hpre; clear Hpre Hact.
  revert Hok; unfold ExchangesV1.post_respond, ExchangesV1.post_respond_body.
  unfold_handler; split_matches; intros Hok; try discriminate Hok;
    unfold ExchangesV1.find_pending_request; cbn;
    apply find_pending_after_status; discriminate.
Qed.

(** Extra ([POST /exchanges/qr] of [src/routes/exchanges.ts]): a QR
    payload is redeemable once.  After a successful redeem, presenting the
    same [qrData] again, by anyone at any instant, fails with 400 and
    writes nothing, since the token was deleted. *)
Theorem v1_qr_payload_single_use caller now id1 id2 body st code d :
  fst (ExchangesV1.post_qr caller now id1 id2 body st) = Ok code d ->
  forall caller' now' id1' id2' body',
    ExchangesV1.qr_qrData body' = ExchangesV1.qr_qrData body ->
    exists msg,
      ExchangesV1.post_qr caller' now' id1' id2' body'
        (snd (ExchangesV1.post_qr caller now id1 id2 body st))
      = (Fail 400 msg, snd (ExchangesV1.post_qr caller now id1 id2 body st)).
Proof.
  intros Hok caller' now' id1' id2' body' Hq.
  assert (Hs : exists qd qc,
    ExchangesV1.qr_qrData body = Some qd
    /\ QR.parseCardExchangeQRData now qd = Some qc
    /\ forall t, In t (qr_exchange_tokens (snd (ExchangesV1.post_qr caller now id1 id2 body st)))
                 -> Nat.eqb (qt_token t) (QR.qc_token qc) = true -> False).
  { revert Hok; unfold ExchangesV1.post_qr, ExchangesV1.post_qr_body.
    unfold_handler; split_matches; intros Hok; try discriminate Hok.
    do 2 eexists; split; [reflexivity|split; [eassumption|]].
    intros t Ht Htok; apply filter_In in Ht as [_ Ht].
    rewrite Htok in Ht; discriminate Ht. }
  destruct Hs as (qd & qc & Hqd & Hp & Hn).
  generalize dependent (snd (ExchangesV1.post_qr caller now id1 id2 body st)); intros st1 Hn.
  unfold ExchangesV1.post_qr, ExchangesV1.post_qr_body; unfold_handler.
  rewrite Hq, Hqd; cbn.
  destruct (ExchangesV1.qr_myCardId body'); cbn; [|eexists; reflexivity].
  destruct (QR.parseCardExchangeQRData now' qd) as [qc'|] eqn:Hp'; cbn;
    [|eexists; reflexivity].
  rewrite <- (qr_parse_same_token _ _ _ _ _ Hp Hp').
  replace (find_live_token st1 now' (QR.qc_token qc)) with (@None QRToken);
    [eexists; reflexivity|].
  symmetry; unfold find_live_token; apply find_none_forall; intros t Ht.
  destruct (Nat.eqb (qt_token t) (QR.qc_token qc)) eqn:Et; [|reflexivity].
  destruct (Hn t Ht Et).
Qed.

(** Extra ([DELETE /cards/:id]): a missing card answers 404 and another
    user's card 403, both writing nothing.  When the owner deletes it, the
    card is gone and no ledger row, proximity request or QR token refers to
    it any more; users are untouched. *)
Theorem delete_card_owner_only caller cid st :
  (find_card st cid = None ->
     Cards.delete_card caller cid st = (Fail 404 "Card not found", st))
  /\ (forall c, find_card st cid = Some c -> card_user_id c <> caller ->
       Cards.delete_card caller cid st
         = (Fail 403 "You are not authorized to delete this card", st))
  /\ (forall c, find_card st cid = Some c -> card_user_id c = caller ->
       fst (Cards.delete_card caller cid st) = Ok 200 NoData
       /\ find_card (snd (Cards.delete_card caller cid st)) cid = None
       /\ (forall e, In e (exchanges (snd (Cards.delete_card caller cid st))) ->
                     collected_card_id e <> cid)
       /\ (forall r, In r (exchange_requests (snd (Cards.delete_card caller cid st))) ->
                     rq_card_id r <> cid)
       /\ (forall t, In t (qr_exchange_tokens (snd (Cards.delete_card caller cid st))) ->
                     qt_card_id t <> cid)
       /\ users (snd (Cards.delete_card caller cid st)) = users st).
Proof.
  unfold Cards.delete_card, Cards.delete_card_body; unfold_handler; cbn.
  split; [|split].
  - intros H; rewrite H; reflexivity.
  - intros c H Ho; rewrite H; cbn; apply Nat.eqb_neq in Ho; rewrite Ho; reflexivity.
  - intros c H Ho; rewrite H; cbn; rewrite Ho, Nat.eqb_refl; cbn.
    assert (Hg : forall (A : Type) (f : A -> CardId) (l : list A) x,
               In x (filter (fun y => negb (Nat.eqb (f y) cid)) l) -> f x <> cid).
    { intros A f l x Hx; apply filter_In in Hx as [_ Hx].
      apply negb_true_iff, Nat.eqb_neq in Hx; exact Hx. }
    split; [reflexivity|split; [|split; [|split; [|split]]]].
    + unfold find_card; apply find_none_forall; intros x Hx; cbn in Hx.
      apply Nat.eqb_neq; exact (Hg _ card_id _ x Hx).
    + intros e He; exact (Hg _ collected_card_id _ e He).
    + intros r Hr; exact (Hg _ rq_card_id _ r Hr).
    + intros t Ht; exact (Hg _ qt_card_id _ t Ht).
    + reflexivity.
Qed.

(** Extra ([POST /cards/:id/generate-exchange-url] then
    [POST /exchanges/mutual]): in a reachable database, the share URL
    token the card's owner issues at [t0] stores nothing, and until
    [t0 + 24 h] another user who holds neither direction completes the
    mutual exchange with it when the body carries the location fields. *)
Theorem exchange_url_round_trip issuer t0 cid st c :
  reachable st -> find_own_card st cid issuer = Some c ->
  snd (Cards.post_generate_exchange_url issuer t0 cid st) = st
  /\ exists td,
       fst (Cards.post_generate_exchange_url issuer t0 cid st)
         = Ok 200 (ExchangeUrl td cid (t0 + Cards.url_ttl))
       /\ forall now caller id1 id2 body m mine,
            now <= t0 + Cards.url_ttl ->
            ExchangesV1.me_exchangeToken body = Some (Some td) ->
            ExchangesV1.me_myCardId body = Some m ->
            located (ExchangesV1.me_location body) = true ->
            find_own_card st m caller = Some mine -> issuer <> caller ->
            find_collection st caller cid = None ->
            find_collection st issuer (card_id mine) = None ->
            fst (ExchangesV1.post_mutual caller now id1 id2 body st)
              = Ok 200 (ExchangePair id1 caller cid id2 issuer (card_id mine)).
Proof.
  intros Hreach Hown.
  destruct (reachable_inv _ Hreach) as (Huniq & _ & _).
  destruct (find_own_card_find _ _ _ _ Huniq Hown) as [Hc Hcu].
  destruct (find_card_some _ _ _ Hc) as [Hid _].
  unfold Cards.post_generate_exchange_url, Cards.post_generate_exchange_url_body;
    unfold_handler; cbn; rewrite Hown; cbn.
  split; [reflexivity|]; eexists; split; [rewrite Hid; reflexivity|].
  intros now caller id1 id2 body m mine Hnow Hb Hm Hl Hmine Hne H1 H2.
  assert (Hx : url_token_expired now (Some (t0 + 86400000)) = false).
  { unfold url_token_expired; apply Z.ltb_ge; unfold Cards.url_ttl in Hnow; lia. }
  unfold located in Hl.
  unfold ExchangesV1.post_mutual, ExchangesV1.post_mutual_body, run_handler,
    check_url_token, bind_location, bound, bind, get, ret.
  rewrite Hb, Hm; cbn [td_expires td_cardId]; rewrite Hx; cbn.
  rewrite Hc, Hmine, Hcu.
  apply Nat.eqb_neq in Hne; rewrite Hne, ?Hid, H1, H2.
  destruct (b_location_name (ExchangesV1.me_location body)); [|discriminate].
  destruct (b_latitude (ExchangesV1.me_location body)); [|discriminate].
  destruct (b_longitude (ExchangesV1.me_location body)); [|discriminate].
  unfold insert_exchange; cbn; rewrite H1; cbn.
  rewrite find_collection_snoc, H2; cbn.
  rewrite Nat.eqb_sym, Hne; reflexivity.
Qed.

(** Extra (both QR token issuing routes and the QR redeem lookup): a
    freshly drawn token value issued at [now] by
    [POST /exchanges/qr/generate] is found live exactly until
    [now + 30 min]; issued by [POST /cards/:id/generate-qr], whose
    [expires_at] is ISO text compared as text with [datetime("now")], it
    is found live until the end of the UTC day of [now + 30 min]. *)
Theorem issued_qr_token_live_window caller now tok cid st c :
  find_own_card st cid caller = Some c ->
  existsb (fun t => Nat.eqb (qt_token t) tok) (qr_exchange_tokens st) = false ->
  forall now',
    find_live_token (snd (ExchangesV2.post_qr_generate caller now tok (Some cid) st)) now' tok
      = (if now' <? now + 30 * 60 * 1000
         then Some (mkQRToken tok caller cid (SqlTime (now + 30 * 60 * 1000))) else None)
    /\ find_live_token (snd (Cards.post_generate_qr caller now tok cid st)) now' tok
      = (if day now' <=? day (now + 30 * 60 * 1000)
         then Some (mkQRToken tok caller cid (IsoText (now + 30 * 60 * 1000))) else None).
Proof.
  intros Hown Hfresh now'.
  assert (Hnone : forall l, (forall t, In t l -> In t (qr_exchange_tokens st)) ->
            find (fun t => Nat.eqb (qt_token t) tok && stamp_live now' (qt_expires_at t)) l
            = None).
  { intros l Hl; apply find_none_forall; intros t Ht.
    destruct (Nat.eqb (qt_token t) tok) eqn:Hx; [|reflexivity].
    assert (Hc : existsb (fun t => Nat.eqb (qt_token t) tok) (qr_exchange_tokens st) = true)
      by (apply existsb_exists; exists t; auto).
    congruence. }
  unfold ExchangesV2.post_qr_generate, ExchangesV2.post_qr_generate_body,
    Cards.post_generate_qr, Cards.post_generate_qr_body; unfold_handler; cbn.
  rewrite Hown; cbn; unfold find_live_token; cbn.
  rewrite !find_app.
  rewrite (Hnone (qr_exchange_tokens st)) by (intros t Ht; exact Ht).
  rewrite (Hnone (filter _ (qr_exchange_tokens st)))
    by (intros t Ht; apply filter_In in Ht as [Ht _]; exact Ht).
  cbn; rewrite Nat.eqb_refl; cbn.
  unfold stamp_live, live, ExchangesV2.qr_token_ttl; split;
    [destruct (_ <? _) | destruct (_ <=? _)]; reflexivity.
Qed.

Local Open Scope nat_scope.

(** Witnesses: each theorem above with a hypothesis, applied to the
    example database of Alice (user 1, card 10) and Bob (user 2, card 20). *)

Lemma v2_parser_refines_utils_parser_witness :
  ExchangesV2.parseCardExchangeQRData 1000
    (Some (mkQRData "card_exchange" (Some 10%nat) (Some 1%nat) (Some 7%nat) None)) = None
  /\ QR.parseCardExchangeQRData 1000
    (Some (mkQRData "card_exchange" (Some 10%nat) (Some 1%nat) (Some 7%nat) None)) <> None.
Proof.
  apply (proj2 v2_parser_refines_utils_parser);
    solve [reflexivity | discriminate].
Defined.

Lemma delete_qr_log_owner_or_scanner_witness :
  ExchangesV2.delete_qr_log 3 200 Examples.logs_state
    = (Fail 403 "Not authorized to delete this QR exchange log", Examples.logs_state).
Proof.
  apply (proj1 (proj2 (delete_qr_log_owner_or_scanner 3 200 Examples.logs_state))
           Examples.qr_log_200);
    [vm_compute; reflexivity | discriminate | discriminate].
Defined.

Lemma get_exchange_detail_witness :
  exchange_detail Examples.ex_state 2 "100"%string
    = Some (Examples.bob_holds_10, mkCard 10 1 "Alice"%string, mkUser 1 (Some "alice"%string))
  /\ In Examples.bob_holds_10 (exchanges Examples.ex_state)
  /\ string_of_id (ex_id Examples.bob_holds_10) = "100"%string.
Proof.
  assert (H : exchange_detail Examples.ex_state 2 "100"%string
              = Some (Examples.bob_holds_10, mkCard 10 1 "Alice"%string,
                      mkUser 1 (Some "alice"%string))) by (vm_compute; reflexivity).
  destruct (proj2 (proj2 (get_exchange_detail 2 "100"%string Examples.ex_state)) _ _ _ H)
    as (H1 & _ & H3 & _).
  split; [exact H|split; [exact H1|exact H3]].
Defined.

Lemma v1_exchanges_need_location_witness :
  success (fst (ExchangesV1.post_mutual 2 1000 101 102
                  (ExchangesV1.mkMutual (Some (Some Examples.url_token)) (Some 20) None
                                        Examples.absent_location)
                  Examples.fresh_state)) = false
  /\ snd (ExchangesV1.post_mutual 2 1000 101 102
            (ExchangesV1.mkMutual (Some (Some Examples.url_token)) (Some 20) None
                                  Examples.absent_location)
            Examples.fresh_state) = Examples.fresh_state.
Proof.
  apply (proj1 (v1_exchanges_need_location 2 1000 101 102)); reflexivity.
Defined.

Lemma v2_collect_needs_memo_and_location_witness :
  success (fst (ExchangesV2.post_exchanges 2 0 103
                  (ExchangesV1.mkCreate (Some 10) None Examples.null_location)
                  Examples.fresh_state)) = false
  /\ snd (ExchangesV2.post_exchanges 2 0 103
            (ExchangesV1.mkCreate (Some 10) None Examples.null_location)
            Examples.fresh_state) = Examples.fresh_state.
Proof.
  apply (v2_collect_needs_memo_and_location 2 0 103
           (ExchangesV1.mkCreate (Some 10) None Examples.null_location) Examples.fresh_state).
  left; reflexivity.
Defined.

Lemma reachable_references_hold_witness :
  NoDup (map card_id (cards Examples.ex_state)).
Proof.
  apply (reachable_references_hold Examples.ex_state ex_state_reachable).
Defined.

Lemma reachable_ledger_one_row_per_direction_witness :
  NoDup (map (fun e => (owner_user_id e, collected_card_id e))
             (exchanges Examples.ex_state)).
Proof.
  exact (reachable_ledger_one_row_per_direction Examples.ex_state ex_state_reachable).
Defined.

Lemma delete_then_recollect_witness :
  fst (ExchangesV1.delete_exchange 2 100 Examples.ex_state) = Ok 200 NoData
  /\ exists d, fst (ExchangesV2.post_exchanges 2 0 103 Examples.collect_10
                      (snd (ExchangesV2.delete_exchange 2 100 Examples.ex_state)))
               = Ok 200 d.
Proof.
  destruct (delete_then_recollect Examples.ex_state 2 100 Examples.bob_holds_10
              ex_state_reachable ltac:(vm_compute; reflexivity) eq_refl)
    as [[H1 _] [_ [_ H2]]].
  split; [exact H1|apply H2; [reflexivity | discriminate | reflexivity]].
Defined.

Lemma v1_put_coordinates_only_as_pair_witness :
  ExchangesV1.put_exchange 2 100 (ExchangesV1.mkUpdate None None (Some (Some 35%Z)) None)
    Examples.ex_state = (Fail 400 "No fields to update", Examples.ex_state).
Proof.
  apply (proj2 (v1_put_coordinates_only_as_pair 2 100
                  (ExchangesV1.mkUpdate None None (Some (Some 35%Z)) None)
                  Examples.ex_state (or_intror eq_refl))
           eq_refl eq_refl Examples.bob_holds_10);
    [vm_compute; reflexivity | reflexivity].
Defined.

Lemma put_empty_body_witness :
  ExchangesV1.put_exchange 2 100 (ExchangesV1.mkUpdate None None None None) Examples.ex_state
    = (Fail 400 "No fields to update", Examples.ex_state).
Proof.
  apply (put_empty_body 2 100 Examples.ex_state Examples.bob_holds_10);
    [vm_compute; reflexivity | reflexivity].
Defined.

Lemma request_pending_blocks_resend_witness :
  fst (ExchangesV1.post_request 2 0 301 Examples.bob_request Examples.ex_state)
    = Ok 200 (RequestSent 301 1 20)
  /\ ExchangesV1.post_request 2 1000 302 Examples.bob_request
       (snd (ExchangesV1.post_request 2 0 301 Examples.bob_request Examples.ex_state))
     = (Fail 409 "You already have a pending exchange request with this user",
        snd (ExchangesV1.post_request 2 0 301 Examples.bob_request Examples.ex_state)).
Proof.
  split; [vm_compute; reflexivity|].
  apply (request_pending_blocks_resend 2 0 301 Examples.bob_request Examples.ex_state
           200 (RequestSent 301 1 20) ltac:(vm_compute; reflexivity) 1000 302
           Examples.bob_request 20);
    [reflexivity | reflexivity | intros Hx; vm_compute in Hx; discriminate Hx
    | vm_compute; reflexivity].
Defined.

Lemma respond_at_most_once_witness :
  fst (ExchangesV1.post_respond 2 0 300 101 102 Examples.reject_body Examples.ex_state)
    = Ok 200 NoData
  /\ ExchangesV1.post_respond 2 0 300 103 104 Examples.accept_body
       (snd (ExchangesV1.post_respond 2 0 300 101 102 Examples.reject_body Examples.ex_state))
     = (Fail 404 "Exchange request not found or expired",
        snd (ExchangesV1.post_respond 2 0 300 101 102 Examples.reject_body Examples.ex_state)).
Proof.
  split; [vm_compute; reflexivity|].
  apply (respond_at_most_once 2 0 300 101 102 Examples.reject_body Examples.ex_state
           200 NoData ltac:(vm_compute; reflexivity) 2 0 103 104 Examples.accept_body).
  right; split; [reflexivity | discriminate].
Defined.

Lemma v1_qr_payload_single_use_witness :
  fst (ExchangesV1.post_qr 2 1000 101 102 Examples.v1_qr_body Examples.fresh_state)
    = Ok 200 (ExchangePair 101 2 10 102 1 20)
  /\ exists msg,
       ExchangesV1.post_qr 2 2000 103 104 Examples.v1_qr_body
         (snd (ExchangesV1.post_qr 2 1000 101 102 Examples.v1_qr_body Examples.fresh_state))
       = (Fail 400 msg,
          snd (ExchangesV1.post_qr 2 1000 101 102 Examples.v1_qr_body Examples.fresh_state)).
Proof.
  split; [vm_compute; reflexivity|].
  apply (v1_qr_payload_single_use 2 1000 101 102 Examples.v1_qr_body Examples.fresh_state
           200 (ExchangePair 101 2 10 102 1 20) ltac:(vm_compute; reflexivity)
           2 2000 103 104 Examples.v1_qr_body eq_refl).
Defined.

Lemma delete_card_owner_only_witness :
  fst (Cards.delete_card 1 10 Examples.ex_state) = Ok 200 NoData
  /\ find_card (snd (Cards.delete_card 1 10 Examples.ex_state)) 10 = None.
Proof.
  destruct (proj2 (proj2 (delete_card_owner_only 1 10 Examples.ex_state))
              (mkCard 10 1 "Alice"%string) ltac:(vm_compute; reflexivity) eq_refl)
    as (H1 & H2 & _).
  split; [exact H1 | exact H2].
Defined.

Lemma exchange_url_round_trip_witness :
  exists td,
    fst (Cards.post_generate_exchange_url 1 0 10 Examples.fresh_state)
      = Ok 200 (ExchangeUrl td 10 (0 + Cards.url_ttl)%Z)
    /\ fst (ExchangesV1.post_mutual 2 1000 101 102
             (ExchangesV1.mkMutual (Some (Some td)) (Some 20) None Examples.null_location)
             Examples.fresh_state)
       = Ok 200 (ExchangePair 101 2 10 102 1 20).
Proof.
  destruct (exchange_url_round_trip 1 0 10 Examples.fresh_state (mkCard 10 1 "Alice"%string)
              fresh_state_reachable ltac:(vm_compute; reflexivity))
    as [_ [td [H1 H2]]].
  exists td; split; [exact H1|].
  apply (H2 1000%Z 2 101 102
           (ExchangesV1.mkMutual (Some (Some td)) (Some 20) None Examples.null_location)
           20 (mkCard 20 2 "Bob"%string));
    first [reflexivity | discriminate | vm_compute; reflexivity | vm_compute; discriminate].
Defined.

Lemma issued_qr_token_live_window_witness :
  find_live_token (snd (ExchangesV2.post_qr_generate 1 0 8 (Some 10%nat) Examples.ex_state))
                  1000 8
    = Some (mkQRToken 8 1 10 (SqlTime (0 + 30 * 60 * 1000)%Z))
  /\ find_live_token (snd (Cards.post_generate_qr 1 0 8 10 Examples.ex_state)) 1000 8
    = Some (mkQRToken 8 1 10 (IsoText (0 + 30 * 60 * 1000)%Z)).
Proof.
  exact (issued_qr_token_live_window 1 0 8 10 Examples.ex_state (mkCard 10 1 "Alice"%string)
           ltac:(vm_compute; reflexivity) ltac:(vm_compute; reflexivity) 1000).
Defined.

End Extras.
